(** * Digizone product service: reviews, SKUs, licences and the email dispatcher

    A shallow embedding of [ProductsService] (products.service.ts) and of
    [sendEmail] (src/shared/utility/mail-handler.ts), with the properties the
    specification states about them.

    - JavaScript numbers are IEEE 754 binary64 values ([spec_float] with
      precision 53 and exponent bound 1024); [Number.prototype.toFixed] and
      [Number::toString] follow ECMA-262.
    - An [async] method is a computation in a state-and-exception monad over
      a [World]: the document store, the state of everything outside the
      process (payment ledger, clock, identifier generator) and the list of
      collaborator calls issued so far.
    - The Stripe client is an external library: its three operations are
      parameters of the development, so every theorem holds for every
      behaviour of the ledger.
    - Such a computation is a call served from its start to its end. Calls
      that overlap are calls in flight ([Async]): the method cut at its
      [await]s, one turn of the event loop at a time. *)

From Stdlib Require Import ZArith String Ascii List Bool Lia DecimalString.
From Stdlib Require Import Floats.SpecFloat.
From stdpp Require Import gmap strings list.

Open Scope Z_scope.

(** ** JavaScript numbers *)

Module JsNumber.

Definition Number := spec_float.

Definition prec : Z := 53.
Definition emax : Z := 1024.

(** [a + b], [a * b], [a / b] on numbers. *)
Definition add : Number -> Number -> Number := SFadd prec emax.
Definition mul : Number -> Number -> Number := SFmul prec emax.
Definition div : Number -> Number -> Number := SFdiv prec emax.

(** The number nearest to an integer literal, and to a ratio [p / q] of
    positive integers (round to nearest, ties to even). *)
Definition of_Z (z : Z) : Number := binary_normalize prec emax z 0 false.

Definition of_ratio (p q : Z) : Number :=
  let '(mz, ez, lz) := SFdiv_core_binary prec emax p 0 q 0 in
  binary_round_aux prec emax false mz ez lz.

(** [a === b] and [a !== b] on numbers: NaN differs from everything,
    the two zeros are equal. *)
Definition strict_eq (a b : Number) : bool := SFeqb a b.
Definition strict_ne (a b : Number) : bool := negb (SFeqb a b).

(** The exact value of a positive finite number [m * 2^e] as a fraction. *)
Definition numer (m : positive) (e : Z) : Z := Z.pos m * 2 ^ Z.max e 0.
Definition denom (e : Z) : Z := 2 ^ Z.max (- e) 0.

Definition digits (n : Z) : string :=
  NilZero.string_of_uint (N.to_uint (Z.to_N n)).

Fixpoint zeros (n : nat) : string :=
  match n with
  | O => EmptyString
  | S n' => String "0" (zeros n')
  end.

Definition substring_from (n : nat) (s : string) : string :=
  String.substring n (String.length s - n) s.

(** *** Number::toString, radix 10 *)

(** The least [j >= 1] with [p * 10^j >= q], for [0 < p < q]. *)
Fixpoint first_scale (fuel : nat) (p q j : Z) : Z :=
  match fuel with
  | O => j
  | S fuel' => if q <=? p * 10 ^ j then j else first_scale fuel' p q (j + 1)
  end.

(** The [n] with [10^(n-1) <= p/q < 10^n]. *)
Definition decimal_exponent (p q : Z) : Z :=
  if q <=? p then Z.of_nat (String.length (digits (p / q)))
  else 1 - first_scale 400 p q 1.

(** [s * 10^t] as a fraction, and whether it reads back as [x]. *)
Definition reads_back (x : Number) (s t : Z) : bool :=
  match SFcompare (of_ratio (s * 10 ^ Z.max t 0) (10 ^ Z.max (- t) 0)) x with
  | Some Eq => true
  | _ => false
  end.

(** [| s * 10^t - p/q |] scaled by the common denominator. *)
Definition distance (p q s t : Z) : Z :=
  Z.abs (s * 10 ^ Z.max t 0 * q - p * 10 ^ Z.max (- t) 0).

(** The candidates with [k] digits around [p/q]: the truncation and its
    successor; the one that reads back as [x] and is closest (the even one
    on a tie) is kept, as [(s, n)] with value [s * 10^(n-k)]. *)
Definition candidate (x : Number) (p q n0 k : Z) : option (Z * Z) :=
  let t := n0 - k in
  let lo := (p * 10 ^ Z.max (- t) 0) / (q * 10 ^ Z.max t 0) in
  let hi := lo + 1 in
  let ok_lo := (10 ^ (k - 1) <=? lo) && reads_back x lo t in
  let ok_hi := reads_back x hi t in
  let norm s := if s =? 10 ^ k then (10 ^ (k - 1), n0 + 1) else (s, n0) in
  match ok_lo, ok_hi with
  | true, true =>
      match distance p q lo t ?= distance p q hi t with
      | Lt => Some (lo, n0)
      | Gt => Some (norm hi)
      | Eq => Some (if Z.even lo then (lo, n0) else norm hi)
      end
  | true, false => Some (lo, n0)
  | false, true => Some (norm hi)
  | false, false => None
  end.

Fixpoint shortest (fuel : nat) (x : Number) (p q n0 k : Z) : Z * Z * Z :=
  match fuel with
  | O => (p / q, n0, k)
  | S fuel' =>
      match candidate x p q n0 k with
      | Some (s, n) => (s, n, k)
      | None => shortest fuel' x p q n0 (k + 1)
      end
  end.

Definition render (s n k : Z) : string :=
  let ds := digits s in
  if (k <=? n) && (n <=? 21) then ds +:+ zeros (Z.to_nat (n - k))
  else if (0 <? n) && (n <=? 21) then
    String.substring 0 (Z.to_nat n) ds +:+ "." +:+ substring_from (Z.to_nat n) ds
  else if (-6 <? n) && (n <=? 0) then "0." +:+ zeros (Z.to_nat (- n)) +:+ ds
  else
    let e := n - 1 in
    let sign := if 0 <=? e then "+" else "-" in
    let mant :=
      if k =? 1 then ds
      else String.substring 0 1 ds +:+ "." +:+ substring_from 1 ds in
    mant +:+ "e" +:+ sign +:+ digits (Z.abs e).

Definition to_string (x : Number) : string :=
  match x with
  | S754_nan => "NaN"
  | S754_zero _ => "0"
  | S754_infinity s => if s then "-Infinity" else "Infinity"
  | S754_finite sg m e =>
      let p := numer m e in
      let q := denom e in
      let '(s, n, k) :=
        shortest 17 (S754_finite false m e) p q (decimal_exponent p q) 1 in
      (if sg then "-" else "") +:+ render s n k
  end.

(** *** Number.prototype.toFixed(2) *)

(** The integer [n] with [n / 100] nearest to [p / q], the larger one on a
    tie. *)
Definition nearest_hundredth (p q : Z) : Z := (200 * p + q) / (2 * q).

Definition fixed2_digits (n : Z) : string :=
  let m := digits n in
  let m := if (String.length m <=? 2)%nat
           then zeros (3 - String.length m) +:+ m else m in
  let k := String.length m in
  String.substring 0 (k - 2) m +:+ "." +:+ substring_from (k - 2) m.

Definition toFixed2 (x : Number) : string :=
  match x with
  | S754_finite sg m e =>
      let p := numer m e in
      let q := denom e in
      if 10 ^ 21 * q <=? p then to_string x
      else (if sg then "-" else "") +:+ fixed2_digits (nearest_hundredth p q)
  | S754_zero _ => "0.00"
  | _ => to_string x
  end.

End JsNumber.

(** ** Exceptions, outcomes of promises and the response envelope *)

Inductive Exception :=
| Error (message : string)
| BadRequestException (message : string)
| TypeError (message : string)
| Rejection (reason : string).

Inductive Outcome (A : Type) :=
| Resolved (a : A)
| Thrown (e : Exception).
Arguments Resolved {A} a.
Arguments Thrown {A} e.

Record Envelope (R : Type) := {
  message : string;
  success : bool;
  result : R
}.
Arguments message {R} _.
Arguments success {R} _.
Arguments result {R} _.

(** A string is falsy when it is undefined or empty. *)
Definition falsy (o : option string) : bool :=
  match o with
  | None => true
  | Some s => String.eqb s ""
  end.

(** [Array.prototype.find]. *)
Definition find {A} (f : A -> bool) (l : list A) : option A := List.find f l.

(** [Array.prototype.reduce] without an initial value; [None] is the
    TypeError on an empty array. *)
Definition reduce {A} (f : A -> A -> A) (l : list A) : option A :=
  match l with
  | [] => None
  | x :: xs => Some (fold_left f xs x)
  end.

(** ** Data model *)

Module Feedback.
Record t := {
  _id : string;
  rating : JsNumber.Number;
  feedbackMsg : string;
  customerId : string;
  customerName : string
}.
End Feedback.

(** The object literal [reviewDetails] of [addProductReview]. *)
Module ReviewDetails.
Record t := {
  rating : JsNumber.Number;
  feedbackMsg : string;
  customerId : string;
  customerName : string
}.
End ReviewDetails.

Module Sku.
Record t := {
  _id : string;
  price : JsNumber.Number;
  lifetime : bool;
  stripePriceId : option string;
  skuCode : option string
}.
End Sku.

Module ProductSkuDto.
Record t := {
  price : JsNumber.Number;
  lifetime : bool;
  stripePriceId : option string;
  skuCode : option string
}.
End ProductSkuDto.

Module Product.
Record t := {
  _id : string;
  productName : string;
  description : string;
  category : string;
  stripeProductId : option string;
  image : option string;
  avgRating : option string;
  skuDetails : list Sku.t;
  feedbackDetails : list Feedback.t
}.
End Product.

Module CreateProductDto.
Record t := {
  productName : string;
  description : string;
  category : string;
  stripeProductId : option string
}.
End CreateProductDto.

Module License.
Record t := {
  _id : string;
  product : string;
  productSku : string;
  licenseKey : string
}.
End License.

Module Order.
Record item := { productId : string }.
Record t := {
  customerId : string;
  orderedItems : list item
}.
End Order.

Module User.
Record t := {
  _id : string;
  name : string
}.
End User.

(** ** The payment ledger client (Stripe) *)

Module Stripe.
Record ProductCreateParams := {
  name : string;
  description : string
}.
Record PriceMetadata := {
  skuCode : option string;
  lifetime : string;
  productId : string;
  price : JsNumber.Number;
  productName : string;
  productImage : option string
}.
Record PriceCreateParams := {
  unit_amount : JsNumber.Number;
  currency : string;
  product : option string;
  metadata : PriceMetadata
}.
Record PriceUpdateParams := { active : bool }.
End Stripe.

(** ** Store updates *)

(** The query documents the service passes to [findOneAndUpdate]. *)
Inductive Filter :=
| ById (id : string)
| ByIdAndSkuId (id skuId : string).

(** The update documents the service passes to [findOneAndUpdate]; each
    constructor is one update document. *)
Inductive Update :=
| PushSkuDetails (batch : list ProductSkuDto.t)
| SetSkuFields (patch : ProductSkuDto.t)
| SetAvgRatingPushFeedback (avgRating : string) (reviewDetails : ReviewDetails.t)
| SetAvgRatingPullFeedback (avgRating : string) (reviewId : string).

(** The calls the service issues to its collaborators. *)
Inductive Call :=
| StripeProductsCreate (params : Stripe.ProductCreateParams)
| StripePricesCreate (params : Stripe.PriceCreateParams)
| StripePricesUpdate (id : option string) (params : Stripe.PriceUpdateParams)
| ProductDBFindOne (id : string)
| ProductDBCreate (dto : CreateProductDto.t)
| ProductDBFindOneAndUpdate (filter : Filter) (update : Update)
| ProductDBDeleteSku (id skuId : string)
| ProductDBDeleteAllLicense (productId : option string) (skuId : string)
| OrderDBFindOne (customerId productId : string).

(** ** The document store *)

Module Db.

Record t := {
  products : gmap string Product.t;
  licenses : list License.t;
  orders : list Order.t
}.

Definition with_products (m : gmap string Product.t) (d : t) : t :=
  {| products := m; licenses := licenses d; orders := orders d |}.

Definition with_licenses (l : list License.t) (d : t) : t :=
  {| products := products d; licenses := l; orders := orders d |}.

(** Modelled from the spec: [ProductRepository.findOne] (the repository is
    not among the sources); it returns the document or null. *)
Definition findOne (d : t) (id : string) : option Product.t :=
  products d !! id.

(** Modelled from the spec: [ProductRepository.create]; a new Product has no
    SKU, no Feedback and no average yet. The store refuses an identifier it
    already holds. *)
Definition create (d : t) (id : string) (dto : CreateProductDto.t)
  : Outcome Product.t * t :=
  match products d !! id with
  | Some _ => (Thrown (Rejection "E11000 duplicate key error"), d)
  | None =>
      let p := {| Product._id := id;
                  Product.productName := CreateProductDto.productName dto;
                  Product.description := CreateProductDto.description dto;
                  Product.category := CreateProductDto.category dto;
                  Product.stripeProductId := CreateProductDto.stripeProductId dto;
                  Product.image := None;
                  Product.avgRating := None;
                  Product.skuDetails := [];
                  Product.feedbackDetails := [] |} in
      (Resolved p, with_products (<[id := p]> (products d)) d)
  end.

(** A pushed object becomes an embedded document with its own identifier. *)
Definition cast_sku (id : string) (dto : ProductSkuDto.t) : Sku.t :=
  {| Sku._id := id;
     Sku.price := ProductSkuDto.price dto;
     Sku.lifetime := ProductSkuDto.lifetime dto;
     Sku.stripePriceId := ProductSkuDto.stripePriceId dto;
     Sku.skuCode := ProductSkuDto.skuCode dto |}.

Definition cast_feedback (id : string) (r : ReviewDetails.t) : Feedback.t :=
  {| Feedback._id := id;
     Feedback.rating := ReviewDetails.rating r;
     Feedback.feedbackMsg := ReviewDetails.feedbackMsg r;
     Feedback.customerId := ReviewDetails.customerId r;
     Feedback.customerName := ReviewDetails.customerName r |}.

(** Fields present in the patch overwrite the fields of the SKU. *)
Definition patch_sku (patch : ProductSkuDto.t) (sku : Sku.t) : Sku.t :=
  {| Sku._id := Sku._id sku;
     Sku.price := ProductSkuDto.price patch;
     Sku.lifetime := ProductSkuDto.lifetime patch;
     Sku.stripePriceId :=
       match ProductSkuDto.stripePriceId patch with
       | Some v => Some v
       | None => Sku.stripePriceId sku
       end;
     Sku.skuCode :=
       match ProductSkuDto.skuCode patch with
       | Some v => Some v
       | None => Sku.skuCode sku
       end |}.

Definition sku_has_id (skuId : string) (sku : Sku.t) : bool :=
  String.eqb (Sku._id sku) skuId.

Definition feedback_has_id (reviewId : string) (f : Feedback.t) : bool :=
  String.eqb (Feedback._id f) reviewId.

(** The positional operator [$]: the first element the query matched. *)
Fixpoint update_first {A} (f : A -> bool) (g : A -> A) (l : list A) : list A :=
  match l with
  | [] => []
  | x :: xs => if f x then g x :: xs else x :: update_first f g xs
  end.

Definition with_skus (l : list Sku.t) (p : Product.t) : Product.t :=
  {| Product._id := Product._id p;
     Product.productName := Product.productName p;
     Product.description := Product.description p;
     Product.category := Product.category p;
     Product.stripeProductId := Product.stripeProductId p;
     Product.image := Product.image p;
     Product.avgRating := Product.avgRating p;
     Product.skuDetails := l;
     Product.feedbackDetails := Product.feedbackDetails p |}.

Definition with_reviews (avg : string) (l : list Feedback.t) (p : Product.t)
  : Product.t :=
  {| Product._id := Product._id p;
     Product.productName := Product.productName p;
     Product.description := Product.description p;
     Product.category := Product.category p;
     Product.stripeProductId := Product.stripeProductId p;
     Product.image := Product.image p;
     Product.avgRating := Some avg;
     Product.skuDetails := Product.skuDetails p;
     Product.feedbackDetails := l |}.

(** How many embedded documents an update creates. *)
Definition ids_needed (u : Update) : nat :=
  match u with
  | PushSkuDetails batch => length batch
  | SetAvgRatingPushFeedback _ _ => 1
  | _ => 0
  end.

Definition filter_id (f : Filter) : string :=
  match f with
  | ById id => id
  | ByIdAndSkuId id _ => id
  end.

Definition matches (f : Filter) (p : Product.t) : bool :=
  match f with
  | ById _ => true
  | ByIdAndSkuId _ skuId => existsb (sku_has_id skuId) (Product.skuDetails p)
  end.

(** One update document applied to the matched product; [None] when the
    positional operator has no array element to refer to. *)
Definition apply_update (f : Filter) (u : Update) (ids : list string)
  (p : Product.t) : option Product.t :=
  match u with
  | PushSkuDetails batch =>
      Some (with_skus (Product.skuDetails p ++ zip_with cast_sku ids batch) p)
  | SetSkuFields patch =>
      match f with
      | ByIdAndSkuId _ skuId =>
          Some (with_skus (update_first (sku_has_id skuId) (patch_sku patch)
                             (Product.skuDetails p)) p)
      | ById _ => None
      end
  | SetAvgRatingPushFeedback avg r =>
      Some (with_reviews avg
              (Product.feedbackDetails p ++ zip_with cast_feedback ids [r]) p)
  | SetAvgRatingPullFeedback avg reviewId =>
      Some (with_reviews avg
              (List.filter (fun f => negb (feedback_has_id reviewId f))
                 (Product.feedbackDetails p)) p)
  end.

(** Modelled from the spec: [ProductRepository.findOneAndUpdate], the
    store's find-one-and-update with sub-document push, pull and set; it
    returns the updated document, or null when the query matches nothing. *)
Definition findOneAndUpdate (d : t) (f : Filter) (u : Update)
  (ids : list string) : Outcome (option Product.t) * t :=
  match products d !! filter_id f with
  | None => (Resolved None, d)
  | Some p =>
      if matches f p then
        match apply_update f u ids p with
        | Some p' =>
            (Resolved (Some p'),
             with_products (<[filter_id f := p']> (products d)) d)
        | None =>
            (Thrown (Rejection "The positional operator did not find the match needed from the query"), d)
        end
      else (Resolved None, d)
  end.

(** Modelled from the spec: [ProductRepository.deleteSku], which removes the
    SKU sub-document from the product. *)
Definition deleteSku (d : t) (id skuId : string) : t :=
  match products d !! id with
  | None => d
  | Some p =>
      with_products
        (<[id := with_skus (List.filter (fun s => negb (sku_has_id skuId s))
                              (Product.skuDetails p)) p]> (products d)) d
  end.

(** Modelled from the spec: [ProductRepository.deleteAllLicense]. Without a
    product identifier it deletes all licenses matching the SKU identifier
    across the whole license store; a product identifier scopes the
    deletion to that product. *)
Definition license_matches (productId : option string) (skuId : string)
  (l : License.t) : bool :=
  String.eqb (License.productSku l) skuId
  && match productId with
     | None => true
     | Some pid => String.eqb (License.product l) pid
     end.

Definition deleteAllLicense (d : t) (productId : option string)
  (skuId : string) : t :=
  with_licenses
    (List.filter (fun l => negb (license_matches productId skuId l))
       (licenses d)) d.

(** Modelled from the spec: [OrdersRepository.findOne] by customer and
    product; it returns an order or null. *)
Definition order_links (customerId productId : string) (o : Order.t) : bool :=
  String.eqb (Order.customerId o) customerId
  && existsb (fun i => String.eqb (Order.productId i) productId)
       (Order.orderedItems o).

Definition findOrder (d : t) (customerId productId : string)
  : option Order.t :=
  List.find (order_links customerId productId) (orders d).

End Db.

(** ** Asynchronous computations and the world of the product service *)

Record World (St : Type) := {
  db : Db.t;
  outside : St;
  calls : list Call
}.
Arguments db {St} _.
Arguments outside {St} _.
Arguments calls {St} _.

(** What lies outside the process: the Stripe client, the generator of
    document identifiers, [Math.random().toString(36)] and [Date.now()]. *)
Record External (St : Type) := {
  stripe_products_create : Stripe.ProductCreateParams -> St -> Outcome string * St;
  stripe_prices_create : Stripe.PriceCreateParams -> St -> Outcome string * St;
  stripe_prices_update :
    option string -> Stripe.PriceUpdateParams -> St -> Outcome unit * St;
  new_object_id : St -> string * St;
  math_random_toString36 : St -> string * St;
  date_now : St -> JsNumber.Number * St
}.
Arguments stripe_products_create {St} _.
Arguments stripe_prices_create {St} _.
Arguments stripe_prices_update {St} _.
Arguments new_object_id {St} _.
Arguments math_random_toString36 {St} _.
Arguments date_now {St} _.

(** An asynchronous computation over a state [W]: it resolves with a value
    or throws (its promise rejects), and leaves a new state. *)
Definition M (W A : Type) : Type := W -> Outcome A * W.

Definition ret {W A} (a : A) : M W A := fun w => (Resolved a, w).

Definition throw {W A} (e : Exception) : M W A := fun w => (Thrown e, w).

Definition bind {W A B} (m : M W A) (k : A -> M W B) : M W B :=
  fun w =>
    match m w with
    | (Resolved a, w') => k a w'
    | (Thrown e, w') => (Thrown e, w')
    end.

(** [try { m } catch (error) { h error }] *)
Definition try_catch {W A} (m : M W A) (h : Exception -> M W A) : M W A :=
  fun w =>
    match m w with
    | (Resolved a, w') => (Resolved a, w')
    | (Thrown e, w') => h e w'
    end.

Notation "'let*' x ':=' c 'in' k" := (bind c (fun x => k))
  (at level 10, x name, c at level 100, k at level 200).

(** A collaborator call is recorded, then served. *)
Definition record_call {St} (c : Call) (w : World St) : World St :=
  {| db := db w; outside := outside w; calls := calls w ++ [c] |}.

Definition on_outside {St A} (f : St -> Outcome A * St) : M (World St) A :=
  fun w =>
    let '(r, s) := f (outside w) in
    (r, {| db := db w; outside := s; calls := calls w |}).

Definition on_db {St A} (f : Db.t -> Outcome A * Db.t) : M (World St) A :=
  fun w =>
    let '(r, d) := f (db w) in
    (r, {| db := d; outside := outside w; calls := calls w |}).

Definition call {St A} (c : Call) (m : M (World St) A) : M (World St) A :=
  fun w => m (record_call c w).

Section ProductsService.

Context {St : Type}.
Variable ext : External St.

Local Abbreviation M := (M (World St)).

(** *** [this.stripeClient] *)

Definition stripeClient_products_create (params : Stripe.ProductCreateParams)
  : M string :=
  call (StripeProductsCreate params)
    (on_outside (stripe_products_create ext params)).

Definition stripeClient_prices_create (params : Stripe.PriceCreateParams)
  : M string :=
  call (StripePricesCreate params)
    (on_outside (stripe_prices_create ext params)).

Definition stripeClient_prices_update (id : option string)
  (params : Stripe.PriceUpdateParams) : M unit :=
  call (StripePricesUpdate id params)
    (on_outside (stripe_prices_update ext id params)).

(** *** [this.productDB] and [this.orderDB] *)

Definition fresh_id : M string :=
  on_outside (fun s => let '(id, s') := new_object_id ext s in (Resolved id, s')).

Fixpoint fresh_ids (n : nat) : M (list string) :=
  match n with
  | O => ret []
  | S n' =>
      let* id := fresh_id in
      let* ids := fresh_ids n' in
      ret (id :: ids)
  end.

(** The identifiers [fresh_ids] draws, and the outside state it leaves. *)
Fixpoint draw_ids (n : nat) (s : St) : list string * St :=
  match n with
  | O => ([], s)
  | S n' =>
      let '(id, s1) := new_object_id ext s in
      let '(ids, s2) := draw_ids n' s1 in
      (id :: ids, s2)
  end.

Definition productDB_findOne (id : string) : M (option Product.t) :=
  call (ProductDBFindOne id)
    (on_db (fun d => (Resolved (Db.findOne d id), d))).

Definition productDB_create (dto : CreateProductDto.t) : M Product.t :=
  call (ProductDBCreate dto)
    (let* id := fresh_id in on_db (fun d => Db.create d id dto)).

Definition productDB_findOneAndUpdate (f : Filter) (u : Update)
  : M (option Product.t) :=
  call (ProductDBFindOneAndUpdate f u)
    (let* ids := fresh_ids (Db.ids_needed u) in
     on_db (fun d => Db.findOneAndUpdate d f u ids)).

Definition productDB_deleteSku (id skuId : string) : M unit :=
  call (ProductDBDeleteSku id skuId)
    (on_db (fun d => (Resolved tt, Db.deleteSku d id skuId))).

Definition productDB_deleteAllLicense (productId : option string)
  (skuId : string) : M unit :=
  call (ProductDBDeleteAllLicense productId skuId)
    (on_db (fun d => (Resolved tt, Db.deleteAllLicense d productId skuId))).

Definition orderDB_findOne (customerId productId : string)
  : M (option Order.t) :=
  call (OrderDBFindOne customerId productId)
    (on_db (fun d => (Resolved (Db.findOrder d customerId productId), d))).

(** *** createProduct *)

Definition set_stripeProductId (id : string) (dto : CreateProductDto.t)
  : CreateProductDto.t :=
  {| CreateProductDto.productName := CreateProductDto.productName dto;
     CreateProductDto.description := CreateProductDto.description dto;
     CreateProductDto.category := CreateProductDto.category dto;
     CreateProductDto.stripeProductId := Some id |}.

(** The first component of the result is the caller's DTO object as the
    method leaves it. *)
Definition createProduct (createProductDto : CreateProductDto.t)
  : M (CreateProductDto.t * Envelope Product.t) :=
  try_catch
    (let* createProductDto :=
       if falsy (CreateProductDto.stripeProductId createProductDto) then
         let* createdProductInStripe :=
           stripeClient_products_create
             {| Stripe.name := CreateProductDto.productName createProductDto;
                Stripe.description :=
                  CreateProductDto.description createProductDto |} in
         ret (set_stripeProductId createdProductInStripe createProductDto)
       else ret createProductDto in
     let* createdProductInDB := productDB_create createProductDto in
     ret (createProductDto,
          {| message := "Product created successfully";
             result := createdProductInDB;
             success := true |}))
    (fun error => throw error).

(** *** updateProductSku *)

Definition string_of_bool (b : bool) : string :=
  if b then "true" else "false".

Definition set_stripePriceId (id : string) (sku : ProductSkuDto.t)
  : ProductSkuDto.t :=
  {| ProductSkuDto.price := ProductSkuDto.price sku;
     ProductSkuDto.lifetime := ProductSkuDto.lifetime sku;
     ProductSkuDto.stripePriceId := Some id;
     ProductSkuDto.skuCode := ProductSkuDto.skuCode sku |}.

Definition set_skuCode (code : string) (sku : ProductSkuDto.t)
  : ProductSkuDto.t :=
  {| ProductSkuDto.price := ProductSkuDto.price sku;
     ProductSkuDto.lifetime := ProductSkuDto.lifetime sku;
     ProductSkuDto.stripePriceId := ProductSkuDto.stripePriceId sku;
     ProductSkuDto.skuCode := Some code |}.

(** [Math.random().toString(36).substring(2, 5) + Date.now()] *)
Definition new_skuCode : M string :=
  let* r := on_outside (fun s =>
              let '(r, s') := math_random_toString36 ext s in (Resolved r, s')) in
  let* now := on_outside (fun s =>
                let '(t, s') := date_now ext s in (Resolved t, s')) in
  ret (String.substring 2 3 r +:+ JsNumber.to_string now).

Definition price_params (productId : string) (product : Product.t)
  (skuCode : option string) (sku : ProductSkuDto.t) : Stripe.PriceCreateParams :=
  {| Stripe.unit_amount :=
       JsNumber.mul (ProductSkuDto.price sku) (JsNumber.of_Z 100);
     Stripe.currency := "inr";
     Stripe.product := Product.stripeProductId product;
     Stripe.metadata :=
       {| Stripe.skuCode := skuCode;
          Stripe.lifetime := string_of_bool (ProductSkuDto.lifetime sku) +:+ "";
          Stripe.productId := productId;
          Stripe.price := ProductSkuDto.price sku;
          Stripe.productName := Product.productName product;
          Stripe.productImage := Product.image product |} |}.

(** The [for] loop over [data.skuDetails]. *)
Fixpoint updateProductSku_loop (productId : string) (product : Product.t)
  (skuCode : string) (skuDetails : list ProductSkuDto.t)
  : M (list ProductSkuDto.t) :=
  match skuDetails with
  | [] => ret []
  | sku :: rest =>
      let* sku :=
        if falsy (ProductSkuDto.stripePriceId sku) then
          let* stripePriceDetails :=
            stripeClient_prices_create
              (price_params productId product (Some skuCode) sku) in
          ret (set_stripePriceId stripePriceDetails sku)
        else ret sku in
      let sku := set_skuCode skuCode sku in
      let* rest := updateProductSku_loop productId product skuCode rest in
      ret (sku :: rest)
  end.

(** The first component of the result is [data.skuDetails] as the method
    leaves it. *)
Definition updateProductSku (productId : string)
  (skuDetails : list ProductSkuDto.t)
  : M (list ProductSkuDto.t * Envelope unit) :=
  try_catch
    (let* product := productDB_findOne productId in
     match product with
     | None => throw (Error "Product does not exist")
     | Some product =>
         let* skuCode := new_skuCode in
         let* skuDetails :=
           updateProductSku_loop productId product skuCode skuDetails in
         let* _ :=
           productDB_findOneAndUpdate (ById productId)
             (PushSkuDetails skuDetails) in
         ret (skuDetails,
              {| message := "Product sku updated successfully";
                 success := true;
                 result := tt |})
     end)
    (fun error => throw error).

(** *** updateProductSkuById *)

Definition updateProductSkuById (productId skuId : string)
  (data : ProductSkuDto.t)
  : M (ProductSkuDto.t * Envelope (option Product.t)) :=
  try_catch
    (let* product := productDB_findOne productId in
     match product with
     | None => throw (Error "Product does not exist")
     | Some product =>
         match find (fun sku => String.eqb (Sku._id sku) skuId)
                 (Product.skuDetails product) with
         | None => throw (Error "Sku does not exist")
         | Some sku =>
             let* data :=
               if JsNumber.strict_ne (ProductSkuDto.price data) (Sku.price sku)
               then
                 let* priceDetails :=
                   stripeClient_prices_create
                     (price_params productId product (Sku.skuCode sku) data) in
                 ret (set_stripePriceId priceDetails data)
               else ret data in
             let* result :=
               productDB_findOneAndUpdate (ByIdAndSkuId productId skuId)
                 (SetSkuFields data) in
             ret (data,
                  {| message := "Product sku updated successfully";
                     success := true;
                     result := result |})
         end
     end)
    (fun error => throw error).

(** *** deleteProductSkuById *)

Definition deleteProductSkuById (id skuId : string)
  : M (Envelope (string * string)) :=
  try_catch
    (let* productDetails := productDB_findOne id in
     match productDetails with
     | None =>
         throw (TypeError "Cannot read properties of null (reading 'skuDetails')")
     | Some productDetails =>
         match find (fun sku => String.eqb (Sku._id sku) skuId)
                 (Product.skuDetails productDetails) with
         | None =>
             throw (TypeError
               "Cannot read properties of undefined (reading 'stripePriceId')")
         | Some skuDetails =>
             let* _ :=
               stripeClient_prices_update (Sku.stripePriceId skuDetails)
                 {| Stripe.active := false |} in
             let* _ := productDB_deleteSku id skuId in
             let* _ := productDB_deleteAllLicense None skuId in
             ret {| message := "Product sku details deleted successfully";
                    success := true;
                    result := (id, skuId) |}
         end
     end)
    (fun error => throw error).

(** *** addProductReview and removeProductReview *)

(** [(ratings.reduce((a, b) => a + b) / ratings.length).toFixed(2)] *)
Definition average (ratings : list JsNumber.Number) : M string :=
  match reduce JsNumber.add ratings with
  | None => throw (TypeError "Reduce of empty array with no initial value")
  | Some sum =>
      ret (JsNumber.toFixed2
             (JsNumber.div sum (JsNumber.of_Z (Z.of_nat (length ratings)))))
  end.

Definition addProductReview (productId : string) (rating : JsNumber.Number)
  (review : string) (user : User.t) : M (Envelope (option Product.t)) :=
  try_catch
    (let* product := productDB_findOne productId in
     match product with
     | None => throw (Error "Product does not exist")
     | Some product =>
         match find (fun value =>
                       String.eqb (Feedback.customerId value) (User._id user))
                 (Product.feedbackDetails product) with
         | Some _ =>
             throw (BadRequestException
                      "You have already gave the review for this product")
         | None =>
             let* order := orderDB_findOne (User._id user) productId in
             match order with
             | None =>
                 throw (BadRequestException "You have not purchased this product")
             | Some _ =>
                 let ratings :=
                   map Feedback.rating (Product.feedbackDetails product) in
                 let* avgRating :=
                   if (0 <? length ratings)%nat then average ratings
                   else ret (JsNumber.to_string rating) in
                 let reviewDetails :=
                   {| ReviewDetails.rating := rating;
                      ReviewDetails.feedbackMsg := review;
                      ReviewDetails.customerId := User._id user;
                      ReviewDetails.customerName := User.name user |} in
                 let* result :=
                   productDB_findOneAndUpdate (ById productId)
                     (SetAvgRatingPushFeedback avgRating reviewDetails) in
                 ret {| message := "Product review added successfully";
                        success := true;
                        result := result |}
             end
         end
     end)
    (fun error => throw error).

Definition removeProductReview (productId reviewId : string)
  : M (Envelope (option Product.t)) :=
  try_catch
    (let* product := productDB_findOne productId in
     match product with
     | None => throw (Error "Product does not exist")
     | Some product =>
         match find (fun review => String.eqb (Feedback._id review) reviewId)
                 (Product.feedbackDetails product) with
         | None => throw (Error "Review does not exist")
         | Some _ =>
             let ratings :=
               map Feedback.rating
                 (List.filter
                    (fun comment => negb (String.eqb (Feedback._id comment) reviewId))
                    (Product.feedbackDetails product)) in
             let* avgRating :=
               if (0 <? length ratings)%nat then average ratings
               else ret "0" in
             let* result :=
               productDB_findOneAndUpdate (ById productId)
                 (SetAvgRatingPullFeedback avgRating reviewId) in
             ret {| message := "Product review removed successfully";
                    success := true;
                    result := result |}
         end
     end)
    (fun error => throw error).

End ProductsService.

(** ** Calls in flight *)

(** An [async] method between its [await]s: it has settled; or it runs the
    synchronous code [m] and goes on; or it has called the operation [m],
    is suspended at the [await], and goes on with the result. *)
Inductive Async (W A : Type) : Type :=
| Settled (o : Outcome A)
| Sync {B : Type} (m : M W B) (k : B -> Async W A)
| Await {B : Type} (m : M W B) (k : B -> Async W A).
Arguments Settled {W A} _.
Arguments Sync {W A B} _ _.
Arguments Await {W A B} _ _.

(** The method run from start to end with nothing in between. *)
Fixpoint to_completion {W A} (t : Async W A) (w : W) : Outcome A * W :=
  match t with
  | Settled o => (o, w)
  | Sync m k | Await m k =>
      match m w with
      | (Resolved b, w') => to_completion (k b) w'
      | (Thrown e, w') => (Thrown e, w')
      end
  end.

(** The synchronous code up to the next [await]. *)
Fixpoint to_next_await {W A} (t : Async W A) (w : W) : Async W A * W :=
  match t with
  | Sync m k =>
      match m w with
      | (Resolved b, w') => to_next_await (k b) w'
      | (Thrown e, w') => (Settled (Thrown e), w')
      end
  | _ => (t, w)
  end.

(** One turn of the event loop for a call: the operation it awaits takes
    effect, and the method runs on to its next [await] or to its end. *)
Definition turn {W A} (t : Async W A) (w : W) : Async W A * W :=
  match t with
  | Await m k =>
      match m w with
      | (Resolved b, w') => to_next_await (k b) w'
      | (Thrown e, w') => (Settled (Thrown e), w')
      end
  | _ => to_next_await t w
  end.

(** Two calls in flight, and whose turn it is. *)
Inductive Caller := FirstCall | SecondCall.

Fixpoint event_loop {W A} (schedule : list Caller) (a b : Async W A) (w : W)
  : Async W A * Async W A * W :=
  match schedule with
  | [] => (a, b, w)
  | FirstCall :: rest => let '(a', w') := turn a w in event_loop rest a' b w'
  | SecondCall :: rest => let '(b', w') := turn b w in event_loop rest a b' w'
  end.

Section ProductsServiceInFlight.

Context {St : Type}.
Variable ext : External St.

(** [addProductReview] with its three [await]s: the product lookup, the
    order lookup and the store update. Its [catch] throws the error on. *)
Definition addProductReview_awaits (productId : string)
  (rating : JsNumber.Number) (review : string) (user : User.t)
  : Async (World St) (Envelope (option Product.t)) :=
  Await (productDB_findOne productId) (fun product =>
    match product with
    | None => Settled (Thrown (Error "Product does not exist"))
    | Some product =>
        match find (fun value =>
                      String.eqb (Feedback.customerId value) (User._id user))
                (Product.feedbackDetails product) with
        | Some _ =>
            Settled (Thrown (BadRequestException
                       "You have already gave the review for this product"))
        | None =>
            Await (orderDB_findOne (User._id user) productId) (fun order =>
              match order with
              | None =>
                  Settled (Thrown (BadRequestException
                             "You have not purchased this product"))
              | Some _ =>
                  let ratings :=
                    map Feedback.rating (Product.feedbackDetails product) in
                  Sync (if (0 <? length ratings)%nat then average ratings
                        else ret (JsNumber.to_string rating)) (fun avgRating =>
                    let reviewDetails :=
                      {| ReviewDetails.rating := rating;
                         ReviewDetails.feedbackMsg := review;
                         ReviewDetails.customerId := User._id user;
                         ReviewDetails.customerName := User.name user |} in
                    Await (productDB_findOneAndUpdate ext (ById productId)
                             (SetAvgRatingPushFeedback avgRating reviewDetails))
                      (fun result =>
                         Settled (Resolved
                           {| message := "Product review added successfully";
                              success := true;
                              result := result |})))
              end)
        end
    end).

End ProductsServiceInFlight.

(** ** The email dispatcher (src/shared/utility/mail-handler.ts) *)

Module MailHandler.

(** The third argument as the caller passes it: left out (the default [{}]
    applies), [null], or an object whose own enumerable keys are listed in
    [Object.keys] order. *)
Inductive TemplateVars (Value : Type) :=
| Omitted
| Null
| Vars (entries : list (string * Value)).
Arguments Omitted {Value}.
Arguments Null {Value}.
Arguments Vars {Value} entries.

Inductive Field (Value : Type) :=
| Text (s : string)
| Var (v : Value).
Arguments Text {Value} s.
Arguments Var {Value} v.

Definition FormData (Value : Type) : Type := list (string * Field Value).

Record Request (Value : Type) := {
  method : string;
  url : string;
  headers : list (string * string);
  data : FormData Value
}.
Arguments method {Value} _.
Arguments url {Value} _.
Arguments headers {Value} _.
Arguments data {Value} _.

(** The state the dispatcher acts on: the network behind axios, and the
    console. *)
Record MailWorld (Net : Type) := {
  net : Net;
  console : list Exception
}.
Arguments net {Net} _.
Arguments console {Net} _.

Section SendEmail.

Context {Value Response Net : Type}.

(** [form.append] of a template variable, which throws on a value the form
    cannot hold. *)
Variable form_append : FormData Value -> string -> Value -> Outcome (FormData Value).
(** [config.get], which throws on an undefined key; the result is the
    string the template literal interpolates. *)
Variable config_get : string -> Outcome string.
(** [Buffer.from(s).toString('base64')] *)
Variable base64 : string -> string.
(** The HTTP call. *)
Variable axios : Request Value -> Net -> Outcome Response * Net.

Local Abbreviation M := (M (MailWorld Net)).

Definition lift {A} (o : Outcome A) : M A := fun w => (o, w).

Definition axios_call (r : Request Value) : M Response :=
  fun w =>
    let '(o, n) := axios r (net w) in
    (o, {| net := n; console := console w |}).

(** [console.log] writes to the console and does not throw. *)
Definition console_log (error : Exception) : M unit :=
  fun w => (Resolved tt, {| net := net w; console := console w ++ [error] |}).

(** [Object.keys(templateVars)] *)
Definition object_keys (templateVars : TemplateVars Value)
  : M (list (string * Value)) :=
  match templateVars with
  | Omitted => ret []
  | Null => throw (TypeError "Cannot convert undefined or null to object")
  | Vars entries => ret entries
  end.

(** [keys.forEach((key) => form.append(`v:${key}`, templateVars[key]))] *)
Fixpoint append_vars (form : FormData Value) (entries : list (string * Value))
  : M (FormData Value) :=
  match entries with
  | [] => ret form
  | (key, value) :: rest =>
      let* form := lift (form_append form ("v:" +:+ key) value) in
      append_vars form rest
  end.

(** The [try] block of [sendEmail]. *)
Definition sendEmail_try (to templateName subject : string)
  (templateVars : TemplateVars Value) : M (option Response) :=
  let form : FormData Value := [] in
  let form := form ++ [("to", Text to)] in
  let form := form ++ [("template", Text templateName)] in
  let form := form ++ [("subject", Text subject)] in
  let form :=
    form ++ [("from",
              Text "mailgun@sandbox83baf4ab2ac84bfb8da56b81f1d076a5.mailgun.org")] in
  let* entries := object_keys templateVars in
  let* form := append_vars form entries in
  let username := "api" in
  let* password := lift (config_get "emailService.privateApiKey") in
  let token := base64 (username +:+ ":" +:+ password) in
  let* testDomain := lift (config_get "emailService.testDomain") in
  let* response :=
    axios_call
      {| method := "post";
         url := "https://api.mailgun.net/v3/" +:+ testDomain +:+ "/messages";
         headers := [("Authorization", "Basic " +:+ token);
                     ("Content-Type", "multipart/form-data")];
         data := form |} in
  ret (Some response).

(** [async (...) => { try { ... } catch (error) { console.log(error); } }]:
    after the handler the function ends without a [return], so the promise
    resolves with undefined. *)
Definition sendEmail (to templateName subject : string)
  (templateVars : TemplateVars Value) : M (option Response) :=
  try_catch
    (sendEmail_try to templateName subject templateVars)
    (fun error =>
       let* _ := console_log error in
       ret None).

End SendEmail.

End MailHandler.

(** ** A concrete world: the review scenario of the specification *)

Module Scenario.

(** A ledger that accepts everything and numbers what it creates; the
    outside state is the counter. *)
Definition ledger : External nat :=
  {| stripe_products_create := fun _ n =>
       (Resolved ("prod_" +:+ JsNumber.digits (Z.of_nat n)), S n);
     stripe_prices_create := fun _ n =>
       (Resolved ("price_" +:+ JsNumber.digits (Z.of_nat n)), S n);
     stripe_prices_update := fun _ _ n => (Resolved tt, n);
     new_object_id := fun n => ("oid" +:+ JsNumber.digits (Z.of_nat n), S n);
     math_random_toString36 := fun n => ("0.k3j9x2m", n);
     date_now := fun n => (JsNumber.of_Z 1700000000000, n) |}.

(** A ledger that is unreachable. *)
Definition ledger_down : External nat :=
  {| stripe_products_create := fun _ n =>
       (Thrown (Rejection "StripeConnectionError"), n);
     stripe_prices_create := fun _ n =>
       (Thrown (Rejection "StripeConnectionError"), n);
     stripe_prices_update := fun _ _ n =>
       (Thrown (Rejection "StripeConnectionError"), n);
     new_object_id := fun n => ("oid" +:+ JsNumber.digits (Z.of_nat n), S n);
     math_random_toString36 := fun n => ("0.k3j9x2m", n);
     date_now := fun n => (JsNumber.of_Z 1700000000000, n) |}.

Definition sku1 : Sku.t :=
  {| Sku._id := "S1";
     Sku.price := JsNumber.of_Z 10;
     Sku.lifetime := true;
     Sku.stripePriceId := Some "price_old";
     Sku.skuCode := Some "abc1700000000000" |}.

Definition P1 : Product.t :=
  {| Product._id := "P1";
     Product.productName := "Editor";
     Product.description := "A text editor";
     Product.category := "Application Software";
     Product.stripeProductId := Some "prod_P1";
     Product.image := None;
     Product.avgRating := None;
     Product.skuDetails := [sku1];
     Product.feedbackDetails := [] |}.

Definition ada : User.t := {| User._id := "C1"; User.name := "Ada" |}.
Definition bob : User.t := {| User._id := "C2"; User.name := "Bob" |}.
Definition cy : User.t := {| User._id := "C3"; User.name := "Cy" |}.

Definition O1 : Order.t :=
  {| Order.customerId := "C1";
     Order.orderedItems := [{| Order.productId := "P1" |}] |}.
Definition O2 : Order.t :=
  {| Order.customerId := "C2";
     Order.orderedItems := [{| Order.productId := "P1" |}] |}.

Definition L1 : License.t :=
  {| License._id := "L1"; License.product := "P1";
     License.productSku := "S1"; License.licenseKey := "KEY-1" |}.
Definition L2 : License.t :=
  {| License._id := "L2"; License.product := "P2";
     License.productSku := "S1"; License.licenseKey := "KEY-2" |}.
Definition L3 : License.t :=
  {| License._id := "L3"; License.product := "P1";
     License.productSku := "S2"; License.licenseKey := "KEY-3" |}.

Definition store : Db.t :=
  {| Db.products := {[ "P1" := P1 ]};
     Db.licenses := [L1; L2; L3];
     Db.orders := [O1; O2] |}.

Definition world : World nat :=
  {| db := store; outside := 0%nat; calls := [] |}.

(** The state a computation leaves, and the product [P1] in it. *)
Definition after {A} (m : M (World nat) A) (w : World nat) : World nat :=
  snd (m w).

Definition product_in (w : World nat) : option Product.t :=
  Db.findOne (db w) "P1".

Definition avgRating_in (w : World nat) : option string :=
  match product_in w with
  | Some p => Product.avgRating p
  | None => None
  end.

Definition world1 : World nat :=
  after (addProductReview ledger "P1" (JsNumber.of_Z 4) "good" ada) world.
Definition world2 : World nat :=
  after (addProductReview ledger "P1" (JsNumber.of_Z 2) "poor" bob) world1.

(** [P1] once [ada] and [bob] have reviewed it. *)
Definition P1_reviewed : Product.t :=
  Eval vm_compute in
    match product_in world2 with
    | Some p => p
    | None => P1
    end.

(** A batch of two SKUs: the first carries a ledger price reference, the
    second does not. *)
Definition batch : list ProductSkuDto.t :=
  [ {| ProductSkuDto.price := JsNumber.of_Z 30;
       ProductSkuDto.lifetime := false;
       ProductSkuDto.stripePriceId := Some "price_known";
       ProductSkuDto.skuCode := None |};
    {| ProductSkuDto.price := JsNumber.of_Z 5;
       ProductSkuDto.lifetime := true;
       ProductSkuDto.stripePriceId := None;
       ProductSkuDto.skuCode := None |} ].

(** The entries of the batch, a third entry without a reference, and the
    batch of the three. *)
Definition priced_entry : ProductSkuDto.t :=
  {| ProductSkuDto.price := JsNumber.of_Z 30;
     ProductSkuDto.lifetime := false;
     ProductSkuDto.stripePriceId := Some "price_known";
     ProductSkuDto.skuCode := None |}.

Definition unpriced_entry : ProductSkuDto.t :=
  {| ProductSkuDto.price := JsNumber.of_Z 5;
     ProductSkuDto.lifetime := true;
     ProductSkuDto.stripePriceId := None;
     ProductSkuDto.skuCode := None |}.

Definition another_unpriced_entry : ProductSkuDto.t :=
  {| ProductSkuDto.price := JsNumber.of_Z 7;
     ProductSkuDto.lifetime := false;
     ProductSkuDto.stripePriceId := None;
     ProductSkuDto.skuCode := None |}.

Definition batch_of_three : list ProductSkuDto.t :=
  [priced_entry; unpriced_entry; another_unpriced_entry].

(** A patch for [sku1] with another price, and one with its price and a
    ledger price reference of the caller's. *)
Definition patch_new_price : ProductSkuDto.t :=
  {| ProductSkuDto.price := JsNumber.of_Z 20;
     ProductSkuDto.lifetime := true;
     ProductSkuDto.stripePriceId := None;
     ProductSkuDto.skuCode := None |}.

Definition patch_same_price : ProductSkuDto.t :=
  {| ProductSkuDto.price := JsNumber.of_Z 10;
     ProductSkuDto.lifetime := true;
     ProductSkuDto.stripePriceId := Some "price_other";
     ProductSkuDto.skuCode := None |}.

Definition new_product : CreateProductDto.t :=
  {| CreateProductDto.productName := "Compiler";
     CreateProductDto.description := "A verified compiler";
     CreateProductDto.category := "Application Software";
     CreateProductDto.stripeProductId := None |}.

End Scenario.

(** ** Vocabulary of the properties *)

(** [(sum / length).toFixed(2)] of a non-empty array of ratings. *)
Definition mean_toFixed2 (x : JsNumber.Number) (xs : list JsNumber.Number)
  : string :=
  JsNumber.toFixed2
    (JsNumber.div (fold_left JsNumber.add xs x)
       (JsNumber.of_Z (Z.of_nat (length (x :: xs))))).

(** The average [addProductReview] stores, from the new rating and the
    ratings present before the review. *)
Definition avgRating_on_add (rating : JsNumber.Number)
  (existing : list JsNumber.Number) : string :=
  match existing with
  | [] => JsNumber.to_string rating
  | x :: xs => mean_toFixed2 x xs
  end.

(** The average [removeProductReview] stores, from the ratings that remain. *)
Definition avgRating_on_remove (remaining : list JsNumber.Number) : string :=
  match remaining with
  | [] => "0"
  | x :: xs => mean_toFixed2 x xs
  end.

Definition reviewDetails_of (rating : JsNumber.Number) (review : string)
  (user : User.t) : ReviewDetails.t :=
  {| ReviewDetails.rating := rating;
     ReviewDetails.feedbackMsg := review;
     ReviewDetails.customerId := User._id user;
     ReviewDetails.customerName := User.name user |}.

Definition store_product (p : Product.t) (d : Db.t) : Db.t :=
  Db.with_products (<[Product._id p := p]> (Db.products d)) d.

(** The product is not in the store, or none of its SKUs has the
    identifier. *)
Definition sku_absent (d : Db.t) (id skuId : string) : Prop :=
  match Db.findOne d id with
  | None => True
  | Some p => forall sku, In sku (Product.skuDetails p) -> Sku._id sku <> skuId
  end.

(** An Order record links the customer to the product. *)
Definition has_order (d : Db.t) (customerId productId : string) : Prop :=
  exists o i,
    In o (Db.orders d) /\ Order.customerId o = customerId
    /\ In i (Order.orderedItems o) /\ Order.productId i = productId.

(** The product holds a Feedback entry of the customer. *)
Definition has_reviewed (p : Product.t) (customerId : string) : Prop :=
  exists f,
    In f (Product.feedbackDetails p) /\ Feedback.customerId f = customerId.

(** Every product holds at most one Feedback per [customerId]. *)
Definition one_review_per_customer (d : Db.t) : Prop :=
  forall id p,
    Db.findOne d id = Some p ->
    NoDup (map Feedback.customerId (Product.feedbackDetails p)).

(** A call of [addProductReview]. *)
Module ReviewRequest.
Record t := {
  productId : string;
  rating : JsNumber.Number;
  review : string;
  user : User.t
}.
End ReviewRequest.

(** Calls of [addProductReview] served one after the other, each from its
    start to its end, and the world they leave. *)
Fixpoint reviews_in_turn {St} (ext : External St)
  (requests : list ReviewRequest.t) (w : World St) : World St :=
  match requests with
  | [] => w
  | r :: rest =>
      reviews_in_turn ext rest
        (snd (addProductReview ext (ReviewRequest.productId r)
                (ReviewRequest.rating r) (ReviewRequest.review r)
                (ReviewRequest.user r) w))
  end.

(** "Every product always holds at most one Feedback per distinct
    customerId": from the world [w], whatever two calls of
    [addProductReview] are in flight and however the event loop serves
    them. *)
Definition always_one_review_per_customer {St} (ext : External St)
  (w : World St) : Prop :=
  forall schedule r1 r2,
    one_review_per_customer
      (db (snd (event_loop schedule
                  (addProductReview_awaits ext (ReviewRequest.productId r1)
                     (ReviewRequest.rating r1) (ReviewRequest.review r1)
                     (ReviewRequest.user r1))
                  (addProductReview_awaits ext (ReviewRequest.productId r2)
                     (ReviewRequest.rating r2) (ReviewRequest.review r2)
                     (ReviewRequest.user r2))
                  w))).

(** The product holds a Feedback entry with the review identifier. *)
Definition has_review (p : Product.t) (reviewId : string) : Prop :=
  exists f, In f (Product.feedbackDetails p) /\ Feedback._id f = reviewId.

(** The entry carries no ledger price reference. *)
Definition lacks_reference (sku : ProductSkuDto.t) : bool :=
  falsy (ProductSkuDto.stripePriceId sku).

(** The ledger serving a batch entry by entry, from the outside state [s]
    to the state [s']: every entry leaves with the code, its price and its
    lifetime; an entry that carried a reference keeps it, and the ledger is
    not called for it; for an entry that lacked one the ledger, in the state
    the entries before it left, creates a price with the code, and the entry
    leaves with the identifier that very call returned. *)
Inductive priced_in_turn {St} (ext : External St) (productId : string)
  (product : Product.t) (code : string)
  : St -> list ProductSkuDto.t -> list ProductSkuDto.t -> St -> Prop :=
| priced_none (s : St) :
    priced_in_turn ext productId product code s [] [] s
| priced_kept (s s' : St) (sku : ProductSkuDto.t)
    (rest rest' : list ProductSkuDto.t) :
    lacks_reference sku = false ->
    priced_in_turn ext productId product code s rest rest' s' ->
    priced_in_turn ext productId product code s (sku :: rest)
      ({| ProductSkuDto.price := ProductSkuDto.price sku;
          ProductSkuDto.lifetime := ProductSkuDto.lifetime sku;
          ProductSkuDto.stripePriceId := ProductSkuDto.stripePriceId sku;
          ProductSkuDto.skuCode := Some code |} :: rest') s'
| priced_created (s s1 s' : St) (sku : ProductSkuDto.t) (id : string)
    (rest rest' : list ProductSkuDto.t) :
    lacks_reference sku = true ->
    stripe_prices_create ext (price_params productId product (Some code) sku) s
    = (Resolved id, s1) ->
    priced_in_turn ext productId product code s1 rest rest' s' ->
    priced_in_turn ext productId product code s (sku :: rest)
      ({| ProductSkuDto.price := ProductSkuDto.price sku;
          ProductSkuDto.lifetime := ProductSkuDto.lifetime sku;
          ProductSkuDto.stripePriceId := Some id;
          ProductSkuDto.skuCode := Some code |} :: rest') s'.

(** The price creations [updateProductSku] issues for the entries [l]: one
    for each entry lacking a reference, in order. *)
Definition price_creations (productId : string) (product : Product.t)
  (code : string) (l : list ProductSkuDto.t) : list Call :=
  map (fun sku =>
         StripePricesCreate (price_params productId product (Some code) sku))
    (List.filter lacks_reference l).

(** The ledger refuses a price of the batch: it serves the entries
    [served], and throws [e] at the entry [sku] after them, which lacks a
    reference, leaving the state [s']. *)
Definition refused_in_turn {St} (ext : External St) (productId : string)
  (product : Product.t) (code : string) (s : St) (batch : list ProductSkuDto.t)
  (served : list ProductSkuDto.t) (sku : ProductSkuDto.t) (e : Exception)
  (s' : St) : Prop :=
  exists served' s1 rest,
    batch = served ++ sku :: rest
    /\ priced_in_turn ext productId product code s served served' s1
    /\ lacks_reference sku = true
    /\ stripe_prices_create ext
         (price_params productId product (Some code) sku) s1
       = (Thrown e, s').

(** The code [new_skuCode] builds, from the outside state it starts in. *)
Definition skuCode_from {St} (ext : External St) (s : St) : string :=
  let '(r, s1) := math_random_toString36 ext s in
  let '(now, _) := date_now ext s1 in
  String.substring 2 3 r +:+ JsNumber.to_string now.

(** The outside state [new_skuCode] leaves. *)
Definition outside_after_skuCode {St} (ext : External St) (s : St) : St :=
  let '(_, s1) := math_random_toString36 ext s in
  snd (date_now ext s1).

(** The ledger price reference of the first SKU with the identifier. *)
Definition stripePriceId_of (d : Db.t) (productId skuId : string)
  : option (option string) :=
  match Db.findOne d productId with
  | None => None
  | Some p =>
      match find (Db.sku_has_id skuId) (Product.skuDetails p) with
      | None => None
      | Some sku => Some (Sku.stripePriceId sku)
      end
  end.

(** "If the prices are equal, the SKU's stripePriceId is not replaced." *)
Definition keeps_reference_on_equal_price {St} (ext : External St)
  (productId skuId : string) (data : ProductSkuDto.t) (w : World St) : Prop :=
  forall product sku,
    Db.findOne (db w) productId = Some product ->
    find (Db.sku_has_id skuId) (Product.skuDetails product) = Some sku ->
    JsNumber.strict_ne (ProductSkuDto.price data) (Sku.price sku) = false ->
    stripePriceId_of
      (db (snd (updateProductSkuById ext productId skuId data w)))
      productId skuId
    = Some (Sku.stripePriceId sku).

(** What [createProduct] sends to the ledger: name and description. *)
Definition ledger_product_params (dto : CreateProductDto.t)
  : Stripe.ProductCreateParams :=
  {| Stripe.name := CreateProductDto.productName dto;
     Stripe.description := CreateProductDto.description dto |}.

Definition created_envelope (p : Product.t) : Envelope Product.t :=
  {| message := "Product created successfully";
     result := p;
     success := true |}.

(** ** The rest of the product service: products, images and licenses *)

Module ImageDetails.
Record t := {
  public_id : option string;
  secure_url : string
}.
End ImageDetails.

Module Cloudinary.
Record DestroyOptions := { invalidate : bool }.
Record UploadOptions := {
  folder : string;
  public_id : string;
  width : string;
  height : option string;
  crop : string;
  quality : string
}.
End Cloudinary.

Module StripeProduct.
Record UpdateParams := {
  name : option string;
  description : option string;
  images : option (list string)
}.
End StripeProduct.

Module File.
Record t := { path : string }.
End File.

(** [s.split('x')]: the pieces of [s] between the occurrences of ["x"]. *)
Fixpoint split_x (s : string) : list string :=
  match s with
  | EmptyString => [EmptyString]
  | String c rest =>
      if Ascii.eqb c "x" then EmptyString :: split_x rest
      else
        match split_x rest with
        | [] => [String c EmptyString]
        | piece :: pieces => String c piece :: pieces
        end
  end.

(** More of the repositories. *)
Module Repository.

(** Modelled from the spec: [ProductRepository.findRelatedProducts] with the
    query [{ category, _id: { $ne: id } }]: the products of the category
    other than the one with the identifier, in no particular order. *)
Definition related (category id : string) (entry : string * Product.t) : bool :=
  String.eqb (Product.category (snd entry)) category
  && negb (String.eqb (fst entry) id).

Definition findRelatedProducts (d : Db.t) (category id : string)
  : list Product.t :=
  map snd (List.filter (related category id) (map_to_list (Db.products d))).

(** Fields present in the DTO overwrite the fields of the product. *)
Definition patch_product (dto : CreateProductDto.t) (p : Product.t) : Product.t :=
  {| Product._id := Product._id p;
     Product.productName := CreateProductDto.productName dto;
     Product.description := CreateProductDto.description dto;
     Product.category := CreateProductDto.category dto;
     Product.stripeProductId :=
       match CreateProductDto.stripeProductId dto with
       | Some v => Some v
       | None => Product.stripeProductId p
       end;
     Product.image := Product.image p;
     Product.avgRating := Product.avgRating p;
     Product.skuDetails := Product.skuDetails p;
     Product.feedbackDetails := Product.feedbackDetails p |}.

(** Modelled from the spec: [ProductRepository.findOneAndUpdate] with a DTO
    as the update document; it returns the updated document, or null. *)
Definition updateProduct (d : Db.t) (id : string) (dto : CreateProductDto.t)
  : option Product.t * Db.t :=
  match Db.products d !! id with
  | None => (None, d)
  | Some p =>
      (Some (patch_product dto p),
       Db.with_products (<[id := patch_product dto p]> (Db.products d)) d)
  end.

Definition with_image (url : string) (p : Product.t) : Product.t :=
  {| Product._id := Product._id p;
     Product.productName := Product.productName p;
     Product.description := Product.description p;
     Product.category := Product.category p;
     Product.stripeProductId := Product.stripeProductId p;
     Product.image := Some url;
     Product.avgRating := Product.avgRating p;
     Product.skuDetails := Product.skuDetails p;
     Product.feedbackDetails := Product.feedbackDetails p |}.

(** Modelled from the spec: [ProductRepository.findOneAndUpdate] with
    [{ imageDetails, image }], as far as the [image] field goes. *)
Definition setImage (d : Db.t) (id url : string) : option Product.t * Db.t :=
  match Db.products d !! id with
  | None => (None, d)
  | Some p =>
      (Some (with_image url p),
       Db.with_products (<[id := with_image url p]> (Db.products d)) d)
  end.

(** Modelled from the spec: [ProductRepository.findOneAndDelete]. *)
Definition findOneAndDelete (d : Db.t) (id : string) : option Product.t * Db.t :=
  (Db.products d !! id, Db.with_products (delete id (Db.products d)) d).

Definition license_has_id (id : string) (l : License.t) : bool :=
  String.eqb (License._id l) id.

(** Modelled from the spec: [ProductRepository.createLicense], which creates
    a License record referencing the product and the SKU. The store refuses
    an identifier it already holds. *)
Definition createLicense (d : Db.t) (id productId skuId licenseKey : string)
  : Outcome License.t * Db.t :=
  if existsb (license_has_id id) (Db.licenses d) then
    (Thrown (Rejection "E11000 duplicate key error"), d)
  else
    let l := {| License._id := id;
                License.product := productId;
                License.productSku := skuId;
                License.licenseKey := licenseKey |} in
    (Resolved l, Db.with_licenses (Db.licenses d ++ [l]) d).

Fixpoint remove_first {A} (f : A -> bool) (l : list A) : list A :=
  match l with
  | [] => []
  | x :: xs => if f x then xs else x :: remove_first f xs
  end.

(** Modelled from the spec: [ProductRepository.removeLicense], which deletes
    by identifier; deleting an absent license is a no-op that returns
    null. *)
Definition removeLicense (d : Db.t) (id : string) : option License.t * Db.t :=
  (find (license_has_id id) (Db.licenses d),
   Db.with_licenses (remove_first (license_has_id id) (Db.licenses d)) d).

(** Modelled from the spec: [ProductRepository.findLicense], which returns
    all License records matching both references. *)
Definition findLicense (d : Db.t) (productId skuId : string) : list License.t :=
  List.filter
    (fun l => String.eqb (License.product l) productId
              && String.eqb (License.productSku l) skuId)
    (Db.licenses d).

Definition with_key (licenseKey : string) (l : License.t) : License.t :=
  {| License._id := License._id l;
     License.product := License.product l;
     License.productSku := License.productSku l;
     License.licenseKey := licenseKey |}.

(** Modelled from the spec: [ProductRepository.updateLicense], which updates
    the key of the License with the identifier and returns it, or null. *)
Definition updateLicense (d : Db.t) (id licenseKey : string)
  : option License.t * Db.t :=
  (option_map (with_key licenseKey) (find (license_has_id id) (Db.licenses d)),
   Db.with_licenses
     (Db.update_first (license_has_id id) (with_key licenseKey) (Db.licenses d))
     d).

End Repository.

(** The calls of the whole service: those recorded so far, and the others. *)
Inductive CallX :=
| Core (c : Call)
| StripeProductsUpdate (id : option string) (params : StripeProduct.UpdateParams)
| StripeProductsDel (id : option string)
| CloudinaryDestroy (public_id : string) (options : Cloudinary.DestroyOptions)
| CloudinaryUpload (path : string) (options : Cloudinary.UploadOptions)
| UnlinkSync (path : string)
| ProductDBFindRelatedProducts (category id : string)
| ProductDBUpdateProduct (id : string) (dto : CreateProductDto.t)
| ProductDBSetImage (id : string) (imageDetails : ImageDetails.t)
| ProductDBFindOneAndDelete (id : string)
| ProductDBCreateLicense (productId skuId licenseKey : string)
| ProductDBRemoveLicense (id : string)
| ProductDBFindLicense (productId skuId : string)
| ProductDBUpdateLicense (id licenseKey : string).

(** The world of the whole service: the store, the [imageDetails] of the
    products by product identifier, the outside, and the calls. *)
Record WorldX (St : Type) := {
  xdb : Db.t;
  ximages : gmap string ImageDetails.t;
  xoutside : St;
  xcalls : list CallX
}.
Arguments xdb {St} _.
Arguments ximages {St} _.
Arguments xoutside {St} _.
Arguments xcalls {St} _.

(** The outside of the whole service: what [External] has, the rest of the
    Stripe client, the Cloudinary uploader, [fs.unlinkSync] and
    [config.get] (which throws on an undefined key; the result is the
    value's string form). *)
Record ExternalX (St : Type) := {
  core : External St;
  stripe_products_update :
    option string -> StripeProduct.UpdateParams -> St -> Outcome unit * St;
  stripe_products_del : option string -> St -> Outcome unit * St;
  cloudinary_destroy :
    string -> Cloudinary.DestroyOptions -> St -> Outcome unit * St;
  cloudinary_upload :
    string -> Cloudinary.UploadOptions -> St -> Outcome ImageDetails.t * St;
  unlinkSync : string -> St -> Outcome unit * St;
  config_get : string -> Outcome string
}.
Arguments core {St} _.
Arguments stripe_products_update {St} _.
Arguments stripe_products_del {St} _.
Arguments cloudinary_destroy {St} _.
Arguments cloudinary_upload {St} _.
Arguments unlinkSync {St} _.
Arguments config_get {St} _.

Definition record_callX {St} (c : CallX) (w : WorldX St) : WorldX St :=
  {| xdb := xdb w; ximages := ximages w; xoutside := xoutside w;
     xcalls := xcalls w ++ [c] |}.

Definition on_outsideX {St A} (f : St -> Outcome A * St) : M (WorldX St) A :=
  fun w =>
    let '(r, s) := f (xoutside w) in
    (r, {| xdb := xdb w; ximages := ximages w; xoutside := s;
           xcalls := xcalls w |}).

Definition on_dbX {St A} (f : Db.t -> Outcome A * Db.t) : M (WorldX St) A :=
  fun w =>
    let '(r, d) := f (xdb w) in
    (r, {| xdb := d; ximages := ximages w; xoutside := xoutside w;
           xcalls := xcalls w |}).

Definition callX {St A} (c : CallX) (m : M (WorldX St) A) : M (WorldX St) A :=
  fun w => m (record_callX c w).

Definition of_outcome {W A} (o : Outcome A) : M W A := fun w => (o, w).

(** A computation of the part modelled first, run in the world of the whole
    service: it sees the store and the outside, and its calls are recorded
    after those already there. *)
Definition lift_core {St A} (m : M (World St) A) : M (WorldX St) A :=
  fun w =>
    let '(r, w') := m {| db := xdb w; outside := xoutside w; calls := [] |} in
    (r, {| xdb := db w'; ximages := ximages w; xoutside := outside w';
           xcalls := xcalls w ++ map Core (calls w') |}).

Section RestOfProductsService.

Context {St : Type}.
Variable ext : ExternalX St.

Local Abbreviation M := (M (WorldX St)).

(** *** [this.stripeClient], [cloudinary.v2.uploader], [fs], [config] *)

Definition stripeClient_products_update (id : option string)
  (params : StripeProduct.UpdateParams) : M unit :=
  callX (StripeProductsUpdate id params)
    (on_outsideX (stripe_products_update ext id params)).

Definition stripeClient_products_del (id : option string) : M unit :=
  callX (StripeProductsDel id) (on_outsideX (stripe_products_del ext id)).

Definition uploader_destroy (public_id : string)
  (options : Cloudinary.DestroyOptions) : M unit :=
  callX (CloudinaryDestroy public_id options)
    (on_outsideX (cloudinary_destroy ext public_id options)).

Definition uploader_upload (path : string) (options : Cloudinary.UploadOptions)
  : M ImageDetails.t :=
  callX (CloudinaryUpload path options)
    (on_outsideX (cloudinary_upload ext path options)).

Definition fs_unlinkSync (path : string) : M unit :=
  callX (UnlinkSync path) (on_outsideX (unlinkSync ext path)).

Definition Date_now : M JsNumber.Number :=
  on_outsideX (fun s =>
    let '(t, s') := date_now (core ext) s in (Resolved t, s')).

Definition fresh_idX : M string :=
  on_outsideX (fun s =>
    let '(id, s') := new_object_id (core ext) s in (Resolved id, s')).

(** *** [this.productDB] *)

Definition productDBX_findOne (id : string) : M (option Product.t) :=
  lift_core (productDB_findOne id).

Definition productDB_findRelatedProducts (category id : string)
  : M (list Product.t) :=
  callX (ProductDBFindRelatedProducts category id)
    (on_dbX (fun d => (Resolved (Repository.findRelatedProducts d category id), d))).

Definition productDB_updateProduct (id : string) (dto : CreateProductDto.t)
  : M (option Product.t) :=
  callX (ProductDBUpdateProduct id dto)
    (on_dbX (fun d =>
       let '(r, d') := Repository.updateProduct d id dto in (Resolved r, d'))).

Definition productDB_findOneAndDelete (id : string) : M (option Product.t) :=
  callX (ProductDBFindOneAndDelete id)
    (fun w =>
       let '(r, d') := Repository.findOneAndDelete (xdb w) id in
       (Resolved r,
        {| xdb := d'; ximages := delete id (ximages w);
           xoutside := xoutside w; xcalls := xcalls w |})).

Definition productDB_setImage (id : string) (imageDetails : ImageDetails.t)
  : M (option Product.t) :=
  callX (ProductDBSetImage id imageDetails)
    (fun w =>
       let '(r, d') :=
         Repository.setImage (xdb w) id (ImageDetails.secure_url imageDetails) in
       (Resolved r,
        {| xdb := d';
           ximages := match r with
                      | Some _ => <[id := imageDetails]> (ximages w)
                      | None => ximages w
                      end;
           xoutside := xoutside w; xcalls := xcalls w |})).

Definition productDB_createLicense (productId skuId licenseKey : string)
  : M License.t :=
  callX (ProductDBCreateLicense productId skuId licenseKey)
    (let* id := fresh_idX in
     on_dbX (fun d => Repository.createLicense d id productId skuId licenseKey)).

Definition productDB_removeLicense (id : string) : M (option License.t) :=
  callX (ProductDBRemoveLicense id)
    (on_dbX (fun d =>
       let '(r, d') := Repository.removeLicense d id in (Resolved r, d'))).

Definition productDB_findLicense (productId skuId : string)
  : M (list License.t) :=
  callX (ProductDBFindLicense productId skuId)
    (on_dbX (fun d => (Resolved (Repository.findLicense d productId skuId), d))).

Definition productDB_updateLicense (id licenseKey : string)
  : M (option License.t) :=
  callX (ProductDBUpdateLicense id licenseKey)
    (on_dbX (fun d =>
       let '(r, d') := Repository.updateLicense d id licenseKey in
       (Resolved r, d'))).

(** *** findOneProduct *)

Definition findOneProduct (id : string)
  : M (Envelope (Product.t * list Product.t)) :=
  try_catch
    (let* product := productDBX_findOne id in
     match product with
     | None => throw (Error "Product does not exist")
     | Some product =>
         let* relatedProducts :=
           productDB_findRelatedProducts (Product.category product) id in
         ret {| message := "Product fetched successfully";
                result := (product, relatedProducts);
                success := true |}
     end)
    (fun error => throw error).

(** *** updateProduct *)

Definition updateProduct (id : string) (updateProductDto : CreateProductDto.t)
  : M (Envelope (option Product.t)) :=
  try_catch
    (let* productExist := productDBX_findOne id in
     match productExist with
     | None => throw (Error "Product does not exist")
     | Some productExist =>
         let* updateProduct := productDB_updateProduct id updateProductDto in
         let* _ :=
           if falsy (CreateProductDto.stripeProductId updateProductDto) then
             stripeClient_products_update (Product.stripeProductId productExist)
               {| StripeProduct.name :=
                    Some (CreateProductDto.productName updateProductDto);
                  StripeProduct.description :=
                    Some (CreateProductDto.description updateProductDto);
                  StripeProduct.images := None |}
           else ret tt in
         ret {| message := "Product updated successfully";
                result := updateProduct;
                success := true |}
     end)
    (fun error => throw error).

(** *** removeProduct *)

Definition removeProduct (id : string) : M (Envelope unit) :=
  try_catch
    (let* productExist := productDBX_findOne id in
     match productExist with
     | None => throw (Error "Product does not exist")
     | Some productExist =>
         let* _ := productDB_findOneAndDelete id in
         let* _ :=
           stripeClient_products_del (Product.stripeProductId productExist) in
         ret {| message := "Product deleted successfully";
                success := true;
                result := tt |}
     end)
    (fun error => throw error).

(** *** uploadProductImage *)

(** [product.imageDetails?.public_id], when truthy. *)
Definition old_public_id (imageDetails : option ImageDetails.t) : option string :=
  match imageDetails with
  | None => None
  | Some details =>
      if falsy (ImageDetails.public_id details) then None
      else ImageDetails.public_id details
  end.

Definition uploadProductImage (id : string) (file : File.t)
  : M (Envelope string) :=
  try_catch
    (let* product := productDBX_findOne id in
     match product with
     | None => throw (Error "Product does not exist")
     | Some product =>
         let* imageDetails := (fun w => (Resolved (ximages w !! id), w)) in
         let* _ :=
           match old_public_id imageDetails with
           | Some public_id =>
               uploader_destroy public_id {| Cloudinary.invalidate := true |}
           | None => ret tt
           end in
         let* folder := of_outcome (config_get ext "cloudinary.folderPath") in
         let* prefix := of_outcome (config_get ext "cloudinary.publicId_prefix") in
         let* now := Date_now in
         let* bigSize := of_outcome (config_get ext "cloudinary.bigSize") in
         let width := nth 0 (split_x bigSize) EmptyString in
         let* bigSize := of_outcome (config_get ext "cloudinary.bigSize") in
         let height := nth_error (split_x bigSize) 1 in
         let* resOfCloudinary :=
           uploader_upload (File.path file)
             {| Cloudinary.folder := folder;
                Cloudinary.public_id := prefix +:+ JsNumber.to_string now;
                Cloudinary.width := width;
                Cloudinary.height := height;
                Cloudinary.crop := "fill";
                Cloudinary.quality := "auto" |} in
         let* _ := fs_unlinkSync (File.path file) in
         let* _ := productDB_setImage id resOfCloudinary in
         let* _ :=
           stripeClient_products_update (Product.stripeProductId product)
             {| StripeProduct.name := None;
                StripeProduct.description := None;
                StripeProduct.images :=
                  Some [ImageDetails.secure_url resOfCloudinary] |} in
         ret {| message := "Image uploaded successfully";
                success := true;
                result := ImageDetails.secure_url resOfCloudinary |}
     end)
    (fun error => throw error).

(** *** Licenses *)

Definition addProductSkuLicense (productId skuId licenseKey : string)
  : M (Envelope License.t) :=
  try_catch
    (let* product := productDBX_findOne productId in
     match product with
     | None => throw (Error "Product does not exist")
     | Some product =>
         match find (fun sku => String.eqb (Sku._id sku) skuId)
                 (Product.skuDetails product) with
         | None => throw (Error "Sku does not exist")
         | Some _ =>
             let* result :=
               productDB_createLicense productId skuId licenseKey in
             ret {| message := "License key added successfully";
                    success := true;
                    result := result |}
         end
     end)
    (fun error => throw error).

Definition removeProductSkuLicense (id : string)
  : M (Envelope (option License.t)) :=
  try_catch
    (let* result := productDB_removeLicense id in
     ret {| message := "License key removed successfully";
            success := true;
            result := result |})
    (fun error => throw error).

Definition getProductSkuLicenses (productId skuId : string)
  : M (Envelope (list License.t)) :=
  try_catch
    (let* product := productDBX_findOne productId in
     match product with
     | None => throw (Error "Product does not exist")
     | Some product =>
         match find (fun sku => String.eqb (Sku._id sku) skuId)
                 (Product.skuDetails product) with
         | None => throw (Error "Sku does not exist")
         | Some _ =>
             let* result := productDB_findLicense productId skuId in
             ret {| message := "Licenses fetched successfully";
                    success := true;
                    result := result |}
         end
     end)
    (fun error => throw error).

Definition updateProductSkuLicense
  (productId skuId licenseKeyId licenseKey : string)
  : M (Envelope (option License.t)) :=
  try_catch
    (let* product := productDBX_findOne productId in
     match product with
     | None => throw (Error "Product does not exist")
     | Some product =>
         match find (fun sku => String.eqb (Sku._id sku) skuId)
                 (Product.skuDetails product) with
         | None => throw (Error "Sku does not exist")
         | Some _ =>
             let* result := productDB_updateLicense licenseKeyId licenseKey in
             ret {| message := "License key updated successfully";
                    success := true;
                    result := result |}
         end
     end)
    (fun error => throw error).

End RestOfProductsService.

(** ** Listing products *)

Module JsMath.

(** [Math.ceil] *)
Definition ceil (x : JsNumber.Number) : JsNumber.Number :=
  match x with
  | S754_finite sg m e =>
      if 0 <=? e then x
      else
        let q := 2 ^ (- e) in
        if sg then
          let n := Z.pos m / q in
          if n =? 0 then S754_zero true else JsNumber.of_Z (- n)
        else JsNumber.of_Z ((Z.pos m + q - 1) / q)
  | _ => x
  end.

(** A number is falsy when it is a zero or NaN. *)
Definition truthy (x : JsNumber.Number) : bool :=
  match x with
  | S754_zero _ | S754_nan => false
  | _ => true
  end.

(** [x || d] for a number that may be undefined. *)
Definition or_default (x : option JsNumber.Number) (d : JsNumber.Number)
  : JsNumber.Number :=
  match x with
  | Some v => if truthy v then v else d
  | None => d
  end.

End JsMath.

Module Listing.

Record Options := {
  skip : option JsNumber.Number;
  limit : option JsNumber.Number
}.

(** What [qs2m] makes of a query. *)
Record Qs2m (Criteria : Type) := {
  criteria : Criteria;
  options : Options;
  links : string -> JsNumber.Number -> list string
}.
Arguments criteria {Criteria} _.
Arguments options {Criteria} _.
Arguments links {Criteria} _.

Record Metadata := {
  m_skip : JsNumber.Number;
  m_limit : JsNumber.Number;
  m_total : JsNumber.Number;
  m_pages : JsNumber.Number;
  m_links : list string
}.

(** The two shapes of the result: the grouped products of the home page, or
    a page of products with its metadata. *)
Inductive Result (Group : Type) :=
| Homepage (products : list Group)
| Page (metadata : Metadata) (products : list Product.t).
Arguments Homepage {Group} products.
Arguments Page {Group} metadata products.

Section FindAllProducts.

Context {St QueryValue Criteria Group : Type}.

(** Whether a value of the query is truthy. *)
Variable truthy : QueryValue -> bool.
(** [qs2m] of the package qs-to-mongo. *)
Variable qs2m : gmap string QueryValue -> Outcome (Qs2m Criteria).
(** [ProductRepository.find], which resolves with the total count and the
    products, and [ProductRepository.findProductWithGroupBy]. *)
Variable productDB_find :
  Criteria -> Options -> Db.t -> Outcome (JsNumber.Number * list Product.t).
Variable productDB_findProductWithGroupBy : Db.t -> Outcome (list Group).

Local Abbreviation M := (M (WorldX St)).

Definition read_db {A} (f : Db.t -> Outcome A) : M A :=
  fun w => (f (xdb w), w).

Definition fetched_message {A} (products : list A) : string :=
  if (0 <? length products)%nat then "Products fetched successfully"
  else "No products found".

Definition findAllProducts (query : gmap string QueryValue)
  : M (Envelope (Result Group)) :=
  try_catch
    (let callForHomePage :=
       match query !! "homepage" with
       | Some v => truthy v
       | None => false
       end in
     let query := delete "homepage" query in
     let* parsed := of_outcome (qs2m query) in
     if callForHomePage then
       let* products := read_db productDB_findProductWithGroupBy in
       ret {| message := fetched_message products;
              result := Homepage products;
              success := true |}
     else
       let* found :=
         read_db (productDB_find (criteria parsed) (options parsed)) in
       let totalProductCount := fst found in
       let products := snd found in
       ret {| message := fetched_message products;
              result :=
                Page
                  {| m_skip :=
                       JsMath.or_default (skip (options parsed))
                         (JsNumber.of_Z 0);
                     m_limit :=
                       JsMath.or_default (limit (options parsed))
                         (JsNumber.of_Z 10);
                     m_total := totalProductCount;
                     m_pages :=
                       match limit (options parsed) with
                       | Some l =>
                           if JsMath.truthy l then
                             JsMath.ceil (JsNumber.div totalProductCount l)
                           else JsNumber.of_Z 1
                       | None => JsNumber.of_Z 1
                       end;
                     m_links := links parsed "/" totalProductCount |}
                  products;
              success := true |})
    (fun error => throw error).

End FindAllProducts.

End Listing.

(** ** Vocabulary of the further properties *)

(** Two stores that differ at most in the Feedback and the average of one
    product: the licenses, the orders and every other product are the same,
    the product is in both or in neither, and all its other fields are the
    same. *)
Definition only_reviews_differ (productId : string) (d d' : Db.t) : Prop :=
  Db.licenses d' = Db.licenses d
  /\ Db.orders d' = Db.orders d
  /\ (forall id, id <> productId -> Db.findOne d' id = Db.findOne d id)
  /\ (Db.findOne d' productId = None <-> Db.findOne d productId = None)
  /\ forall p',
       Db.findOne d' productId = Some p' ->
       exists p,
         Db.findOne d productId = Some p
         /\ Product._id p' = Product._id p
         /\ Product.productName p' = Product.productName p
         /\ Product.description p' = Product.description p
         /\ Product.category p' = Product.category p
         /\ Product.stripeProductId p' = Product.stripeProductId p
         /\ Product.image p' = Product.image p
         /\ Product.skuDetails p' = Product.skuDetails p.

(** Two stores that differ at most in fields of SKUs of one product with
    one identifier: the licenses, the orders and every other product are the
    same, the product is in both or in neither, all its fields other than
    the SKUs are the same, and its SKUs are the same one by one but for the
    fields other than the identifier of those with the given identifier. *)
Definition only_sku_fields_differ (productId skuId : string) (d d' : Db.t)
  : Prop :=
  Db.licenses d' = Db.licenses d
  /\ Db.orders d' = Db.orders d
  /\ (forall id, id <> productId -> Db.findOne d' id = Db.findOne d id)
  /\ (Db.findOne d productId = None -> Db.findOne d' productId = None)
  /\ forall p,
       Db.findOne d productId = Some p ->
       exists p',
         Db.findOne d' productId = Some p'
         /\ Product._id p' = Product._id p
         /\ Product.productName p' = Product.productName p
         /\ Product.description p' = Product.description p
         /\ Product.category p' = Product.category p
         /\ Product.stripeProductId p' = Product.stripeProductId p
         /\ Product.image p' = Product.image p
         /\ Product.avgRating p' = Product.avgRating p
         /\ Product.feedbackDetails p' = Product.feedbackDetails p
         /\ Forall2 (fun sku sku' =>
                       Sku._id sku' = Sku._id sku
                       /\ (Sku._id sku <> skuId -> sku' = sku))
              (Product.skuDetails p) (Product.skuDetails p').

(** No license of the store has the identifier. *)
Definition no_license_has (id : string) (d : Db.t) : Prop :=
  forall l, In l (Db.licenses d) -> License._id l <> id.

(** The operations of the image pipeline, and the operation a call is. *)
Inductive Operation :=
| OpFindOne
| OpDestroy
| OpUpload
| OpUnlink
| OpSetImage
| OpLedgerUpdate
| OpOther.

Definition operation (c : CallX) : Operation :=
  match c with
  | Core (ProductDBFindOne _) => OpFindOne
  | CloudinaryDestroy _ _ => OpDestroy
  | CloudinaryUpload _ _ => OpUpload
  | UnlinkSync _ => OpUnlink
  | ProductDBSetImage _ _ => OpSetImage
  | StripeProductsUpdate _ _ => OpLedgerUpdate
  | _ => OpOther
  end.

(** The pipeline in full, for a product with or without an asset to
    destroy. *)
Definition image_pipeline (old : option string) : list Operation :=
  [OpFindOne]
  ++ match old with Some _ => [OpDestroy] | None => [] end
  ++ [OpUpload; OpUnlink; OpSetImage; OpLedgerUpdate].

(** What [uploadProductImage] asks of the media host and of the ledger. *)
Definition upload_options (folder prefix : string) (now : JsNumber.Number)
  (width height : string) : Cloudinary.UploadOptions :=
  {| Cloudinary.folder := folder;
     Cloudinary.public_id := prefix +:+ JsNumber.to_string now;
     Cloudinary.width := width;
     Cloudinary.height := Some height;
     Cloudinary.crop := "fill";
     Cloudinary.quality := "auto" |}.

Definition images_update (uploaded : ImageDetails.t)
  : StripeProduct.UpdateParams :=
  {| StripeProduct.name := None;
     StripeProduct.description := None;
     StripeProduct.images := Some [ImageDetails.secure_url uploaded] |}.

(** The string has no ["x"] in it. *)
Fixpoint free_of_x (s : string) : bool :=
  match s with
  | EmptyString => true
  | String c rest => negb (Ascii.eqb c "x") && free_of_x rest
  end.

(** The form field [sendEmail] makes of a template variable. *)
Definition var_field {Value} (entry : string * Value)
  : string * MailHandler.Field Value :=
  ("v:" +:+ fst entry, MailHandler.Var (snd entry)).

(** The fields every email starts with. *)
Definition fixed_fields {Value} (to templateName subject : string)
  : MailHandler.FormData Value :=
  [("to", MailHandler.Text to);
   ("template", MailHandler.Text templateName);
   ("subject", MailHandler.Text subject);
   ("from",
    MailHandler.Text
      "mailgun@sandbox83baf4ab2ac84bfb8da56b81f1d076a5.mailgun.org")].

(** The variables [sendEmail] reads from its last argument. *)
Definition entries_of {Value} (templateVars : MailHandler.TemplateVars Value)
  : list (string * Value) :=
  match templateVars with
  | MailHandler.Vars entries => entries
  | _ => []
  end.

(** ** A concrete world for the whole service *)

Module ScenarioX.

Import Scenario.

Definition settings (key : string) : Outcome string :=
  if String.eqb key "cloudinary.folderPath" then Resolved "digizone/products"
  else if String.eqb key "cloudinary.publicId_prefix" then Resolved "product_"
  else if String.eqb key "cloudinary.bigSize" then Resolved "500x400"
  else if String.eqb key "emailService.privateApiKey" then Resolved "key-123"
  else if String.eqb key "emailService.testDomain"
       then Resolved "sandbox.mailgun.org"
  else Thrown (Error "Configuration property is not defined").

(** No configuration at all. *)
Definition no_settings (key : string) : Outcome string :=
  Thrown (Error "Configuration property is not defined").

Definition uploaded (options : Cloudinary.UploadOptions) : ImageDetails.t :=
  {| ImageDetails.public_id := Some (Cloudinary.public_id options);
     ImageDetails.secure_url :=
       "https://res.cloudinary.com/" +:+ Cloudinary.public_id options |}.

(** An outside where everything answers, and one where the ledger and the
    media host are unreachable. *)
Definition everything : ExternalX nat :=
  {| core := ledger;
     stripe_products_update := fun _ _ n => (Resolved tt, n);
     stripe_products_del := fun _ n => (Resolved tt, n);
     cloudinary_destroy := fun _ _ n => (Resolved tt, n);
     cloudinary_upload := fun _ options n => (Resolved (uploaded options), n);
     unlinkSync := fun _ n => (Resolved tt, n);
     config_get := settings |}.

Definition nothing : ExternalX nat :=
  {| core := ledger_down;
     stripe_products_update := fun _ _ n =>
       (Thrown (Rejection "StripeConnectionError"), n);
     stripe_products_del := fun _ n =>
       (Thrown (Rejection "StripeConnectionError"), n);
     cloudinary_destroy := fun _ _ n => (Resolved tt, n);
     cloudinary_upload := fun _ _ n => (Thrown (Rejection "ETIMEDOUT"), n);
     unlinkSync := fun _ n => (Resolved tt, n);
     config_get := settings |}.

Definition old_image : ImageDetails.t :=
  {| ImageDetails.public_id := Some "digizone/products/product_1";
     ImageDetails.secure_url :=
       "https://res.cloudinary.com/digizone/products/product_1" |}.

Definition worldX : WorldX nat :=
  {| xdb := store;
     ximages := {[ "P1" := old_image ]};
     xoutside := 0%nat;
     xcalls := [] |}.

Definition upload : File.t := {| File.path := "/tmp/upload-1.png" |}.

Definition renamed : CreateProductDto.t :=
  {| CreateProductDto.productName := "Editor Pro";
     CreateProductDto.description := "A better text editor";
     CreateProductDto.category := "Application Software";
     CreateProductDto.stripeProductId := None |}.


(** [P1] once [ada] has reviewed it, and her review. *)
Definition P1_ada : Product.t :=
  Eval vm_compute in
    match product_in world1 with
    | Some p => p
    | None => P1
    end.

Definition review_of_ada : Feedback.t :=
  Eval vm_compute in
    match Product.feedbackDetails P1_ada with
    | f :: _ => f
    | [] => {| Feedback._id := ""; Feedback.rating := JsNumber.of_Z 0;
               Feedback.feedbackMsg := ""; Feedback.customerId := "";
               Feedback.customerName := "" |}
    end.

(** A call of [addProductReview] for [P1]. *)
Definition review_by (user : User.t) (rating : Z) (review : string)
  : ReviewRequest.t :=
  {| ReviewRequest.productId := "P1";
     ReviewRequest.rating := JsNumber.of_Z rating;
     ReviewRequest.review := review;
     ReviewRequest.user := user |}.

(** The listing: queries of strings, a [qs2m] that finds no option, a store
    query that returns everything. *)
Definition nonempty (v : string) : bool := negb (String.eqb v "").

Definition parse (query : gmap string string) : Outcome (Listing.Qs2m unit) :=
  Resolved {| Listing.criteria := tt;
              Listing.options := {| Listing.skip := None;
                                    Listing.limit := None |};
              Listing.links := fun _ _ => [] |}.

Definition home_query : gmap string string :=
  {[ "homepage" := "1"; "category" := "Application Software" ]}.

Definition search_query : gmap string string :=
  {[ "category" := "Application Software" ]}.

Definition find_all (_ : unit) (_ : Listing.Options) (d : Db.t)
  : Outcome (JsNumber.Number * list Product.t) :=
  Resolved (JsNumber.of_Z (Z.of_nat (size (Db.products d))),
            map snd (map_to_list (Db.products d))).

Definition group_all (d : Db.t) : Outcome (list (string * list Product.t)) :=
  Resolved [("Application Software", map snd (map_to_list (Db.products d)))].

(** The mail: variables that are strings, a form that takes them all, a
    network that counts the requests and answers 200. *)
Definition take_all (f : MailHandler.FormData string) (key value : string)
  : Outcome (MailHandler.FormData string) :=
  Resolved (f ++ [(key, MailHandler.Var value)]).

Definition answer (_ : MailHandler.Request string) (n : nat)
  : Outcome nat * nat :=
  (Resolved 200%nat, S n).

Definition mail_world : MailHandler.MailWorld nat :=
  {| MailHandler.net := 0%nat; MailHandler.console := [] |}.

End ScenarioX.

(** * Properties *)

(** ** The monad *)

Lemma try_catch_rethrow {W A} (m : M W A) (w : W) :
  try_catch m (fun error => throw error) w = m w.
Proof.
  unfold try_catch, throw.
  destruct (m w) as [[a | e] w']; reflexivity.
Qed.

Lemma bind_resolved {W A B} (m : M W A) (k : A -> M W B) w a w' :
  m w = (Resolved a, w') -> bind m k w = k a w'.
Proof. intros H. unfold bind. rewrite H. reflexivity. Qed.

Lemma bind_thrown {W A B} (m : M W A) (k : A -> M W B) w e w' :
  m w = (Thrown e, w') -> bind m k w = (Thrown e, w').
Proof. intros H. unfold bind. rewrite H. reflexivity. Qed.

(** ** Numbers *)

(** [toFixed(2)] keeps the hundredth nearest to the value, the larger one
    when two are as near. *)
Lemma nearest_hundredth_spec (p q : Z) :
  0 < q ->
  let n := JsNumber.nearest_hundredth p q in
  200 * p - q < 2 * q * n <= 200 * p + q.
Proof.
  intros Hq n. unfold n, JsNumber.nearest_hundredth.
  pose proof (Z.div_mod (200 * p + q) (2 * q)) as Hdm.
  pose proof (Z.mod_pos_bound (200 * p + q) (2 * q)) as Hb.
  lia.
Qed.

(** Printing agrees with what engines print. *)
Example to_string_integer : JsNumber.to_string (JsNumber.of_Z 4) = "4".
Proof. vm_compute. reflexivity. Qed.

Example to_string_tenth : JsNumber.to_string (JsNumber.of_ratio 1 10) = "0.1".
Proof. vm_compute. reflexivity. Qed.

Example to_string_sum :
  JsNumber.to_string
    (JsNumber.add (JsNumber.of_ratio 1 10) (JsNumber.of_ratio 2 10))
  = "0.30000000000000004".
Proof. vm_compute. reflexivity. Qed.

Example to_string_large : JsNumber.to_string (JsNumber.of_Z (10 ^ 21)) = "1e+21".
Proof. vm_compute. reflexivity. Qed.

Example to_string_small :
  JsNumber.to_string (JsNumber.of_ratio 1 10000000) = "1e-7".
Proof. vm_compute. reflexivity. Qed.

Example toFixed2_integer : JsNumber.toFixed2 (JsNumber.of_Z 4) = "4.00".
Proof. vm_compute. reflexivity. Qed.

Example toFixed2_third : JsNumber.toFixed2 (JsNumber.of_ratio 10 3) = "3.33".
Proof. vm_compute. reflexivity. Qed.

Example toFixed2_below_tie :
  JsNumber.toFixed2 (JsNumber.of_ratio 1005 1000) = "1.00".
Proof. vm_compute. reflexivity. Qed.

Example toFixed2_exact_tie : JsNumber.toFixed2 (JsNumber.of_ratio 1 8) = "0.13".
Proof. vm_compute. reflexivity. Qed.

Example toFixed2_negative :
  JsNumber.toFixed2 (SFopp (JsNumber.of_ratio 1 1000)) = "-0.00".
Proof. vm_compute. reflexivity. Qed.

(** ** Lists *)

Lemma find_none_iff {A} (f : A -> bool) (l : list A) :
  find f l = None <-> forall x, In x l -> f x = false.
Proof.
  unfold find. split.
  - apply List.find_none.
  - induction l as [| x xs IH]; intros H; simpl; [reflexivity |].
    rewrite (H x (or_introl eq_refl)). apply IH.
    intros y Hy. apply H. right. exact Hy.
Qed.

Lemma find_some_of_in {A} (f : A -> bool) (l : list A) (x : A) :
  In x l -> f x = true -> exists y, find f l = Some y /\ In y l /\ f y = true.
Proof.
  intros Hin Hf. destruct (find f l) as [y |] eqn:E.
  - exists y. split; [reflexivity |]. apply List.find_some in E. exact E.
  - rewrite find_none_iff in E. rewrite (E x Hin) in Hf. discriminate.
Qed.

Section ProductsServiceProperties.

Context {St : Type}.
Variable ext : External St.

Local Abbreviation M := (M (World St)).

(** ** Collaborator calls *)

Lemma db_record_call (c : Call) (w : World St) :
  db (record_call c w) = db w.
Proof. reflexivity. Qed.

Lemma outside_record_call (c : Call) (w : World St) :
  outside (record_call c w) = outside w.
Proof. reflexivity. Qed.

Lemma productDB_findOne_run (id : string) (w : World St) :
  productDB_findOne id w =
  (Resolved (Db.findOne (db w) id), record_call (ProductDBFindOne id) w).
Proof. reflexivity. Qed.

Lemma fresh_ids_run (n : nat) (w : World St) :
  fresh_ids ext n w =
  (Resolved (fst (draw_ids ext n (outside w))),
   {| db := db w; outside := snd (draw_ids ext n (outside w));
      calls := calls w |}).
Proof.
  revert w. induction n as [| n IH]; intros w.
  - destruct w; reflexivity.
  - simpl. unfold bind, fresh_id, on_outside at 1.
    destruct (new_object_id ext (outside w)) as [id s1]. simpl.
    rewrite IH. simpl.
    destruct (draw_ids ext n s1) as [ids s2]. reflexivity.
Qed.

Lemma productDB_findOneAndUpdate_run (f : Filter) (u : Update) (w : World St) :
  productDB_findOneAndUpdate ext f u w =
  (fst (Db.findOneAndUpdate (db w) f u
          (fst (draw_ids ext (Db.ids_needed u) (outside w)))),
   {| db := snd (Db.findOneAndUpdate (db w) f u
                   (fst (draw_ids ext (Db.ids_needed u) (outside w))));
      outside := snd (draw_ids ext (Db.ids_needed u) (outside w));
      calls := calls w ++ [ProductDBFindOneAndUpdate f u] |}).
Proof.
  unfold productDB_findOneAndUpdate, call.
  rewrite (bind_resolved _ _ _ _ _ (fresh_ids_run _ _)).
  unfold on_db. simpl.
  destruct (Db.findOneAndUpdate _ _ _ _) as [r d]. reflexivity.
Qed.

Lemma orderDB_findOne_run (customerId productId : string) (w : World St) :
  orderDB_findOne customerId productId w =
  (Resolved (Db.findOrder (db w) customerId productId),
   record_call (OrderDBFindOne customerId productId) w).
Proof. reflexivity. Qed.

(** Every method is a [try] block that rethrows, and starts by looking the
    product up. *)
Ltac lookup_product :=
  rewrite try_catch_rethrow;
  rewrite (bind_resolved _ _ _ _ _ (productDB_findOne_run _ _)).

Tactic Notation "enter_method" reference(f) := unfold f; lookup_product.

(** ** deleteProductSkuById *)

(** C9: when the product or the SKU is absent, [deleteProductSkuById]
    throws, and the only call it has issued is the product lookup: no ledger
    deactivation, no SKU removal, no license deletion; the store and the
    ledger are as before. *)
Theorem deleteProductSkuById_absent_throws (id skuId : string) (w : World St) :
  sku_absent (db w) id skuId ->
  exists e,
    deleteProductSkuById ext id skuId w =
    (Thrown e,
     {| db := db w; outside := outside w;
        calls := calls w ++ [ProductDBFindOne id] |}).
Proof.
  intros Habs. unfold sku_absent in Habs.
  enter_method deleteProductSkuById.
  destruct (Db.findOne (db w) id) as [p |] eqn:Ep.
  - assert (Hnone : find (fun sku => String.eqb (Sku._id sku) skuId)
                      (Product.skuDetails p) = None).
    { apply find_none_iff. intros sku Hin.
      apply String.eqb_neq. apply Habs. exact Hin. }
    rewrite Hnone. eexists. reflexivity.
  - eexists. reflexivity.
Qed.

(** ** Reviews *)

(** Every path of [addProductReview]. *)
Lemma addProductReview_run (productId : string) (rating : JsNumber.Number)
  (review : string) (user : User.t) (w : World St) :
  addProductReview ext productId rating review user w =
  match Db.findOne (db w) productId with
  | None =>
      (Thrown (Error "Product does not exist"),
       record_call (ProductDBFindOne productId) w)
  | Some product =>
      match find (fun value =>
                    String.eqb (Feedback.customerId value) (User._id user))
              (Product.feedbackDetails product) with
      | Some _ =>
          (Thrown (BadRequestException
                     "You have already gave the review for this product"),
           record_call (ProductDBFindOne productId) w)
      | None =>
          match Db.findOrder (db w) (User._id user) productId with
          | None =>
              (Thrown (BadRequestException "You have not purchased this product"),
               record_call (OrderDBFindOne (User._id user) productId)
                 (record_call (ProductDBFindOne productId) w))
          | Some _ =>
              let avgRating :=
                avgRating_on_add rating
                  (map Feedback.rating (Product.feedbackDetails product)) in
              let reviewDetails := reviewDetails_of rating review user in
              let '(id, s) := new_object_id ext (outside w) in
              let product' :=
                Db.with_reviews avgRating
                  (Product.feedbackDetails product
                   ++ [Db.cast_feedback id reviewDetails]) product in
              (Resolved {| message := "Product review added successfully";
                           success := true;
                           result := Some product' |},
               {| db := Db.with_products
                          (<[productId := product']> (Db.products (db w)))
                          (db w);
                  outside := s;
                  calls := calls w
                           ++ [ProductDBFindOne productId;
                               OrderDBFindOne (User._id user) productId;
                               ProductDBFindOneAndUpdate (ById productId)
                                 (SetAvgRatingPushFeedback avgRating
                                    reviewDetails)] |})
          end
      end
  end.
Proof.
  enter_method addProductReview.
  destruct (Db.findOne (db w) productId) as [product |] eqn:Ep; [| reflexivity].
  destruct (find _ (Product.feedbackDetails product)); [reflexivity |].
  rewrite (bind_resolved _ _ _ _ _ (orderDB_findOne_run _ _ _)).
  rewrite db_record_call.
  destruct (Db.findOrder (db w) (User._id user) productId); [| reflexivity].
  assert (Havg : forall w',
    (if (0 <? length (map Feedback.rating (Product.feedbackDetails product)))%nat
     then @average St (map Feedback.rating (Product.feedbackDetails product))
     else ret (JsNumber.to_string rating)) w' =
    (Resolved (avgRating_on_add rating
                 (map Feedback.rating (Product.feedbackDetails product))), w')).
  { intros w'. destruct (Product.feedbackDetails product); reflexivity. }
  rewrite (bind_resolved _ _ _ _ _ (Havg _)).
  unfold bind. rewrite productDB_findOneAndUpdate_run.
  simpl. unfold Db.findOneAndUpdate. simpl.
  unfold Db.findOne in Ep. rewrite Ep.
  destruct (new_object_id ext (outside w)) as [id s]. simpl.
  unfold ret. rewrite <- !app_assoc. reflexivity.
Qed.

Lemma findOrder_none (d : Db.t) (customerId productId : string) :
  ~ has_order d customerId productId ->
  Db.findOrder d customerId productId = None.
Proof.
  intros Hno. unfold Db.findOrder. apply find_none_iff. intros o Hin.
  destruct (Db.order_links customerId productId o) eqn:E; [| reflexivity].
  exfalso. apply Hno. unfold Db.order_links in E.
  apply andb_true_iff in E as [Hc Hi].
  apply existsb_exists in Hi as (i & Hi & Hp).
  exists o, i. repeat split; try assumption.
  - apply String.eqb_eq. exact Hc.
  - apply String.eqb_eq. exact Hp.
Qed.

Lemma find_reviewer_none (p : Product.t) (customerId : string) :
  find (fun value => String.eqb (Feedback.customerId value) customerId)
    (Product.feedbackDetails p) = None ->
  ~ In customerId (map Feedback.customerId (Product.feedbackDetails p)).
Proof.
  intros Hnone Hin. apply in_map_iff in Hin as (f & Hc & Hf).
  rewrite find_none_iff in Hnone. specialize (Hnone f Hf). simpl in Hnone.
  apply String.eqb_neq in Hnone. contradiction.
Qed.

Lemma find_reviewer_some (p : Product.t) (customerId : string) :
  has_reviewed p customerId ->
  exists f,
    find (fun value => String.eqb (Feedback.customerId value) customerId)
      (Product.feedbackDetails p) = Some f.
Proof.
  intros (f & Hin & Hc).
  destruct (find_some_of_in
              (fun value => String.eqb (Feedback.customerId value) customerId)
              _ f Hin) as (y & Hy & _).
  - apply String.eqb_eq. exact Hc.
  - exists y. exact Hy.
Qed.

(** C3: for a product in the store and a reviewer with no Order linking
    them to it, [addProductReview] throws a [BadRequestException]; the
    store and the ledger are unchanged, and the only calls issued are
    lookups: no store update is issued. *)
Theorem addProductReview_requires_order (productId : string)
  (rating : JsNumber.Number) (review : string) (user : User.t)
  (w : World St) (product : Product.t) :
  Db.findOne (db w) productId = Some product ->
  ~ has_order (db w) (User._id user) productId ->
  exists msg lookups w',
    addProductReview ext productId rating review user w =
    (Thrown (BadRequestException msg), w')
    /\ w' = {| db := db w; outside := outside w;
               calls := calls w ++ lookups |}
    /\ Db.findOne (db w') productId = Some product
    /\ forall c, In c lookups ->
         c = ProductDBFindOne productId
         \/ c = OrderDBFindOne (User._id user) productId.
Proof.
  intros Hp Hno. rewrite addProductReview_run, Hp.
  rewrite (findOrder_none _ _ _ Hno).
  destruct (find _ (Product.feedbackDetails product)).
  - exists "You have already gave the review for this product",
      [ProductDBFindOne productId].
    eexists. split; [reflexivity |]. split; [reflexivity |].
    split; [exact Hp |].
    intros c [<- | []]. left. reflexivity.
  - exists "You have not purchased this product",
      [ProductDBFindOne productId; OrderDBFindOne (User._id user) productId].
    eexists. split; [reflexivity |]. split; [| split; [exact Hp |]].
    + unfold record_call. simpl. rewrite <- app_assoc. reflexivity.
    + intros c [<- | [<- | []]]; [left | right]; reflexivity.
Qed.

(** Run from its start to its end with nothing in between, the method with
    its [await]s is [addProductReview]. *)
Lemma addProductReview_awaits_to_completion (productId : string)
  (rating : JsNumber.Number) (review : string) (user : User.t) (w : World St) :
  to_completion (addProductReview_awaits ext productId rating review user) w
  = addProductReview ext productId rating review user w.
Proof.
  unfold addProductReview. rewrite try_catch_rethrow.
  unfold addProductReview_awaits, bind. simpl.
  destruct (Db.findOne (db w) productId) as [product |]; [| reflexivity].
  destruct (find _ (Product.feedbackDetails product)); [reflexivity |].
  simpl.
  destruct (Db.findOrder (db w) (User._id user) productId); [| reflexivity].
  simpl.
  destruct ((if (0 <? length (map Feedback.rating
                            (Product.feedbackDetails product)))%nat
             then average (map Feedback.rating
                             (Product.feedbackDetails product))
             else ret (JsNumber.to_string rating)) _) as [[avg | e] w1];
    [| reflexivity].
  simpl.
  destruct (productDB_findOneAndUpdate ext _ _ w1) as [[r | e] w2];
    reflexivity.
Qed.

(** One call of [addProductReview], from its start to its end, keeps at
    most one Feedback per customerId. *)
Lemma addProductReview_keeps_one_review (productId : string)
  (rating : JsNumber.Number) (review : string) (user : User.t)
  (w : World St) :
  one_review_per_customer (db w) ->
  one_review_per_customer
    (db (snd (addProductReview ext productId rating review user w))).
Proof.
  intros Hinv. rewrite addProductReview_run.
  destruct (Db.findOne (db w) productId) as [product |] eqn:Ep;
    [| exact Hinv].
  destruct (find _ (Product.feedbackDetails product)) eqn:Ef; [exact Hinv |].
  destruct (Db.findOrder (db w) (User._id user) productId); [| exact Hinv].
  simpl. destruct (new_object_id ext (outside w)) as [oid s]. simpl.
  intros id p. unfold Db.findOne. simpl.
  destruct (decide (productId = id)) as [-> | Hne].
  - rewrite lookup_insert_eq. intros [= <-]. simpl.
    rewrite map_app. simpl.
    apply NoDup_app. split; [exact (Hinv _ _ Ep) |]. split.
    + intros x Hx Hx'. apply list_elem_of_In in Hx.
      apply list_elem_of_In in Hx'. destruct Hx' as [<- | []].
      exact (find_reviewer_none _ _ Ef Hx).
    + apply NoDup_singleton.
  - rewrite lookup_insert_ne by exact Hne. apply Hinv.
Qed.

(** C2, as amended: a reviewer who has a Feedback entry on the product when
    the call starts gets the duplicate-review [BadRequestException] after
    the product lookup alone, with nothing written; and calls served one
    after the other, each from its start to its end, leave at most one
    Feedback per customerId on every product of a store that had at most
    one. A call served from its start to its end is the method with its
    [await]s run with nothing in between. *)
Theorem addProductReview_one_review_per_customer (productId : string)
  (rating : JsNumber.Number) (review : string) (user : User.t)
  (w : World St) :
  (forall product,
     Db.findOne (db w) productId = Some product ->
     has_reviewed product (User._id user) ->
     addProductReview ext productId rating review user w =
     (Thrown (BadRequestException
                "You have already gave the review for this product"),
      {| db := db w; outside := outside w;
         calls := calls w ++ [ProductDBFindOne productId] |}))
  /\ (forall requests,
        one_review_per_customer (db w) ->
        one_review_per_customer (db (reviews_in_turn ext requests w)))
  /\ to_completion (addProductReview_awaits ext productId rating review user) w
     = addProductReview ext productId rating review user w.
Proof.
  split; [| split].
  - intros product Hp Hdup. rewrite addProductReview_run, Hp.
    destruct (find_reviewer_some _ _ Hdup) as (f & ->). reflexivity.
  - intros requests. revert w.
    induction requests as [| r rest IH]; intros w0 Hinv; [exact Hinv |].
    simpl. apply IH. apply addProductReview_keeps_one_review. exact Hinv.
  - apply addProductReview_awaits_to_completion.
Qed.

(** Every path of [removeProductReview]. *)
Lemma removeProductReview_run (productId reviewId : string) (w : World St) :
  removeProductReview ext productId reviewId w =
  match Db.findOne (db w) productId with
  | None =>
      (Thrown (Error "Product does not exist"),
       record_call (ProductDBFindOne productId) w)
  | Some product =>
      match find (fun review => String.eqb (Feedback._id review) reviewId)
              (Product.feedbackDetails product) with
      | None =>
          (Thrown (Error "Review does not exist"),
           record_call (ProductDBFindOne productId) w)
      | Some _ =>
          let remaining :=
            List.filter
              (fun comment => negb (String.eqb (Feedback._id comment) reviewId))
              (Product.feedbackDetails product) in
          let avgRating :=
            avgRating_on_remove (map Feedback.rating remaining) in
          let product' := Db.with_reviews avgRating remaining product in
          (Resolved {| message := "Product review removed successfully";
                       success := true;
                       result := Some product' |},
           {| db := Db.with_products
                      (<[productId := product']> (Db.products (db w))) (db w);
              outside := outside w;
              calls := calls w
                       ++ [ProductDBFindOne productId;
                           ProductDBFindOneAndUpdate (ById productId)
                             (SetAvgRatingPullFeedback avgRating reviewId)] |})
      end
  end.
Proof.
  enter_method removeProductReview.
  destruct (Db.findOne (db w) productId) as [product |] eqn:Ep; [| reflexivity].
  destruct (find _ (Product.feedbackDetails product)); [| reflexivity].
  set (remaining := List.filter _ (Product.feedbackDetails product)).
  assert (Havg : forall w',
    (if (0 <? length (map Feedback.rating remaining))%nat
     then @average St (map Feedback.rating remaining)
     else ret "0") w' =
    (Resolved (avgRating_on_remove (map Feedback.rating remaining)), w')).
  { intros w'. destruct remaining; reflexivity. }
  rewrite (bind_resolved _ _ _ _ _ (Havg _)).
  unfold bind. rewrite productDB_findOneAndUpdate_run.
  simpl. unfold Db.findOneAndUpdate. simpl.
  unfold Db.findOne in Ep. rewrite Ep. simpl.
  unfold ret. rewrite <- !app_assoc. reflexivity.
Qed.

(** C4: [removeProductReview] throws after the product lookup alone when the
    product is absent or holds no Feedback with the review identifier.
    Otherwise it issues, after the lookup, one update that pulls the entry
    and sets the average; the product it leaves holds the entries with
    another identifier, and its avgRating is the 2-decimal mean of the
    ratings it then holds, or "0" when it holds none. *)
Theorem removeProductReview_recomputes_average (productId reviewId : string)
  (w : World St) :
  ((Db.findOne (db w) productId = None
    \/ exists product,
         Db.findOne (db w) productId = Some product
         /\ ~ has_review product reviewId) ->
   exists e,
     removeProductReview ext productId reviewId w =
     (Thrown e,
      {| db := db w; outside := outside w;
         calls := calls w ++ [ProductDBFindOne productId] |}))
  /\ forall product,
       Db.findOne (db w) productId = Some product ->
       has_review product reviewId ->
       exists avgRating product' d',
         removeProductReview ext productId reviewId w =
         (Resolved {| message := "Product review removed successfully";
                      success := true;
                      result := Some product' |},
          {| db := d'; outside := outside w;
             calls := calls w
                      ++ [ProductDBFindOne productId;
                          ProductDBFindOneAndUpdate (ById productId)
                            (SetAvgRatingPullFeedback avgRating reviewId)] |})
         /\ Db.findOne d' productId = Some product'
         /\ (forall f,
               In f (Product.feedbackDetails product') <->
               In f (Product.feedbackDetails product)
               /\ Feedback._id f <> reviewId)
         /\ Product.avgRating product' = Some avgRating
         /\ avgRating =
            avgRating_on_remove
              (map Feedback.rating (Product.feedbackDetails product'))
         /\ (Product.feedbackDetails product' = [] -> avgRating = "0").
Proof.
  rewrite removeProductReview_run. split.
  - intros [Hnone | (product & Hp & Hno)].
    + rewrite Hnone. eexists. reflexivity.
    + rewrite Hp.
      assert (Hfind : find (fun review => String.eqb (Feedback._id review) reviewId)
                        (Product.feedbackDetails product) = None).
      { apply find_none_iff. intros f Hin. apply String.eqb_neq.
        intros Heq. apply Hno. exists f. split; assumption. }
      rewrite Hfind. eexists. reflexivity.
  - intros product Hp (f & Hin & Hid). rewrite Hp.
    destruct (find_some_of_in
                (fun review => String.eqb (Feedback._id review) reviewId)
                _ f Hin) as (y & -> & _).
    { apply String.eqb_eq. exact Hid. }
    eexists _, _, _. split; [reflexivity |].
    split; [| split; [| split; [| split]]].
    + unfold Db.findOne. simpl. apply lookup_insert_eq.
    + intros g. simpl. rewrite filter_In, negb_true_iff, String.eqb_neq.
      reflexivity.
    + reflexivity.
    + reflexivity.
    + simpl. intros ->. reflexivity.
Qed.

(** ** SKUs *)

Lemma stripeClient_prices_update_run (id : option string)
  (params : Stripe.PriceUpdateParams) (w : World St) :
  stripeClient_prices_update ext id params w =
  (fst (stripe_prices_update ext id params (outside w)),
   {| db := db w;
      outside := snd (stripe_prices_update ext id params (outside w));
      calls := calls w ++ [StripePricesUpdate id params] |}).
Proof.
  unfold stripeClient_prices_update, call, on_outside. simpl.
  destruct (stripe_prices_update ext id params (outside w)). reflexivity.
Qed.

Lemma stripeClient_prices_create_run (params : Stripe.PriceCreateParams)
  (w : World St) :
  stripeClient_prices_create ext params w =
  (fst (stripe_prices_create ext params (outside w)),
   {| db := db w;
      outside := snd (stripe_prices_create ext params (outside w));
      calls := calls w ++ [StripePricesCreate params] |}).
Proof.
  unfold stripeClient_prices_create, call, on_outside. simpl.
  destruct (stripe_prices_create ext params (outside w)). reflexivity.
Qed.

Lemma stripeClient_products_create_run (params : Stripe.ProductCreateParams)
  (w : World St) :
  stripeClient_products_create ext params w =
  (fst (stripe_products_create ext params (outside w)),
   {| db := db w;
      outside := snd (stripe_products_create ext params (outside w));
      calls := calls w ++ [StripeProductsCreate params] |}).
Proof.
  unfold stripeClient_products_create, call, on_outside. simpl.
  destruct (stripe_products_create ext params (outside w)). reflexivity.
Qed.

(** C5: when the product and the SKU exist and the ledger accepts the
    update, [deleteProductSkuById] issues, in this order, the product
    lookup, one ledger update of the SKU's price to inactive, the removal of
    the SKU from the product, and the license deletion with no product
    identifier. The product then holds no SKU with the identifier, and the
    license store holds the licenses with another SKU reference, whatever
    product they refer to. *)
Theorem deleteProductSkuById_cascades (id skuId : string) (w : World St)
  (product : Product.t) (sku : Sku.t) (s' : St) :
  Db.findOne (db w) id = Some product ->
  find (Db.sku_has_id skuId) (Product.skuDetails product) = Some sku ->
  stripe_prices_update ext (Sku.stripePriceId sku) {| Stripe.active := false |}
    (outside w) = (Resolved tt, s') ->
  exists d' product',
    deleteProductSkuById ext id skuId w =
    (Resolved {| message := "Product sku details deleted successfully";
                 success := true;
                 result := (id, skuId) |},
     {| db := d'; outside := s';
        calls := calls w
                 ++ [ProductDBFindOne id;
                     StripePricesUpdate (Sku.stripePriceId sku)
                       {| Stripe.active := false |};
                     ProductDBDeleteSku id skuId;
                     ProductDBDeleteAllLicense None skuId] |})
    /\ Db.findOne d' id = Some product'
    /\ (forall s, In s (Product.skuDetails product') <->
                  In s (Product.skuDetails product) /\ Sku._id s <> skuId)
    /\ (forall l, In l (Db.licenses d') <->
                  In l (Db.licenses (db w)) /\ License.productSku l <> skuId).
Proof.
  intros Hp Hsku Hledger.
  enter_method deleteProductSkuById.
  rewrite Hp. unfold Db.sku_has_id in Hsku. rewrite Hsku.
  unfold bind. rewrite stripeClient_prices_update_run.
  unfold record_call. simpl. rewrite Hledger. simpl.
  unfold Db.findOne in Hp. unfold Db.deleteSku. rewrite Hp.
  eexists _, _. split.
  { unfold ret. rewrite <- !app_assoc. reflexivity. }
  split; [| split].
  - unfold Db.findOne. simpl. apply lookup_insert_eq.
  - intros s. simpl. unfold Db.sku_has_id.
    rewrite filter_In, negb_true_iff, String.eqb_neq. reflexivity.
  - intros l. simpl. unfold Db.license_matches.
    rewrite filter_In, andb_true_r, negb_true_iff, String.eqb_neq.
    reflexivity.
Qed.

Lemma new_skuCode_run (w : World St) :
  exists s',
    new_skuCode ext w =
    (Resolved (skuCode_from ext (outside w)),
     {| db := db w; outside := s'; calls := calls w |}).
Proof.
  unfold new_skuCode, skuCode_from, bind, on_outside, ret. simpl.
  destruct (math_random_toString36 ext (outside w)) as [r s1]. simpl.
  destruct (date_now ext s1) as [now s2]. simpl.
  exists s2. reflexivity.
Qed.

Lemma new_skuCode_outside (w : World St) :
  new_skuCode ext w =
  (Resolved (skuCode_from ext (outside w)),
   {| db := db w; outside := outside_after_skuCode ext (outside w);
      calls := calls w |}).
Proof.
  unfold new_skuCode, skuCode_from, outside_after_skuCode, bind, on_outside,
    ret. simpl.
  destruct (math_random_toString36 ext (outside w)) as [r s1]. simpl.
  destruct (date_now ext s1) as [now s2]. reflexivity.
Qed.

(** The loop of [updateProductSku] over a ledger that serves the batch: one
    price creation per entry lacking a reference, in order, each in the
    state the one before left. *)
Lemma updateProductSku_loop_served (productId : string) (product : Product.t)
  (code : string) (s s' : St) (batch batch' : list ProductSkuDto.t) :
  priced_in_turn ext productId product code s batch batch' s' ->
  forall w : World St,
    outside w = s ->
    updateProductSku_loop ext productId product code batch w =
    (Resolved batch',
     {| db := db w; outside := s';
        calls := calls w ++ price_creations productId product code batch |}).
Proof.
  unfold price_creations.
  induction 1 as [s | s s' sku rest rest' Hkept _ IH
                 | s s1 s' sku id rest rest' Hlacks Hcreate _ IH];
    intros w Hw.
  - simpl. unfold ret. rewrite app_nil_r. subst s. destruct w; reflexivity.
  - simpl. pose proof Hkept as Hf. unfold lacks_reference in Hf.
    rewrite Hf, Hkept.
    unfold bind at 1. unfold bind at 1. unfold ret at 1.
    unfold bind. rewrite (IH w Hw). reflexivity.
  - simpl. pose proof Hlacks as Hf. unfold lacks_reference in Hf.
    rewrite Hf, Hlacks.
    unfold bind at 1. unfold bind at 1.
    rewrite stripeClient_prices_create_run, Hw, Hcreate. simpl.
    unfold ret at 1. unfold bind. rewrite IH by reflexivity. simpl.
    unfold ret. rewrite <- app_assoc. reflexivity.
Qed.

(** The loop over a ledger that refuses a price: the refusal is thrown on,
    after the creations for the entries served and the one refused. *)
Lemma updateProductSku_loop_refused (productId : string) (product : Product.t)
  (code : string) (s s1 s' : St) (served served' rest : list ProductSkuDto.t)
  (sku : ProductSkuDto.t) (e : Exception) :
  priced_in_turn ext productId product code s served served' s1 ->
  lacks_reference sku = true ->
  stripe_prices_create ext (price_params productId product (Some code) sku) s1
  = (Thrown e, s') ->
  forall w : World St,
    outside w = s ->
    updateProductSku_loop ext productId product code (served ++ sku :: rest) w =
    (Thrown e,
     {| db := db w; outside := s';
        calls := calls w
                 ++ price_creations productId product code (served ++ [sku]) |}).
Proof.
  unfold price_creations. intros Hserved Hlacks Hrefuse.
  induction Hserved as [s | s s1 sku0 pre pre' Hkept _ IH
                       | s s0 s1 sku0 id pre pre' Hl0 Hcreate _ IH];
    intros w Hw.
  - simpl. pose proof Hlacks as Hf. unfold lacks_reference in Hf.
    rewrite Hf, Hlacks.
    unfold bind at 1. unfold bind at 1.
    rewrite stripeClient_prices_create_run, Hw, Hrefuse. reflexivity.
  - simpl. pose proof Hkept as Hf. unfold lacks_reference in Hf.
    rewrite Hf, Hkept.
    unfold bind at 1. unfold bind at 1. unfold ret at 1.
    unfold bind. rewrite (IH Hrefuse w Hw). reflexivity.
  - simpl. pose proof Hl0 as Hf. unfold lacks_reference in Hf.
    rewrite Hf, Hl0.
    unfold bind at 1. unfold bind at 1.
    rewrite stripeClient_prices_create_run, Hw, Hcreate. simpl.
    unfold ret at 1. unfold bind. rewrite (IH Hrefuse) by reflexivity. simpl.
    rewrite <- app_assoc. reflexivity.
Qed.

(** Whatever the ledger does, it serves the batch or refuses one of its
    prices. *)
Lemma served_or_refused (productId : string) (product : Product.t)
  (code : string) (batch : list ProductSkuDto.t) (s : St) :
  (exists batch' s',
     priced_in_turn ext productId product code s batch batch' s')
  \/ (exists served sku e s',
        refused_in_turn ext productId product code s batch served sku e s').
Proof.
  revert s. induction batch as [| sku rest IH]; intros s.
  - left. exists [], s. constructor.
  - destruct (lacks_reference sku) eqn:Hl.
    + destruct (stripe_prices_create ext
                  (price_params productId product (Some code) sku) s)
        as [[id | e] s1] eqn:Hcreate.
      * destruct (IH s1) as [(rest' & s' & Hrest)
                            | (served & sku' & e & s' & served' & s2 & tl
                               & -> & Hserved & Hl' & Hrefuse)].
        -- left. eexists _, s'. eapply priced_created; eassumption.
        -- right. exists (sku :: served), sku', e, s'.
           eexists _, s2, tl. split; [reflexivity |].
           split; [eapply priced_created; eassumption |].
           split; assumption.
      * right. exists [], sku, e, s1. exists [], s, rest.
        split; [reflexivity |]. split; [constructor |].
        split; assumption.
    + destruct (IH s) as [(rest' & s' & Hrest)
                         | (served & sku' & e & s' & served' & s2 & tl
                            & -> & Hserved & Hl' & Hrefuse)].
      * left. eexists _, s'. eapply priced_kept; eassumption.
      * right. exists (sku :: served), sku', e, s'.
        eexists _, s2, tl. split; [reflexivity |].
        split; [eapply priced_kept; eassumption |].
        split; assumption.
Qed.

Lemma priced_in_turn_length (productId : string) (product : Product.t)
  (code : string) (s s' : St) (batch batch' : list ProductSkuDto.t) :
  priced_in_turn ext productId product code s batch batch' s' ->
  length batch' = length batch.
Proof. induction 1; simpl; congruence. Qed.

(** C6: on an existing product [updateProductSku] generates one code, and
    the ledger prices it asks for have the amount [price * 100]. When the
    ledger serves the batch, the method resolves; every entry leaves with
    that code, whether it carried a ledger price reference or not; a ledger
    price is created for the entries lacking a reference and for no other,
    each in the ledger state the one before left, and the entry leaves with
    the identifier its own creation returned; one update then appends the
    batch to the SKUs the product already holds. When the ledger refuses a
    price, the refusal is thrown on and the store is as before. The ledger
    does one or the other. *)
Theorem updateProductSku_shares_code (productId : string)
  (batch : list ProductSkuDto.t) (w : World St) (product : Product.t) :
  Db.findOne (db w) productId = Some product ->
  (forall sku,
     Stripe.unit_amount
       (price_params productId product
          (Some (skuCode_from ext (outside w))) sku)
     = JsNumber.mul (ProductSkuDto.price sku) (JsNumber.of_Z 100))
  /\ (forall batch' s',
        priced_in_turn ext productId product (skuCode_from ext (outside w))
          (outside_after_skuCode ext (outside w)) batch batch' s' ->
        updateProductSku ext productId batch w =
        (Resolved (batch', {| message := "Product sku updated successfully";
                              success := true;
                              result := tt |}),
         {| db := Db.with_products
                    (<[productId :=
                         Db.with_skus
                           (Product.skuDetails product
                            ++ zip_with Db.cast_sku
                                 (fst (draw_ids ext (length batch) s')) batch')
                           product]> (Db.products (db w))) (db w);
            outside := snd (draw_ids ext (length batch) s');
            calls := calls w
                     ++ [ProductDBFindOne productId]
                     ++ price_creations productId product
                          (skuCode_from ext (outside w)) batch
                     ++ [ProductDBFindOneAndUpdate (ById productId)
                           (PushSkuDetails batch')] |})
        /\ Forall (fun sku' => ProductSkuDto.skuCode sku'
                               = Some (skuCode_from ext (outside w))) batch')
  /\ (forall served sku e s',
        refused_in_turn ext productId product (skuCode_from ext (outside w))
          (outside_after_skuCode ext (outside w)) batch served sku e s' ->
        updateProductSku ext productId batch w =
        (Thrown e,
         {| db := db w; outside := s';
            calls := calls w
                     ++ [ProductDBFindOne productId]
                     ++ price_creations productId product
                          (skuCode_from ext (outside w)) (served ++ [sku]) |}))
  /\ ((exists batch' s',
         priced_in_turn ext productId product (skuCode_from ext (outside w))
           (outside_after_skuCode ext (outside w)) batch batch' s')
      \/ (exists served sku e s',
            refused_in_turn ext productId product
              (skuCode_from ext (outside w))
              (outside_after_skuCode ext (outside w)) batch served sku e s')).
Proof.
  intros Hp. split; [reflexivity |].
  split; [| split; [| apply served_or_refused]].
  - intros batch' s' Hserved. split.
    + enter_method updateProductSku.
      rewrite Hp.
      rewrite (bind_resolved _ _ _ _ _ (new_skuCode_outside _)).
      rewrite outside_record_call.
      rewrite (bind_resolved _ _ _ _ _
                 (updateProductSku_loop_served _ _ _ _ _ _ _ Hserved
                    {| db := _; outside := _; calls := _ |} eq_refl)).
      unfold bind. rewrite productDB_findOneAndUpdate_run. simpl.
      unfold Db.findOneAndUpdate. simpl.
      unfold Db.findOne in Hp. rewrite Hp. simpl.
      rewrite (priced_in_turn_length _ _ _ _ _ _ _ Hserved).
      unfold ret. rewrite <- !app_assoc. reflexivity.
    + clear Hp. induction Hserved; constructor; try assumption; reflexivity.
  - intros served sku e s'
      (served' & s1 & rest & -> & Hserved & Hlacks & Hrefuse).
    enter_method updateProductSku.
    rewrite Hp.
    rewrite (bind_resolved _ _ _ _ _ (new_skuCode_outside _)).
    rewrite outside_record_call.
    unfold bind.
    rewrite (updateProductSku_loop_refused _ _ _ _ _ _ _ _ rest _ _
               Hserved Hlacks Hrefuse
               {| db := _; outside := _; calls := _ |} eq_refl).
    simpl. rewrite <- !app_assoc. reflexivity.
Qed.

Lemma find_update_first {A} (f : A -> bool) (g : A -> A) (l : list A) (x : A) :
  find f l = Some x -> f (g x) = true ->
  find f (Db.update_first f g l) = Some (g x).
Proof.
  unfold find. intros Hfind Hg. induction l as [| y ys IH]; [discriminate |].
  simpl in *. destruct (f y) eqn:Ey.
  - injection Hfind as ->. simpl. rewrite Hg. reflexivity.
  - simpl. rewrite Ey. apply IH. exact Hfind.
Qed.

Lemma find_existsb {A} (f : A -> bool) (l : list A) (x : A) :
  find f l = Some x -> existsb f l = true.
Proof.
  intros H. apply List.find_some in H as [Hin Hf].
  apply existsb_exists. exists x. split; assumption.
Qed.

(** A positional update of the SKU of an existing product. *)
Lemma positional_update_run (productId skuId : string) (data : ProductSkuDto.t)
  (product : Product.t) (sku : Sku.t) (w : World St) :
  Db.findOne (db w) productId = Some product ->
  find (Db.sku_has_id skuId) (Product.skuDetails product) = Some sku ->
  let product' :=
    Db.with_skus (Db.update_first (Db.sku_has_id skuId) (Db.patch_sku data)
                    (Product.skuDetails product)) product in
  let d' := Db.with_products (<[productId := product']> (Db.products (db w)))
              (db w) in
  productDB_findOneAndUpdate ext (ByIdAndSkuId productId skuId)
    (SetSkuFields data) w =
  (Resolved (Some product'),
   {| db := d'; outside := outside w;
      calls := calls w
               ++ [ProductDBFindOneAndUpdate (ByIdAndSkuId productId skuId)
                     (SetSkuFields data)] |})
  /\ Db.findOne d' productId = Some product'
  /\ stripePriceId_of d' productId skuId =
     Some (match ProductSkuDto.stripePriceId data with
           | Some v => Some v
           | None => Sku.stripePriceId sku
           end).
Proof.
  intros Hp Hsku product' d'. split; [| split].
  - rewrite productDB_findOneAndUpdate_run. simpl.
    unfold Db.findOneAndUpdate. simpl.
    unfold Db.findOne in Hp. rewrite Hp. simpl.
    rewrite (find_existsb _ _ _ Hsku). reflexivity.
  - unfold Db.findOne, d'. simpl. apply lookup_insert_eq.
  - unfold stripePriceId_of, Db.findOne, d'. simpl.
    rewrite lookup_insert_eq. simpl.
    rewrite (find_update_first _ (Db.patch_sku data) _ _ Hsku).
    + reflexivity.
    + apply List.find_some in Hsku as [_ Hid]. exact Hid.
Qed.

(** C7, as amended: on an existing product and SKU, when the patch's price
    differs from the SKU's and the ledger returns a new price, that price is
    the only ledger call (created with the SKU's own skuCode; no price is
    updated or deactivated), its identifier is stored in the patch, and the
    SKU then carries it; when the prices are equal no ledger call is issued,
    and the SKU's stripePriceId becomes the patch's when the patch carries
    one and is kept otherwise. In both cases one positional update applies
    the patch to the first SKU with the identifier. *)
Theorem updateProductSkuById_price_reference (productId skuId : string)
  (data : ProductSkuDto.t) (w : World St) (product : Product.t) (sku : Sku.t) :
  Db.findOne (db w) productId = Some product ->
  find (Db.sku_has_id skuId) (Product.skuDetails product) = Some sku ->
  (JsNumber.strict_ne (ProductSkuDto.price data) (Sku.price sku) = true ->
   forall id s',
     stripe_prices_create ext
       (price_params productId product (Sku.skuCode sku) data) (outside w)
     = (Resolved id, s') ->
     exists product' d',
       updateProductSkuById ext productId skuId data w =
       (Resolved (set_stripePriceId id data,
                  {| message := "Product sku updated successfully";
                     success := true;
                     result := Some product' |}),
        {| db := d'; outside := s';
           calls := calls w
                    ++ [ProductDBFindOne productId;
                        StripePricesCreate
                          (price_params productId product (Sku.skuCode sku) data);
                        ProductDBFindOneAndUpdate (ByIdAndSkuId productId skuId)
                          (SetSkuFields (set_stripePriceId id data))] |})
       /\ Db.findOne d' productId = Some product'
       /\ Product.skuDetails product' =
          Db.update_first (Db.sku_has_id skuId)
            (Db.patch_sku (set_stripePriceId id data))
            (Product.skuDetails product)
       /\ stripePriceId_of d' productId skuId = Some (Some id))
  /\ (JsNumber.strict_ne (ProductSkuDto.price data) (Sku.price sku) = false ->
      exists product' d',
        updateProductSkuById ext productId skuId data w =
        (Resolved (data,
                   {| message := "Product sku updated successfully";
                      success := true;
                      result := Some product' |}),
         {| db := d'; outside := outside w;
            calls := calls w
                     ++ [ProductDBFindOne productId;
                         ProductDBFindOneAndUpdate (ByIdAndSkuId productId skuId)
                           (SetSkuFields data)] |})
        /\ Db.findOne d' productId = Some product'
        /\ Product.skuDetails product' =
           Db.update_first (Db.sku_has_id skuId) (Db.patch_sku data)
             (Product.skuDetails product)
        /\ stripePriceId_of d' productId skuId =
           Some (match ProductSkuDto.stripePriceId data with
                 | Some v => Some v
                 | None => Sku.stripePriceId sku
                 end)).
Proof.
  intros Hp Hsku.
  enter_method updateProductSkuById.
  rewrite Hp. pose proof Hsku as Hsku'. unfold Db.sku_has_id in Hsku'.
  rewrite Hsku'. split.
  - intros Hne id s' Hcreate. rewrite Hne.
    unfold bind at 1. unfold bind at 1.
    rewrite stripeClient_prices_create_run.
    rewrite outside_record_call, Hcreate. simpl. unfold ret at 1.
    unfold bind.
    match goal with
    | |- context [productDB_findOneAndUpdate _ _ _ ?w1] =>
        destruct (positional_update_run productId skuId
                    (set_stripePriceId id data) product sku w1 Hp Hsku)
          as (Hrun & Hfound & Href)
    end.
    rewrite Hrun. simpl. eexists _, _. split.
    { unfold ret. rewrite <- !app_assoc. reflexivity. }
    split; [exact Hfound |]. split; [reflexivity | exact Href].
  - intros Heq. rewrite Heq.
    unfold bind at 1. unfold bind at 1. unfold ret at 1.
    unfold bind.
    match goal with
    | |- context [productDB_findOneAndUpdate _ _ _ ?w1] =>
        destruct (positional_update_run productId skuId data product sku w1
                    Hp Hsku) as (Hrun & Hfound & Href)
    end.
    rewrite Hrun. simpl. eexists _, _. split.
    { unfold ret. rewrite <- !app_assoc. reflexivity. }
    split; [exact Hfound |]. split; [reflexivity | exact Href].
Qed.

(** ** Products *)

Lemma productDB_create_run (dto : CreateProductDto.t) (w : World St) :
  productDB_create ext dto w =
  (fst (Db.create (db w) (fst (new_object_id ext (outside w))) dto),
   {| db := snd (Db.create (db w) (fst (new_object_id ext (outside w))) dto);
      outside := snd (new_object_id ext (outside w));
      calls := calls w ++ [ProductDBCreate dto] |}).
Proof.
  unfold productDB_create, call, bind, fresh_id, on_outside, on_db. simpl.
  destruct (new_object_id ext (outside w)) as [id s]. simpl.
  destruct (Db.create (db w) id dto). reflexivity.
Qed.

Lemma create_fresh (d : Db.t) (id : string) (dto : CreateProductDto.t) :
  Db.findOne d id = None ->
  exists created,
    Db.create d id dto =
    (Resolved created,
     Db.with_products (<[id := created]> (Db.products d)) d)
    /\ Product._id created = id
    /\ Product.stripeProductId created = CreateProductDto.stripeProductId dto.
Proof.
  unfold Db.findOne, Db.create. intros ->.
  eexists. split; [reflexivity |]. split; reflexivity.
Qed.

(** C8: for an input without a ledger product reference, [createProduct]
    first asks the ledger for a product made of name and description; if
    that fails, the failure is thrown on and the store is neither called nor
    changed; if it returns a reference, the next and last call is the
    store's create, on the input carrying that reference, and the product
    persisted (the store accepting its new identifier) carries it. For an
    input with a reference the only call is the store's create: no ledger
    record is created. *)
Theorem createProduct_ledger_before_store (dto : CreateProductDto.t)
  (w : World St) :
  (falsy (CreateProductDto.stripeProductId dto) = true ->
   (forall e s',
      stripe_products_create ext (ledger_product_params dto) (outside w)
      = (Thrown e, s') ->
      createProduct ext dto w =
      (Thrown e,
       {| db := db w; outside := s';
          calls := calls w ++ [StripeProductsCreate (ledger_product_params dto)] |}))
   /\ (forall id s',
         stripe_products_create ext (ledger_product_params dto) (outside w)
         = (Resolved id, s') ->
         exists r w',
           createProduct ext dto w = (r, w')
           /\ calls w' =
              calls w ++ [StripeProductsCreate (ledger_product_params dto);
                          ProductDBCreate (set_stripeProductId id dto)]
           /\ (Db.findOne (db w) (fst (new_object_id ext s')) = None ->
               exists created,
                 r = Resolved (set_stripeProductId id dto,
                               created_envelope created)
                 /\ Product.stripeProductId created = Some id
                 /\ Db.findOne (db w') (Product._id created) = Some created)))
  /\ (falsy (CreateProductDto.stripeProductId dto) = false ->
      exists r w',
        createProduct ext dto w = (r, w')
        /\ calls w' = calls w ++ [ProductDBCreate dto]
        /\ (Db.findOne (db w) (fst (new_object_id ext (outside w))) = None ->
            exists created,
              r = Resolved (dto, created_envelope created)
              /\ Product.stripeProductId created
                 = CreateProductDto.stripeProductId dto
              /\ Db.findOne (db w') (Product._id created) = Some created)).
Proof.
  unfold createProduct. rewrite try_catch_rethrow. split.
  - intros Hfalsy. rewrite Hfalsy. split.
    + intros e s' Hledger.
      unfold bind. rewrite stripeClient_products_create_run.
      fold (ledger_product_params dto). rewrite Hledger. reflexivity.
    + intros id s' Hledger.
      unfold bind. rewrite stripeClient_products_create_run.
      fold (ledger_product_params dto). rewrite Hledger. simpl.
      unfold ret at 1. rewrite productDB_create_run. simpl.
      destruct (Db.create (db w) (fst (new_object_id ext s'))
                  (set_stripeProductId id dto)) as [r d] eqn:Ecreate.
      simpl. destruct r as [created | e].
      * eexists _, _. split; [reflexivity |]. simpl.
        split; [rewrite <- app_assoc; reflexivity |].
        intros Hfresh.
        destruct (create_fresh _ _ (set_stripeProductId id dto) Hfresh)
          as (created' & Hc & Hid & Href).
        rewrite Hc in Ecreate. injection Ecreate as -> <-.
        exists created. split; [reflexivity |]. split; [exact Href |].
        unfold Db.findOne. simpl. rewrite Hid. apply lookup_insert_eq.
      * eexists _, _. split; [reflexivity |]. simpl.
        split; [rewrite <- app_assoc; reflexivity |].
        intros Hfresh.
        destruct (create_fresh _ _ (set_stripeProductId id dto) Hfresh)
          as (created' & Hc & _).
        rewrite Hc in Ecreate. discriminate.
  - intros Htruthy. rewrite Htruthy.
    unfold bind at 1. unfold bind at 1. unfold ret at 1.
    unfold bind. rewrite productDB_create_run. simpl.
    destruct (Db.create (db w) (fst (new_object_id ext (outside w))) dto)
      as [r d] eqn:Ecreate.
    simpl. destruct r as [created | e].
    + eexists _, _. split; [reflexivity |]. simpl.
      split; [reflexivity |].
      intros Hfresh.
      destruct (create_fresh _ _ dto Hfresh) as (created' & Hc & Hid & Href).
      rewrite Hc in Ecreate. injection Ecreate as -> <-.
      exists created. split; [reflexivity |]. split; [exact Href |].
      unfold Db.findOne. simpl. rewrite Hid. apply lookup_insert_eq.
    + eexists _, _. split; [reflexivity |]. simpl.
      split; [reflexivity |].
      intros Hfresh.
      destruct (create_fresh _ _ dto Hfresh) as (created' & Hc & _).
      rewrite Hc in Ecreate. discriminate.
Qed.

End ProductsServiceProperties.

(** ** The email dispatcher *)

Section SendEmailProperties.

Import MailHandler.

Context {Value Response Net : Type}.
Variable form_append :
  FormData Value -> string -> Value -> Outcome (FormData Value).
Variable config_get : string -> Outcome string.
Variable base64 : string -> string.
Variable axios : Request Value -> Net -> Outcome Response * Net.

(** Filling the form leaves the network and the console alone. *)
Lemma append_vars_world (entries : list (string * Value))
  (form : FormData Value) (w : MailWorld Net) :
  snd (append_vars form_append form entries w) = w.
Proof.
  revert form. induction entries as [| [key value] rest IH]; intros form.
  - reflexivity.
  - simpl. unfold bind, lift.
    destruct (form_append form ("v:" +:+ key) value) as [form' | e].
    + apply IH.
    + reflexivity.
Qed.

Lemma axios_call_console (r : Request Value) (w : MailWorld Net) :
  console (snd (axios_call axios r w)) = console w.
Proof.
  unfold axios_call. destruct (axios r (net w)). reflexivity.
Qed.

(** The [try] block leaves the console alone, and what it resolves with is
    a response. *)
Lemma sendEmail_try_outcome (to templateName subject : string)
  (templateVars : TemplateVars Value) (w : MailWorld Net) :
  exists o w1,
    sendEmail_try form_append config_get base64 axios
      to templateName subject templateVars w = (o, w1)
    /\ console w1 = console w
    /\ match o with
       | Resolved r => exists response, r = Some response
       | Thrown _ => True
       end.
Proof.
  unfold sendEmail_try. unfold bind at 1.
  destruct templateVars as [| | entries]; cbn [object_keys]; unfold ret at 1, throw.
  2: { eexists _, _. split; [reflexivity |]. split; [reflexivity | exact I]. }
  all: unfold bind at 1;
    match goal with
    | |- context [append_vars form_append ?form ?es ?w1] =>
        pose proof (append_vars_world es form w1) as Ha;
        destruct (append_vars form_append form es w1) as [[form' | e] w0]
    end; simpl in Ha; subst w0;
    [| eexists _, _; split; [reflexivity |]; split; [reflexivity | exact I]];
    unfold bind, lift;
    (destruct (config_get "emailService.privateApiKey") as [password | e];
     [| eexists _, _; split; [reflexivity |]; split; [reflexivity | exact I]]);
    (destruct (config_get "emailService.testDomain") as [testDomain | e];
     [| eexists _, _; split; [reflexivity |]; split; [reflexivity | exact I]]);
    match goal with
    | |- context [axios_call axios ?req ?w1] =>
        pose proof (axios_call_console req w1) as Hx;
        destruct (axios_call axios req w1) as [[response | e] w0]
    end; simpl in Hx;
    eexists _, _; (split; [reflexivity |]); (split; [exact Hx |]);
    [exists response; reflexivity | exact I].
Qed.

(** C10: [sendEmail] never throws. For every input and every behaviour of
    the form, the configuration and the HTTP call, it resolves: with the
    response, the console untouched, or, when anything in its body threw,
    with undefined after logging that one error. *)
Theorem sendEmail_never_throws (to templateName subject : string)
  (templateVars : TemplateVars Value) (w : MailWorld Net) :
  exists r w',
    sendEmail form_append config_get base64 axios
      to templateName subject templateVars w = (Resolved r, w')
    /\ match r with
       | Some _ => console w' = console w
       | None => exists error, console w' = console w ++ [error]
       end.
Proof.
  destruct (sendEmail_try_outcome to templateName subject templateVars w)
    as (o & w1 & Hbody & Hconsole & Hres).
  unfold sendEmail, try_catch. rewrite Hbody.
  destruct o as [r | e].
  - destruct Hres as (response & ->).
    eexists _, _. split; [reflexivity | exact Hconsole].
  - eexists _, _. split; [reflexivity |].
    exists e. simpl. rewrite Hconsole. reflexivity.
Qed.

End SendEmailProperties.

(** ** The scenario *)

Import Scenario.

(** C1: in the scenario of the specification the first review, of rating 4,
    leaves avgRating "4", and the second, of rating 2, leaves "4.00" on a
    product that then holds the ratings 4 and 2, whose 2-decimal mean is
    "3.00": the average [addProductReview] stores leaves the new rating
    out. *)
Theorem addProductReview_average_omits_new_rating :
  avgRating_in world1 = Some "4"
  /\ avgRating_in world2 = Some "4.00"
  /\ map Feedback.rating (Product.feedbackDetails P1_reviewed)
     = [JsNumber.of_Z 4; JsNumber.of_Z 2]
  /\ avgRating_on_remove
       (map Feedback.rating (Product.feedbackDetails P1_reviewed)) = "3.00"
  /\ avgRating_on_remove [JsNumber.of_Z 4] = "4.00".
Proof. vm_compute. repeat split. Qed.

Lemma world_one_review_per_customer : one_review_per_customer (db world).
Proof.
  intros id p Hp. unfold Db.findOne in Hp. simpl in Hp.
  apply lookup_singleton_Some in Hp as [_ <-]. constructor.
Qed.

(** [ada] reviews [P1] twice: the second attempt is refused; and after
    [ada], [bob] and [ada] again, one after the other, the store keeps one
    review per customer. *)
Lemma addProductReview_one_review_per_customer_witness :
  Db.findOne (db world1) "P1" = Some ScenarioX.P1_ada
  /\ has_reviewed ScenarioX.P1_ada (User._id ada)
  /\ addProductReview ledger "P1" (JsNumber.of_Z 5) "again" ada world1 =
     (Thrown (BadRequestException
                "You have already gave the review for this product"),
      {| db := db world1; outside := outside world1;
         calls := calls world1 ++ [ProductDBFindOne "P1"] |})
  /\ one_review_per_customer (db world)
  /\ one_review_per_customer
       (db (reviews_in_turn ledger
              [ScenarioX.review_by ada 4 "good"; ScenarioX.review_by bob 2 "poor";
               ScenarioX.review_by ada 5 "again"] world)).
Proof.
  assert (Hp : Db.findOne (db world1) "P1" = Some ScenarioX.P1_ada).
  { vm_compute. reflexivity. }
  assert (Hdup : has_reviewed ScenarioX.P1_ada (User._id ada)).
  { eexists. split; [left; reflexivity | reflexivity]. }
  split; [exact Hp |]. split; [exact Hdup |]. split.
  - exact (proj1 (addProductReview_one_review_per_customer ledger "P1"
                    (JsNumber.of_Z 5) "again" ada world1)
             ScenarioX.P1_ada Hp Hdup).
  - split; [exact world_one_review_per_customer |].
    exact (proj1 (proj2 (addProductReview_one_review_per_customer ledger "P1"
                           (JsNumber.of_Z 4) "good" ada world))
             _ world_one_review_per_customer).
Defined.

(** [cy] never ordered [P1]. *)
Lemma addProductReview_requires_order_witness :
  Db.findOne (db world) "P1" = Some P1
  /\ ~ has_order (db world) (User._id cy) "P1"
  /\ exists msg lookups w',
       addProductReview ledger "P1" (JsNumber.of_Z 5) "fine" cy world =
       (Thrown (BadRequestException msg), w')
       /\ w' = {| db := db world; outside := outside world;
                  calls := calls world ++ lookups |}
       /\ Db.findOne (db w') "P1" = Some P1
       /\ forall c, In c lookups ->
            c = ProductDBFindOne "P1"
            \/ c = OrderDBFindOne (User._id cy) "P1".
Proof.
  assert (Hp : Db.findOne (db world) "P1" = Some P1) by reflexivity.
  assert (Hno : ~ has_order (db world) (User._id cy) "P1").
  { intros (o & i & Hin & Hc & _). simpl in Hin.
    destruct Hin as [<- | [<- | []]]; discriminate. }
  split; [exact Hp |]. split; [exact Hno |].
  exact (addProductReview_requires_order ledger "P1" (JsNumber.of_Z 5) "fine"
           cy world P1 Hp Hno).
Defined.

(** Removing the review of [ada] from [P1] reviewed by [ada] and [bob]. *)
Lemma removeProductReview_recomputes_average_witness :
  Db.findOne (db world2) "P1" = Some P1_reviewed
  /\ has_review P1_reviewed "oid0"
  /\ exists product' d',
       removeProductReview ledger "P1" "oid0" world2 =
       (Resolved {| message := "Product review removed successfully";
                    success := true;
                    result := Some product' |},
        {| db := d'; outside := outside world2;
           calls := calls world2
                    ++ [ProductDBFindOne "P1";
                        ProductDBFindOneAndUpdate (ById "P1")
                          (SetAvgRatingPullFeedback "2.00" "oid0")] |})
       /\ Product.avgRating product' = Some "2.00".
Proof.
  assert (Hp : Db.findOne (db world2) "P1" = Some P1_reviewed).
  { vm_compute. reflexivity. }
  assert (Hr : has_review P1_reviewed "oid0").
  { eexists. split; [left; reflexivity | reflexivity]. }
  split; [exact Hp |]. split; [exact Hr |].
  destruct (proj2 (removeProductReview_recomputes_average ledger "P1" "oid0"
                     world2) P1_reviewed Hp Hr)
    as (avgRating & product' & d' & Hrun & _ & _ & Havg & Hmean & _).
  assert (Hval : avgRating = "2.00").
  { assert (Hrun' := Hrun). vm_compute in Hrun'.
    injection Hrun' as Hprod _ Hcalls. subst product'. 
    rewrite Hmean. vm_compute. reflexivity. }
  exists product', d'. rewrite <- Hval. split; [exact Hrun | exact Havg].
Defined.

(** Deleting the SKU [S1] of [P1]: the licenses [L1] (of [P1]) and [L2] (of
    another product) both refer to [S1] and both go; [L3] stays. *)
Lemma deleteProductSkuById_cascades_witness :
  Db.findOne (db world) "P1" = Some P1
  /\ find (Db.sku_has_id "S1") (Product.skuDetails P1) = Some sku1
  /\ stripe_prices_update ledger (Sku.stripePriceId sku1)
       {| Stripe.active := false |} (outside world) = (Resolved tt, 0%nat)
  /\ exists d' product',
       deleteProductSkuById ledger "P1" "S1" world =
       (Resolved {| message := "Product sku details deleted successfully";
                    success := true;
                    result := ("P1", "S1") |},
        {| db := d'; outside := 0%nat;
           calls := calls world
                    ++ [ProductDBFindOne "P1";
                        StripePricesUpdate (Some "price_old")
                          {| Stripe.active := false |};
                        ProductDBDeleteSku "P1" "S1";
                        ProductDBDeleteAllLicense None "S1"] |})
       /\ Product.skuDetails product' = []
       /\ Db.licenses d' = [L3].
Proof.
  split; [reflexivity |]. split; [reflexivity |]. split; [reflexivity |].
  destruct (deleteProductSkuById_cascades ledger "P1" "S1" world P1 sku1 0%nat
              eq_refl eq_refl eq_refl)
    as (d' & product' & Hrun & Hfound & _ & _).
  exists d', product'. split; [exact Hrun |].
  assert (Hrun' := Hrun). vm_compute in Hrun'.
  injection Hrun' as <-. vm_compute in Hfound.
  injection Hfound as <-. split; reflexivity.
Defined.

(** A batch of three on [P1]: the ledger creates [price_0] and then
    [price_1] for the two entries lacking a reference, all three entries get
    the code; over a ledger that is down the first creation is refused. *)
Lemma updateProductSku_shares_code_witness :
  Db.findOne (db world) "P1" = Some P1
  /\ (exists batch' w',
        updateProductSku ledger "P1" batch_of_three world =
        (Resolved (batch', {| message := "Product sku updated successfully";
                              success := true;
                              result := tt |}), w')
        /\ map ProductSkuDto.skuCode batch'
           = [Some "k3j1700000000000"; Some "k3j1700000000000";
              Some "k3j1700000000000"]
        /\ map ProductSkuDto.stripePriceId batch'
           = [Some "price_known"; Some "price_0"; Some "price_1"])
  /\ updateProductSku ledger_down "P1" batch_of_three world =
     (Thrown (Rejection "StripeConnectionError"),
      {| db := db world; outside := 0%nat;
         calls := [ProductDBFindOne "P1";
                   StripePricesCreate
                     (price_params "P1" P1 (Some "k3j1700000000000")
                        unpriced_entry)] |}).
Proof.
  split; [reflexivity |]. split.
  - assert (Hserved : exists batch' s',
      priced_in_turn ledger "P1" P1 (skuCode_from ledger (outside world))
        (outside_after_skuCode ledger (outside world))
        batch_of_three batch' s').
    { eexists _, _.
      eapply priced_kept; [reflexivity |].
      eapply priced_created; [reflexivity | reflexivity |].
      eapply priced_created; [reflexivity | reflexivity |].
      apply priced_none. }
    destruct Hserved as (batch' & s' & Hserved).
    destruct (proj1 (proj2 (updateProductSku_shares_code ledger "P1"
                              batch_of_three world P1 eq_refl))
                batch' s' Hserved) as [Hrun _].
    eexists batch', _. split; [exact Hrun |].
    assert (Hrun' := Hrun). vm_compute in Hrun'.
    injection Hrun' as <- _. split; reflexivity.
  - assert (Hrefused :
      refused_in_turn ledger_down "P1" P1
        (skuCode_from ledger_down (outside world))
        (outside_after_skuCode ledger_down (outside world))
        batch_of_three [priced_entry] unpriced_entry
        (Rejection "StripeConnectionError") 0%nat).
    { eexists _, _, [another_unpriced_entry]. split; [reflexivity |].
      split; [eapply priced_kept; [reflexivity | apply priced_none] |].
      split; reflexivity. }
    rewrite (proj1 (proj2 (proj2 (updateProductSku_shares_code ledger_down
                                    "P1" batch_of_three world P1 eq_refl)))
               _ _ _ _ Hrefused).
    vm_compute. reflexivity.
Defined.

(** Patching [S1] of [P1] with another price, over a ledger that returns
    [price_0]. *)
Lemma updateProductSkuById_price_reference_witness :
  Db.findOne (db world) "P1" = Some P1
  /\ find (Db.sku_has_id "S1") (Product.skuDetails P1) = Some sku1
  /\ JsNumber.strict_ne (ProductSkuDto.price patch_new_price) (Sku.price sku1)
     = true
  /\ exists product' d',
       updateProductSkuById ledger "P1" "S1" patch_new_price world =
       (Resolved (set_stripePriceId "price_0" patch_new_price,
                  {| message := "Product sku updated successfully";
                     success := true;
                     result := Some product' |}),
        {| db := d'; outside := 1%nat;
           calls := calls world
                    ++ [ProductDBFindOne "P1";
                        StripePricesCreate
                          (price_params "P1" P1 (Sku.skuCode sku1)
                             patch_new_price);
                        ProductDBFindOneAndUpdate (ByIdAndSkuId "P1" "S1")
                          (SetSkuFields
                             (set_stripePriceId "price_0" patch_new_price))] |})
       /\ stripePriceId_of d' "P1" "S1" = Some (Some "price_0").
Proof.
  split; [reflexivity |]. split; [reflexivity |]. split; [reflexivity |].
  destruct (proj1 (updateProductSkuById_price_reference ledger "P1" "S1"
                     patch_new_price world P1 sku1 eq_refl eq_refl)
              eq_refl "price_0" 1%nat eq_refl)
    as (product' & d' & Hrun & _ & _ & Href).
  exists product', d'. split; [exact Hrun | exact Href].
Defined.

(** Creating a product without a ledger reference, over a ledger that is
    down and over one that answers. *)
Lemma createProduct_ledger_before_store_witness :
  falsy (CreateProductDto.stripeProductId new_product) = true
  /\ createProduct ledger_down new_product world =
     (Thrown (Rejection "StripeConnectionError"),
      {| db := db world; outside := 0%nat;
         calls := calls world
                  ++ [StripeProductsCreate (ledger_product_params new_product)] |})
  /\ exists r w',
       createProduct ledger new_product world = (r, w')
       /\ calls w' =
          calls world
          ++ [StripeProductsCreate (ledger_product_params new_product);
              ProductDBCreate (set_stripeProductId "prod_0" new_product)].
Proof.
  split; [reflexivity |]. split.
  - exact (proj1 (proj1 (createProduct_ledger_before_store ledger_down
                           new_product world) eq_refl)
             (Rejection "StripeConnectionError") 0%nat eq_refl).
  - destruct (proj2 (proj1 (createProduct_ledger_before_store ledger
                              new_product world) eq_refl)
                "prod_0" 1%nat eq_refl) as (r & w' & Hrun & Hcalls & _).
    exists r, w'. split; [exact Hrun | exact Hcalls].
Defined.

(** [P1] has no SKU [S9]; there is no product [P9]. *)
Lemma deleteProductSkuById_absent_throws_witness :
  sku_absent (db world) "P1" "S9"
  /\ sku_absent (db world) "P9" "S1"
  /\ (exists e,
        deleteProductSkuById ledger "P1" "S9" world =
        (Thrown e,
         {| db := db world; outside := outside world;
            calls := calls world ++ [ProductDBFindOne "P1"] |}))
  /\ (exists e,
        deleteProductSkuById ledger "P9" "S1" world =
        (Thrown e,
         {| db := db world; outside := outside world;
            calls := calls world ++ [ProductDBFindOne "P9"] |})).
Proof.
  assert (H1 : sku_absent (db world) "P1" "S9").
  { unfold sku_absent.
    change (Db.findOne (db world) "P1") with (Some P1).
    intros sku [<- | []]. discriminate. }
  assert (H2 : sku_absent (db world) "P9" "S1").
  { unfold sku_absent.
    change (Db.findOne (db world) "P9") with (@None Product.t). exact I. }
  split; [exact H1 |]. split; [exact H2 |]. split.
  - exact (deleteProductSkuById_absent_throws ledger "P1" "S9" world H1).
  - exact (deleteProductSkuById_absent_throws ledger "P9" "S1" world H2).
Defined.

(** C7, as stated, fails: a patch with the price of [sku1] and a reference
    of its own replaces the reference of the SKU, [price_old], by
    [price_other]. *)
Lemma updateProductSkuById_replaces_reference :
  JsNumber.strict_ne (ProductSkuDto.price patch_same_price) (Sku.price sku1)
  = false
  /\ stripePriceId_of (db world) "P1" "S1" = Some (Some "price_old")
  /\ stripePriceId_of
       (db (snd (updateProductSkuById ledger "P1" "S1" patch_same_price world)))
       "P1" "S1" = Some (Some "price_other")
  /\ calls (snd (updateProductSkuById ledger "P1" "S1" patch_same_price world))
     = [ProductDBFindOne "P1";
        ProductDBFindOneAndUpdate (ByIdAndSkuId "P1" "S1")
          (SetSkuFields patch_same_price)]
  /\ ~ keeps_reference_on_equal_price ledger "P1" "S1" patch_same_price world.
Proof.
  split; [reflexivity |]. split; [reflexivity |].
  split; [vm_compute; reflexivity |]. split; [vm_compute; reflexivity |].
  intros H. specialize (H P1 sku1 eq_refl eq_refl eq_refl).
  vm_compute in H. discriminate H.
Qed.

(** C2, as stated, fails: two calls of [ada] for [P1] whose turns
    alternate both pass the duplicate check before either has written, both
    resolve, and [P1] is left with two Feedback entries of the customer
    [C1]. *)
Lemma addProductReview_overlapping_calls :
  one_review_per_customer (db world)
  /\ (let '(a, b, w') :=
        event_loop
          [FirstCall; SecondCall; FirstCall; SecondCall; FirstCall; SecondCall]
          (addProductReview_awaits ledger "P1" (JsNumber.of_Z 4) "good" ada)
          (addProductReview_awaits ledger "P1" (JsNumber.of_Z 4) "good" ada)
          world in
      (exists r1 r2,
         a = Settled (Resolved
               {| message := "Product review added successfully";
                  success := true;
                  result := Some r1 |})
         /\ b = Settled (Resolved
                  {| message := "Product review added successfully";
                     success := true;
                     result := Some r2 |}))
      /\ exists p,
           Db.findOne (db w') "P1" = Some p
           /\ map Feedback.customerId (Product.feedbackDetails p)
              = ["C1"; "C1"])
  /\ ~ always_one_review_per_customer ledger world.
Proof.
  split; [exact world_one_review_per_customer |]. split.
  - vm_compute. split.
    + eexists _, _. split; reflexivity.
    + eexists. split; reflexivity.
  - intros H.
    specialize (H [FirstCall; SecondCall; FirstCall; SecondCall;
                   FirstCall; SecondCall]
                  (ScenarioX.review_by ada 4 "good")
                  (ScenarioX.review_by ada 4 "good") "P1").
    vm_compute in H. specialize (H _ eq_refl).
    inversion H as [| x l Hnotin _]. apply Hnotin. constructor.
Qed.

(** * Further properties of the reviews and of the SKUs *)

Section ReviewProperties.

Context {St : Type}.
Variable ext : External St.

Lemma findOrder_some (d : Db.t) (customerId productId : string) :
  has_order d customerId productId ->
  exists o, Db.findOrder d customerId productId = Some o.
Proof.
  intros (o & i & Ho & Hc & Hi & Hp).
  destruct (find_some_of_in (Db.order_links customerId productId)
              (Db.orders d) o Ho) as (y & Hy & _).
  - unfold Db.order_links. apply andb_true_iff. split.
    + apply String.eqb_eq. exact Hc.
    + apply existsb_exists. exists i. split; [exact Hi |].
      apply String.eqb_eq. exact Hp.
  - exists y. exact Hy.
Qed.

Lemma find_reviewer_absent (p : Product.t) (customerId : string) :
  ~ has_reviewed p customerId ->
  find (fun value => String.eqb (Feedback.customerId value) customerId)
    (Product.feedbackDetails p) = None.
Proof.
  intros Hno. apply find_none_iff. intros f Hin. apply String.eqb_neq.
  intros Hc. apply Hno. exists f. split; assumption.
Qed.

(** An accepted review, step by step. *)
Lemma addProductReview_accepted (productId : string) (rating : JsNumber.Number)
  (review : string) (user : User.t) (w : World St) (product : Product.t) :
  Db.findOne (db w) productId = Some product ->
  ~ has_reviewed product (User._id user) ->
  has_order (db w) (User._id user) productId ->
  let avgRating :=
    avgRating_on_add rating
      (map Feedback.rating (Product.feedbackDetails product)) in
  let reviewDetails := reviewDetails_of rating review user in
  let id := fst (new_object_id ext (outside w)) in
  let product' :=
    Db.with_reviews avgRating
      (Product.feedbackDetails product ++ [Db.cast_feedback id reviewDetails])
      product in
  addProductReview ext productId rating review user w =
  (Resolved {| message := "Product review added successfully";
               success := true;
               result := Some product' |},
   {| db := Db.with_products (<[productId := product']> (Db.products (db w)))
              (db w);
      outside := snd (new_object_id ext (outside w));
      calls := calls w
               ++ [ProductDBFindOne productId;
                   OrderDBFindOne (User._id user) productId;
                   ProductDBFindOneAndUpdate (ById productId)
                     (SetAvgRatingPushFeedback avgRating reviewDetails)] |}).
Proof.
  intros Hp Hnew Hord. rewrite addProductReview_run, Hp.
  rewrite (find_reviewer_absent _ _ Hnew).
  destruct (findOrder_some _ _ _ Hord) as (o & ->).
  destruct (new_object_id ext (outside w)) as [id s]. reflexivity.
Qed.

(** X1: on a product that already holds Feedback, the average an accepted
    review stores is the 2-decimal mean of the ratings held before it: the
    rating being added has no part in it, although its entry is appended. *)
Theorem addProductReview_average_of_earlier_ratings (productId : string)
  (rating : JsNumber.Number) (review : string) (user : User.t) (w : World St)
  (product : Product.t) (f : Feedback.t) (fs : list Feedback.t) :
  Db.findOne (db w) productId = Some product ->
  Product.feedbackDetails product = f :: fs ->
  ~ has_reviewed product (User._id user) ->
  has_order (db w) (User._id user) productId ->
  exists product' new,
    Db.findOne (db (snd (addProductReview ext productId rating review user w)))
      productId = Some product'
    /\ Product.avgRating product'
       = Some (mean_toFixed2 (Feedback.rating f) (map Feedback.rating fs))
    /\ Product.feedbackDetails product' = f :: fs ++ [new]
    /\ Feedback.rating new = rating
    /\ Feedback.customerId new = User._id user.
Proof.
  intros Hp Hf Hnew Hord.
  rewrite (addProductReview_accepted productId rating review user w product
             Hp Hnew Hord).
  eexists _, _. simpl. split; [apply lookup_insert_eq |].
  rewrite Hf. simpl. repeat split.
Qed.

Lemma only_reviews_differ_refl (productId : string) (d : Db.t) :
  only_reviews_differ productId d d.
Proof.
  unfold only_reviews_differ. repeat split; try tauto.
  intros p' Hp'. exists p'. repeat split. exact Hp'.
Qed.

Lemma only_reviews_differ_store (productId avg : string)
  (l : list Feedback.t) (p : Product.t) (d : Db.t) :
  Db.findOne d productId = Some p ->
  only_reviews_differ productId d
    (Db.with_products
       (<[productId := Db.with_reviews avg l p]> (Db.products d)) d).
Proof.
  intros Hp. unfold only_reviews_differ, Db.findOne. simpl.
  split; [reflexivity |]. split; [reflexivity |]. split; [| split].
  - intros id Hne. apply lookup_insert_ne. congruence.
  - rewrite lookup_insert_eq. unfold Db.findOne in Hp. rewrite Hp.
    split; discriminate.
  - rewrite lookup_insert_eq. intros p' [= <-]. exists p.
    split; [exact Hp |]. repeat split.
Qed.

(** X2: the review operations touch nothing but the one product's Feedback
    and average: licenses, orders and every other product are as before,
    the product is neither created nor deleted, and it keeps its
    identifier, name, description, category, ledger reference, image and
    SKUs. *)
Theorem review_operations_frame (productId reviewId : string)
  (rating : JsNumber.Number) (review : string) (user : User.t) (w : World St) :
  only_reviews_differ productId (db w)
    (db (snd (addProductReview ext productId rating review user w)))
  /\ only_reviews_differ productId (db w)
       (db (snd (removeProductReview ext productId reviewId w))).
Proof.
  split.
  - rewrite addProductReview_run.
    destruct (Db.findOne (db w) productId) as [p |] eqn:Ep;
      [| apply only_reviews_differ_refl].
    destruct (find _ (Product.feedbackDetails p));
      [apply only_reviews_differ_refl |].
    destruct (Db.findOrder (db w) (User._id user) productId);
      [| apply only_reviews_differ_refl].
    simpl. destruct (new_object_id ext (outside w)) as [id s]. simpl.
    apply only_reviews_differ_store. exact Ep.
  - rewrite removeProductReview_run.
    destruct (Db.findOne (db w) productId) as [p |] eqn:Ep;
      [| apply only_reviews_differ_refl].
    destruct (find _ (Product.feedbackDetails p));
      [| apply only_reviews_differ_refl].
    simpl. apply only_reviews_differ_store. exact Ep.
Qed.

Lemma filter_other_ids (reviewId : string) (l : list Feedback.t) :
  (forall f, In f l -> Feedback._id f <> reviewId) ->
  List.filter (fun comment => negb (String.eqb (Feedback._id comment) reviewId)) l
  = l.
Proof.
  induction l as [| x xs IH]; intros H; [reflexivity |].
  simpl. assert (Hx : String.eqb (Feedback._id x) reviewId = false).
  { apply String.eqb_neq. apply H. left. reflexivity. }
  rewrite Hx. simpl. f_equal. apply IH. intros f Hf. apply H. right. exact Hf.
Qed.

Lemma NoDup_map_filter {A B} (g : A -> B) (keep : A -> bool) (l : list A) :
  NoDup (map g l) -> NoDup (map g (List.filter keep l)).
Proof.
  induction l as [| x xs IH]; intros H; [constructor |].
  simpl in H. apply NoDup_cons in H as [Hx Hxs]. simpl.
  destruct (keep x); [| apply IH; exact Hxs].
  simpl. apply NoDup_cons. split; [| apply IH; exact Hxs].
  intros Hin. apply Hx. apply list_elem_of_In in Hin. apply list_elem_of_In.
  apply in_map_iff in Hin as (y & Hy & Hin). apply in_map_iff.
  exists y. split; [exact Hy |]. apply filter_In in Hin. tauto.
Qed.

Lemma NoDup_map_same {A B} (g : A -> B) (l : list A) (x y : A) :
  NoDup (map g l) -> In x l -> In y l -> g x = g y -> x = y.
Proof.
  induction l as [| z zs IH]; intros H Hx Hy Heq; [destruct Hx |].
  simpl in H. apply NoDup_cons in H as [Hz Hzs].
  assert (Hout : forall u, In u zs -> g u <> g z).
  { intros u Hu Hg. apply Hz. apply list_elem_of_In. rewrite <- Hg.
    apply in_map. exact Hu. }
  destruct Hx as [-> | Hx], Hy as [-> | Hy].
  - reflexivity.
  - exfalso. exact (Hout y Hy (eq_sym Heq)).
  - exfalso. exact (Hout x Hx Heq).
  - apply IH; assumption.
Qed.

(** What a successful removal leaves in the store. *)
Lemma removeProductReview_removed (productId reviewId : string) (w : World St)
  (product : Product.t) :
  Db.findOne (db w) productId = Some product ->
  has_review product reviewId ->
  let remaining :=
    List.filter
      (fun comment => negb (String.eqb (Feedback._id comment) reviewId))
      (Product.feedbackDetails product) in
  let product' :=
    Db.with_reviews (avgRating_on_remove (map Feedback.rating remaining))
      remaining product in
  removeProductReview ext productId reviewId w =
  (Resolved {| message := "Product review removed successfully";
               success := true;
               result := Some product' |},
   {| db := Db.with_products (<[productId := product']> (Db.products (db w)))
              (db w);
      outside := outside w;
      calls := calls w
               ++ [ProductDBFindOne productId;
                   ProductDBFindOneAndUpdate (ById productId)
                     (SetAvgRatingPullFeedback
                        (avgRating_on_remove (map Feedback.rating remaining))
                        reviewId)] |}).
Proof.
  intros Hp (f & Hin & Hid). rewrite removeProductReview_run, Hp.
  destruct (find_some_of_in
              (fun review => String.eqb (Feedback._id review) reviewId)
              _ f Hin) as (y & -> & _).
  { apply String.eqb_eq. exact Hid. }
  reflexivity.
Qed.

(** X3: removing the review an accepted [addProductReview] has just added
    gives the product its earlier Feedback list back (the new identifier
    being no earlier review's), with the average recomputed from that list:
    the 2-decimal mean of the earlier ratings, or "0" when there was
    none. *)
Theorem removeProductReview_undoes_addProductReview (productId : string)
  (rating : JsNumber.Number) (review : string) (user : User.t) (w : World St)
  (product : Product.t) :
  Db.findOne (db w) productId = Some product ->
  ~ has_reviewed product (User._id user) ->
  has_order (db w) (User._id user) productId ->
  ~ has_review product (fst (new_object_id ext (outside w))) ->
  exists envelope product2,
    removeProductReview ext productId (fst (new_object_id ext (outside w)))
      (snd (addProductReview ext productId rating review user w))
    = (Resolved envelope,
       snd (removeProductReview ext productId
              (fst (new_object_id ext (outside w)))
              (snd (addProductReview ext productId rating review user w))))
    /\ Db.findOne
         (db (snd (removeProductReview ext productId
                     (fst (new_object_id ext (outside w)))
                     (snd (addProductReview ext productId rating review user w)))))
         productId = Some product2
    /\ Product.feedbackDetails product2 = Product.feedbackDetails product
    /\ Product.avgRating product2
       = Some (avgRating_on_remove
                 (map Feedback.rating (Product.feedbackDetails product))).
Proof.
  intros Hp Hnew Hord Hfresh.
  rewrite (addProductReview_accepted productId rating review user w product
             Hp Hnew Hord).
  set (id := fst (new_object_id ext (outside w))) in *.
  set (new := Db.cast_feedback id (reviewDetails_of rating review user)).
  set (product1 := Db.with_reviews _ _ product).
  cbn [snd].
  match goal with
  | |- context [removeProductReview ext productId id ?w1] =>
      assert (H1 : Db.findOne (db w1) productId = Some product1)
        by (unfold Db.findOne; simpl; apply lookup_insert_eq);
      assert (Hr : has_review product1 id)
        by (exists new; split;
            [simpl; apply in_or_app; right; left; reflexivity | reflexivity]);
      rewrite (removeProductReview_removed productId id w1 product1 H1 Hr)
  end.
  eexists _, _. split; [reflexivity |]. cbn [snd db].
  split; [unfold Db.findOne; simpl; apply lookup_insert_eq |].
  assert (Hrem :
    List.filter (fun comment => negb (String.eqb (Feedback._id comment) id))
      (Product.feedbackDetails product1) = Product.feedbackDetails product).
  { simpl. rewrite List.filter_app. simpl. rewrite String.eqb_refl. simpl.
    rewrite app_nil_r. apply filter_other_ids.
    intros g Hg Hid. apply Hfresh. exists g. split; assumption. }
  simpl. simpl in Hrem. rewrite Hrem. split; reflexivity.
Qed.

(** X4: [removeProductReview] keeps the store one where every product holds
    at most one Feedback per customerId, whatever its outcome. *)
Theorem removeProductReview_one_review_per_customer (productId reviewId : string)
  (w : World St) :
  one_review_per_customer (db w) ->
  one_review_per_customer
    (db (snd (removeProductReview ext productId reviewId w))).
Proof.
  intros Hinv. rewrite removeProductReview_run.
  destruct (Db.findOne (db w) productId) as [p |] eqn:Ep; [| exact Hinv].
  destruct (find _ (Product.feedbackDetails p)); [| exact Hinv].
  simpl. intros id p'. unfold Db.findOne. simpl.
  destruct (decide (productId = id)) as [-> | Hne].
  - rewrite lookup_insert_eq. intros [= <-]. simpl.
    apply NoDup_map_filter. exact (Hinv _ _ Ep).
  - rewrite lookup_insert_ne by exact Hne. apply Hinv.
Qed.

(** X5: once a customer's review is removed, the customer may review the
    product again: the next [addProductReview] of that customer, who has an
    order for the product, is accepted. *)
Theorem removed_reviewer_can_review_again (productId reviewId : string)
  (rating : JsNumber.Number) (review : string) (user : User.t) (w : World St)
  (product : Product.t) (f : Feedback.t) :
  Db.findOne (db w) productId = Some product ->
  In f (Product.feedbackDetails product) ->
  Feedback._id f = reviewId ->
  Feedback.customerId f = User._id user ->
  NoDup (map Feedback.customerId (Product.feedbackDetails product)) ->
  has_order (db w) (User._id user) productId ->
  exists product' w2,
    addProductReview ext productId rating review user
      (snd (removeProductReview ext productId reviewId w))
    = (Resolved {| message := "Product review added successfully";
                   success := true;
                   result := Some product' |}, w2)
    /\ has_reviewed product' (User._id user).
Proof.
  intros Hp Hin Hid Hc Hnodup Hord.
  assert (Hr : has_review product reviewId) by (exists f; split; assumption).
  rewrite (removeProductReview_removed productId reviewId w product Hp Hr).
  cbn [snd].
  set (product1 := Db.with_reviews _ _ product).
  match goal with
  | |- context [addProductReview ext productId rating review user ?w1] =>
      assert (H1 : Db.findOne (db w1) productId = Some product1)
        by (unfold Db.findOne; simpl; apply lookup_insert_eq);
      assert (Hord1 : has_order (db w1) (User._id user) productId)
        by exact Hord;
      assert (Hnew : ~ has_reviewed product1 (User._id user))
  end.
  { intros (g & Hg & Hgc). simpl in Hg. apply filter_In in Hg as [Hg Hkeep].
    apply negb_true_iff, String.eqb_neq in Hkeep.
    assert (g = f).
    { apply (NoDup_map_same Feedback.customerId _ g f Hnodup Hg Hin).
      congruence. }
    subst g. contradiction. }
  rewrite (addProductReview_accepted productId rating review user _ product1
             H1 Hnew Hord1).
  eexists _, _. split; [reflexivity |].
  eexists. split; [simpl; apply in_or_app; right; left; reflexivity |].
  reflexivity.
Qed.

End ReviewProperties.

Section SkuProperties.

Context {St : Type}.
Variable ext : External St.

(** The loop over the batch calls the ledger only: it never writes to the
    store. *)
Lemma updateProductSku_loop_db (productId : string) (product : Product.t)
  (code : string) (batch : list ProductSkuDto.t) (w : World St) :
  db (snd (updateProductSku_loop ext productId product code batch w)) = db w.
Proof.
  revert w. induction batch as [| sku rest IH]; intros w; [reflexivity |].
  simpl. destruct (falsy (ProductSkuDto.stripePriceId sku)).
  - unfold bind at 1. unfold bind at 1.
    rewrite stripeClient_prices_create_run.
    destruct (stripe_prices_create ext _ (outside w)) as [[id | e] s1];
      [| reflexivity].
    simpl. unfold ret at 1. unfold bind.
    match goal with
    | |- context [updateProductSku_loop ext productId product code rest ?w1] =>
        specialize (IH w1);
        destruct (updateProductSku_loop ext productId product code rest w1)
          as [[rest' | e] w2]
    end; exact IH.
  - unfold bind at 1. unfold bind at 1. unfold ret at 1. unfold bind.
    specialize (IH w).
    destruct (updateProductSku_loop ext productId product code rest w)
      as [[rest' | e] w2]; exact IH.
Qed.

(** X6: whenever [updateProductSku] throws (the product is absent, or the
    ledger refuses one of the prices), nothing of the batch is stored: the
    store is as it was, even though prices created before the refusal stay
    in the ledger. *)
Theorem updateProductSku_throws_store_unchanged (productId : string)
  (batch : list ProductSkuDto.t) (w w' : World St) (e : Exception) :
  updateProductSku ext productId batch w = (Thrown e, w') ->
  db w' = db w.
Proof.
  unfold updateProductSku. rewrite try_catch_rethrow.
  rewrite (bind_resolved _ _ _ _ _ (productDB_findOne_run productId w)).
  destruct (Db.findOne (db w) productId) as [product |] eqn:Hp.
  - destruct (new_skuCode_run ext (record_call (ProductDBFindOne productId) w))
      as (s1 & Hcode).
    rewrite (bind_resolved _ _ _ _ _ Hcode).
    unfold bind at 1.
    match goal with
    | |- context [updateProductSku_loop ext productId product ?code batch ?w1] =>
        pose proof (updateProductSku_loop_db productId product code batch w1)
          as Hdb;
        destruct (updateProductSku_loop ext productId product code batch w1)
          as [[batch' | e1] w2]
    end.
    + unfold bind. rewrite productDB_findOneAndUpdate_run. simpl.
      unfold Db.findOneAndUpdate. simpl in Hdb. rewrite Hdb.
      simpl. unfold Db.findOne in Hp. rewrite Hp. simpl. discriminate.
    + intros [= <- <-]. exact Hdb.
  - intros [= <- <-]. reflexivity.
Qed.

Lemma with_skus_same (p : Product.t) :
  Db.with_skus (Product.skuDetails p) p = p.
Proof. destruct p; reflexivity. Qed.

Lemma with_products_same (d : Db.t) : Db.with_products (Db.products d) d = d.
Proof. destruct d; reflexivity. Qed.

(** X7: an empty batch creates no price and changes nothing: on an existing
    product [updateProductSku] resolves after the lookup and one push of
    nothing, and the store is as it was. *)
Theorem updateProductSku_empty_batch (productId : string) (w : World St)
  (product : Product.t) :
  Db.findOne (db w) productId = Some product ->
  exists s',
    updateProductSku ext productId [] w =
    (Resolved ([], {| message := "Product sku updated successfully";
                      success := true;
                      result := tt |}),
     {| db := db w; outside := s';
        calls := calls w
                 ++ [ProductDBFindOne productId;
                     ProductDBFindOneAndUpdate (ById productId)
                       (PushSkuDetails [])] |}).
Proof.
  intros Hp. unfold updateProductSku. rewrite try_catch_rethrow.
  rewrite (bind_resolved _ _ _ _ _ (productDB_findOne_run productId w)).
  rewrite Hp.
  destruct (new_skuCode_run ext (record_call (ProductDBFindOne productId) w))
    as (s1 & Hcode).
  rewrite (bind_resolved _ _ _ _ _ Hcode).
  unfold bind. simpl. unfold ret at 1.
  rewrite productDB_findOneAndUpdate_run. simpl.
  unfold Db.findOneAndUpdate. simpl.
  unfold Db.findOne in Hp. rewrite Hp. simpl.
  rewrite app_nil_r, with_skus_same, (insert_id _ _ _ Hp), with_products_same.
  exists s1. unfold ret. rewrite <- app_assoc. reflexivity.
Qed.

(** Every path of [deleteProductSkuById]. *)
Lemma deleteProductSkuById_run (id skuId : string) (w : World St) :
  deleteProductSkuById ext id skuId w =
  match Db.findOne (db w) id with
  | None =>
      (Thrown (TypeError "Cannot read properties of null (reading 'skuDetails')"),
       record_call (ProductDBFindOne id) w)
  | Some productDetails =>
      match find (Db.sku_has_id skuId) (Product.skuDetails productDetails) with
      | None =>
          (Thrown (TypeError
             "Cannot read properties of undefined (reading 'stripePriceId')"),
           record_call (ProductDBFindOne id) w)
      | Some skuDetails =>
          match stripe_prices_update ext (Sku.stripePriceId skuDetails)
                  {| Stripe.active := false |} (outside w) with
          | (Thrown e, s') =>
              (Thrown e,
               {| db := db w; outside := s';
                  calls := calls w
                           ++ [ProductDBFindOne id;
                               StripePricesUpdate (Sku.stripePriceId skuDetails)
                                 {| Stripe.active := false |}] |})
          | (Resolved _, s') =>
              (Resolved {| message := "Product sku details deleted successfully";
                           success := true;
                           result := (id, skuId) |},
               {| db := Db.deleteAllLicense (Db.deleteSku (db w) id skuId)
                          None skuId;
                  outside := s';
                  calls := calls w
                           ++ [ProductDBFindOne id;
                               StripePricesUpdate (Sku.stripePriceId skuDetails)
                                 {| Stripe.active := false |};
                               ProductDBDeleteSku id skuId;
                               ProductDBDeleteAllLicense None skuId] |})
          end
      end
  end.
Proof.
  unfold deleteProductSkuById. rewrite try_catch_rethrow.
  rewrite (bind_resolved _ _ _ _ _ (productDB_findOne_run id w)).
  destruct (Db.findOne (db w) id) as [p |]; [| reflexivity].
  unfold Db.sku_has_id.
  destruct (find _ (Product.skuDetails p)) as [sku |]; [| reflexivity].
  unfold bind. rewrite stripeClient_prices_update_run.
  unfold record_call. simpl.
  destruct (stripe_prices_update ext (Sku.stripePriceId sku) _ (outside w))
    as [[[] | e] s'].
  - simpl. unfold ret. rewrite <- !app_assoc. reflexivity.
  - simpl. rewrite <- !app_assoc. reflexivity.
Qed.

(** X8: when the ledger refuses to deactivate the price,
    [deleteProductSkuById] throws that refusal and deletes nothing: the SKU
    and its licenses stay, and neither removal was asked of the store. *)
Theorem deleteProductSkuById_ledger_failure (id skuId : string) (w : World St)
  (product : Product.t) (sku : Sku.t) (e : Exception) (s' : St) :
  Db.findOne (db w) id = Some product ->
  find (Db.sku_has_id skuId) (Product.skuDetails product) = Some sku ->
  stripe_prices_update ext (Sku.stripePriceId sku) {| Stripe.active := false |}
    (outside w) = (Thrown e, s') ->
  deleteProductSkuById ext id skuId w =
  (Thrown e,
   {| db := db w; outside := s';
      calls := calls w
               ++ [ProductDBFindOne id;
                   StripePricesUpdate (Sku.stripePriceId sku)
                     {| Stripe.active := false |}] |}).
Proof.
  intros Hp Hsku Hledger.
  rewrite deleteProductSkuById_run, Hp, Hsku, Hledger. reflexivity.
Qed.

Lemma find_filter_out {A} (f : A -> bool) (l : list A) :
  find f (List.filter (fun x => negb (f x)) l) = None.
Proof.
  apply find_none_iff. intros x Hx. apply filter_In in Hx as [_ Hx].
  apply negb_true_iff. exact Hx.
Qed.

(** X9: a SKU is deleted once: after a successful [deleteProductSkuById],
    the same call throws after the product lookup alone, asking nothing of
    the ledger and changing nothing. *)
Theorem deleteProductSkuById_twice (id skuId : string) (w : World St)
  (product : Product.t) (sku : Sku.t) (s' : St) :
  Db.findOne (db w) id = Some product ->
  find (Db.sku_has_id skuId) (Product.skuDetails product) = Some sku ->
  stripe_prices_update ext (Sku.stripePriceId sku) {| Stripe.active := false |}
    (outside w) = (Resolved tt, s') ->
  exists envelope w1 e,
    deleteProductSkuById ext id skuId w = (Resolved envelope, w1)
    /\ deleteProductSkuById ext id skuId w1 =
       (Thrown e,
        {| db := db w1; outside := outside w1;
           calls := calls w1 ++ [ProductDBFindOne id] |}).
Proof.
  intros Hp Hsku Hledger.
  rewrite deleteProductSkuById_run, Hp, Hsku, Hledger.
  eexists _, _, _. split; [reflexivity |].
  rewrite deleteProductSkuById_run. cbn [db].
  unfold Db.findOne in *. unfold Db.deleteSku. rewrite Hp. simpl.
  rewrite lookup_insert_eq. simpl.
  unfold Db.sku_has_id at 1. rewrite (find_filter_out (Db.sku_has_id skuId)).
  reflexivity.
Qed.

(** X10: when the product or the SKU is absent, [updateProductSkuById]
    throws "Product does not exist" or "Sku does not exist" after the lookup
    alone; and whenever it throws, for these reasons or because the ledger
    refused the new price, the store is as it was. *)
Theorem updateProductSkuById_failure_leaves_store (productId skuId : string)
  (data : ProductSkuDto.t) (w : World St) :
  (sku_absent (db w) productId skuId ->
   exists msg,
     updateProductSkuById ext productId skuId data w =
     (Thrown (Error msg),
      {| db := db w; outside := outside w;
         calls := calls w ++ [ProductDBFindOne productId] |})
     /\ (msg = "Product does not exist" \/ msg = "Sku does not exist"))
  /\ forall e w',
       updateProductSkuById ext productId skuId data w = (Thrown e, w') ->
       db w' = db w.
Proof.
  unfold updateProductSkuById. rewrite try_catch_rethrow.
  rewrite (bind_resolved _ _ _ _ _ (productDB_findOne_run productId w)).
  unfold sku_absent.
  destruct (Db.findOne (db w) productId) as [product |] eqn:Hp.
  2: { split.
       - intros _. eexists. split; [reflexivity | left; reflexivity].
       - intros e w' [= <- <-]. reflexivity. }
  destruct (find (fun sku => String.eqb (Sku._id sku) skuId)
              (Product.skuDetails product)) as [sku |] eqn:Hsku.
  - split.
    + intros Habs. apply List.find_some in Hsku as [Hin Hid].
      apply String.eqb_eq in Hid. exfalso. exact (Habs sku Hin Hid).
    + intros e w'.
      assert (Hupd : forall d w1,
        db w1 = db w ->
        fst (productDB_findOneAndUpdate ext (ByIdAndSkuId productId skuId)
               (SetSkuFields d) w1) <> Thrown e).
      { intros d w1 Hdb.
        assert (Hp1 : Db.findOne (db w1) productId = Some product)
          by (rewrite Hdb; exact Hp).
        destruct (positional_update_run ext productId skuId d product sku w1
                    Hp1 Hsku) as (Hrun & _).
        rewrite Hrun. discriminate. }
      destruct (JsNumber.strict_ne (ProductSkuDto.price data) (Sku.price sku)).
      * unfold bind at 1. unfold bind at 1.
        rewrite stripeClient_prices_create_run. rewrite outside_record_call.
        destruct (stripe_prices_create ext _ (outside w)) as [[id | e1] s1].
        -- simpl. unfold ret at 1. unfold bind.
           match goal with
           | |- context [productDB_findOneAndUpdate ext ?f ?u ?w1] =>
               pose proof (Hupd (set_stripePriceId id data) w1 eq_refl) as Hu;
               destruct (productDB_findOneAndUpdate ext f u w1)
                 as [[r | e2] w2]
           end.
           ++ discriminate.
           ++ intros [= <- <-]. exfalso. apply Hu. reflexivity.
        -- simpl. intros [= <- <-]. reflexivity.
      * unfold bind at 1. unfold bind at 1. unfold ret at 1. unfold bind.
        match goal with
        | |- context [productDB_findOneAndUpdate ext ?f ?u ?w1] =>
            pose proof (Hupd data w1 eq_refl) as Hu;
            destruct (productDB_findOneAndUpdate ext f u w1) as [[r | e2] w2]
        end.
        -- discriminate.
        -- intros [= <- <-]. exfalso. apply Hu. reflexivity.
  - split.
    + intros _. eexists. split; [reflexivity | right; reflexivity].
    + intros e w' [= <- <-]. reflexivity.
Qed.

Lemma update_first_one_by_one (skuId : string) (data : ProductSkuDto.t)
  (l : list Sku.t) :
  Forall2 (fun sku sku' =>
             Sku._id sku' = Sku._id sku
             /\ (Sku._id sku <> skuId -> sku' = sku))
    l (Db.update_first (Db.sku_has_id skuId) (Db.patch_sku data) l).
Proof.
  assert (Hsame : forall k : list Sku.t,
    Forall2 (fun sku sku' =>
               Sku._id sku' = Sku._id sku
               /\ (Sku._id sku <> skuId -> sku' = sku)) k k).
  { induction k as [| y ys IHk]; constructor; [split; reflexivity | exact IHk]. }
  induction l as [| x xs IH]; [constructor |].
  simpl. destruct (Db.sku_has_id skuId x) eqn:Ex.
  - constructor; [| apply Hsame]. split; [reflexivity |].
    intros Hne. unfold Db.sku_has_id in Ex. apply String.eqb_eq in Ex.
    contradiction.
  - constructor; [split; reflexivity | exact IH].
Qed.

Lemma only_sku_fields_differ_refl (productId skuId : string) (d : Db.t) :
  only_sku_fields_differ productId skuId d d.
Proof.
  unfold only_sku_fields_differ.
  split; [reflexivity |]. split; [reflexivity |].
  split; [reflexivity |]. split; [tauto |].
  intros p Hp. exists p. split; [exact Hp |]. repeat (split; [reflexivity |]).
  induction (Product.skuDetails p) as [| y ys IHk]; constructor;
    [split; reflexivity | exact IHk].
Qed.

Lemma only_sku_fields_differ_patch (productId skuId : string)
  (data : ProductSkuDto.t) (p : Product.t) (d : Db.t) :
  Db.findOne d productId = Some p ->
  only_sku_fields_differ productId skuId d
    (Db.with_products
       (<[productId :=
            Db.with_skus
              (Db.update_first (Db.sku_has_id skuId) (Db.patch_sku data)
                 (Product.skuDetails p)) p]> (Db.products d)) d).
Proof.
  intros Hp. unfold only_sku_fields_differ, Db.findOne. simpl.
  split; [reflexivity |]. split; [reflexivity |]. split; [| split].
  - intros id Hne. apply lookup_insert_ne. congruence.
  - unfold Db.findOne in Hp. rewrite Hp. discriminate.
  - intros q Hq. unfold Db.findOne in Hp. rewrite Hp in Hq.
    injection Hq as <-. rewrite lookup_insert_eq. eexists.
    split; [reflexivity |]. simpl.
    repeat (split; [reflexivity |]).
    apply update_first_one_by_one.
Qed.

(** X11: whatever its outcome, [updateProductSkuById] changes at most fields
    of SKUs with the given identifier in the one product: the product's SKUs
    keep their identifiers and their order, and the SKUs with another
    identifier, every other field of the product (identifier, name,
    description, category, ledger reference, image, average, Feedback), the
    licenses, the orders and every other product are as before. *)
Theorem updateProductSkuById_frame (productId skuId : string)
  (data : ProductSkuDto.t) (w : World St) :
  only_sku_fields_differ productId skuId (db w)
    (db (snd (updateProductSkuById ext productId skuId data w))).
Proof.
  unfold updateProductSkuById. rewrite try_catch_rethrow.
  rewrite (bind_resolved _ _ _ _ _ (productDB_findOne_run productId w)).
  destruct (Db.findOne (db w) productId) as [product |] eqn:Hp;
    [| apply only_sku_fields_differ_refl].
  destruct (find (fun sku => String.eqb (Sku._id sku) skuId)
              (Product.skuDetails product)) as [sku |] eqn:Hsku;
    [| apply only_sku_fields_differ_refl].
  assert (Hupd : forall d w1 (k : ProductSkuDto.t),
    db w1 = db w ->
    only_sku_fields_differ productId skuId (db w)
      (db (snd (bind (productDB_findOneAndUpdate ext
                        (ByIdAndSkuId productId skuId) (SetSkuFields d))
                  (fun result =>
                     ret (k, {| message := "Product sku updated successfully";
                                success := true;
                                result := result |})) w1)))).
  { intros d w1 k Hdb.
    assert (Hp1 : Db.findOne (db w1) productId = Some product)
      by (rewrite Hdb; exact Hp).
    destruct (positional_update_run ext productId skuId d product sku w1
                Hp1 Hsku) as (Hrun & _).
    unfold bind. rewrite Hrun. simpl. rewrite Hdb.
    apply only_sku_fields_differ_patch. exact Hp. }
  destruct (JsNumber.strict_ne (ProductSkuDto.price data) (Sku.price sku)).
  - unfold bind at 1. unfold bind at 1.
    rewrite stripeClient_prices_create_run. rewrite outside_record_call.
    destruct (stripe_prices_create ext _ (outside w)) as [[id | e1] s1].
    + simpl. unfold ret at 1. apply Hupd. reflexivity.
    + simpl. apply only_sku_fields_differ_refl.
  - unfold bind at 1. unfold bind at 1. unfold ret at 1.
    apply Hupd. reflexivity.
Qed.

End SkuProperties.

(** * Properties of the rest of the product service *)

Section RestOfProductsServiceProperties.

Context {St : Type}.
Variable ext : ExternalX St.

(** ** Collaborator calls *)

Lemma productDBX_findOne_run (id : string) (w : WorldX St) :
  productDBX_findOne id w =
  (Resolved (Db.findOne (xdb w) id), record_callX (Core (ProductDBFindOne id)) w).
Proof. reflexivity. Qed.

Lemma callX_outside_run {A} (c : CallX) (f : St -> Outcome A * St)
  (w : WorldX St) :
  callX c (on_outsideX f) w =
  (fst (f (xoutside w)),
   {| xdb := xdb w; ximages := ximages w; xoutside := snd (f (xoutside w));
      xcalls := xcalls w ++ [c] |}).
Proof.
  unfold callX, on_outsideX. simpl. destruct (f (xoutside w)). reflexivity.
Qed.

Lemma callX_db_run {A} (c : CallX) (f : Db.t -> Outcome A * Db.t)
  (w : WorldX St) :
  callX c (on_dbX f) w =
  (fst (f (xdb w)),
   {| xdb := snd (f (xdb w)); ximages := ximages w; xoutside := xoutside w;
      xcalls := xcalls w ++ [c] |}).
Proof.
  unfold callX, on_dbX. simpl. destruct (f (xdb w)). reflexivity.
Qed.

Ltac lookup_productX :=
  rewrite try_catch_rethrow;
  rewrite (bind_resolved _ _ _ _ _ (productDBX_findOne_run _ _)).

(** ** Existence guards *)

(** X12: on a product that is not in the store, [findOneProduct],
    [updateProduct], [removeProduct], [uploadProductImage],
    [addProductSkuLicense], [getProductSkuLicenses] and
    [updateProductSkuLicense] all throw "Product does not exist" after the
    lookup alone: nothing is asked of the ledger, the media host or the file
    system, and nothing is written. *)
Theorem absent_product_guards (id skuId licenseKeyId licenseKey : string)
  (dto : CreateProductDto.t) (file : File.t) (w : WorldX St) :
  Db.findOne (xdb w) id = None ->
  forall w',
    w' = {| xdb := xdb w; ximages := ximages w; xoutside := xoutside w;
            xcalls := xcalls w ++ [Core (ProductDBFindOne id)] |} ->
    findOneProduct id w = (Thrown (Error "Product does not exist"), w')
    /\ updateProduct ext id dto w = (Thrown (Error "Product does not exist"), w')
    /\ removeProduct ext id w = (Thrown (Error "Product does not exist"), w')
    /\ uploadProductImage ext id file w
       = (Thrown (Error "Product does not exist"), w')
    /\ addProductSkuLicense ext id skuId licenseKey w
       = (Thrown (Error "Product does not exist"), w')
    /\ getProductSkuLicenses id skuId w
       = (Thrown (Error "Product does not exist"), w')
    /\ updateProductSkuLicense id skuId licenseKeyId licenseKey w
       = (Thrown (Error "Product does not exist"), w').
Proof.
  intros Hp w' ->.
  unfold findOneProduct, updateProduct, removeProduct, uploadProductImage,
    addProductSkuLicense, getProductSkuLicenses, updateProductSkuLicense.
  repeat split; lookup_productX; rewrite Hp; reflexivity.
Qed.

(** X13: on a product with no SKU of the identifier, the three license
    operations that name a SKU throw "Sku does not exist" after the product
    lookup alone, and the license store is neither read nor written. *)
Theorem absent_sku_guards (productId skuId licenseKeyId licenseKey : string)
  (w : WorldX St) (product : Product.t) :
  Db.findOne (xdb w) productId = Some product ->
  (forall sku, In sku (Product.skuDetails product) -> Sku._id sku <> skuId) ->
  forall w',
    w' = {| xdb := xdb w; ximages := ximages w; xoutside := xoutside w;
            xcalls := xcalls w ++ [Core (ProductDBFindOne productId)] |} ->
    addProductSkuLicense ext productId skuId licenseKey w
    = (Thrown (Error "Sku does not exist"), w')
    /\ getProductSkuLicenses productId skuId w
       = (Thrown (Error "Sku does not exist"), w')
    /\ updateProductSkuLicense productId skuId licenseKeyId licenseKey w
       = (Thrown (Error "Sku does not exist"), w').
Proof.
  intros Hp Hno w' ->.
  assert (Hfind : find (fun sku => String.eqb (Sku._id sku) skuId)
                    (Product.skuDetails product) = None).
  { apply find_none_iff. intros sku Hin. apply String.eqb_neq.
    apply Hno. exact Hin. }
  unfold addProductSkuLicense, getProductSkuLicenses, updateProductSkuLicense.
  repeat split; lookup_productX; rewrite Hp, Hfind; reflexivity.
Qed.

(** ** Products *)

Lemma findRelatedProducts_spec (d : Db.t) (category id : string)
  (r : Product.t) :
  In r (Repository.findRelatedProducts d category id) <->
  exists k,
    k <> id /\ Db.findOne d k = Some r /\ Product.category r = category.
Proof.
  unfold Repository.findRelatedProducts, Db.findOne. rewrite in_map_iff. split.
  - intros ([k p] & Hr & Hin). simpl in Hr. subst p.
    apply filter_In in Hin as [Hin Hrel].
    apply list_elem_of_In, elem_of_map_to_list in Hin.
    unfold Repository.related in Hrel. simpl in Hrel.
    apply andb_true_iff in Hrel as [Hc Hk].
    apply String.eqb_eq in Hc. apply negb_true_iff, String.eqb_neq in Hk.
    exists k. repeat split; assumption.
  - intros (k & Hk & Hf & Hc). exists (k, r). split; [reflexivity |].
    apply filter_In. split.
    + apply list_elem_of_In, elem_of_map_to_list. exact Hf.
    + unfold Repository.related. simpl. apply andb_true_iff. split.
      * apply String.eqb_eq. exact Hc.
      * apply negb_true_iff, String.eqb_neq. exact Hk.
Qed.

(** X14: for a product in the store, [findOneProduct] resolves with it and
    with its related products, which are exactly the products stored under
    another identifier whose category is the product's; it reads the store
    twice and changes nothing. *)
Theorem findOneProduct_related (id : string) (w : WorldX St)
  (product : Product.t) :
  Db.findOne (xdb w) id = Some product ->
  exists relatedProducts,
    findOneProduct id w =
    (Resolved {| message := "Product fetched successfully";
                 result := (product, relatedProducts);
                 success := true |},
     {| xdb := xdb w; ximages := ximages w; xoutside := xoutside w;
        xcalls := xcalls w
                  ++ [Core (ProductDBFindOne id);
                      ProductDBFindRelatedProducts (Product.category product)
                        id] |})
    /\ forall r,
         In r relatedProducts <->
         exists k,
           k <> id /\ Db.findOne (xdb w) k = Some r
           /\ Product.category r = Product.category product.
Proof.
  intros Hp. unfold findOneProduct. lookup_productX. rewrite Hp.
  unfold bind, productDB_findRelatedProducts. rewrite callX_db_run. simpl.
  eexists. split.
  - unfold ret. rewrite <- app_assoc. reflexivity.
  - intros r. apply findRelatedProducts_spec.
Qed.



(** X16: [removeProduct] deletes the stored product first and asks the
    ledger to delete its record afterwards. Whatever the ledger answers,
    also when it refuses and the method throws, the product is gone from the
    store; the other products and all licenses, those of the product
    included, are as before. *)
Theorem removeProduct_deletes_before_ledger (id : string) (w : WorldX St)
  (product : Product.t) :
  Db.findOne (xdb w) id = Some product ->
  exists w',
    removeProduct ext id w =
    (match fst (stripe_products_del ext (Product.stripeProductId product)
                  (xoutside w)) with
     | Resolved _ => Resolved {| message := "Product deleted successfully";
                                 success := true;
                                 result := tt |}
     | Thrown e => Thrown e
     end, w')
    /\ xcalls w' =
       xcalls w ++ [Core (ProductDBFindOne id);
                    ProductDBFindOneAndDelete id;
                    StripeProductsDel (Product.stripeProductId product)]
    /\ Db.findOne (xdb w') id = None
    /\ (forall k, k <> id -> Db.findOne (xdb w') k = Db.findOne (xdb w) k)
    /\ Db.licenses (xdb w') = Db.licenses (xdb w).
Proof.
  intros Hp. unfold removeProduct. lookup_productX. rewrite Hp.
  unfold bind at 1. unfold productDB_findOneAndDelete, callX at 1. simpl.
  unfold bind, stripeClient_products_del. rewrite callX_outside_run. simpl.
  destruct (stripe_products_del ext (Product.stripeProductId product)
              (xoutside w)) as [[[] | e] s']; simpl;
    (eexists; split; [reflexivity |]; simpl;
     split; [rewrite <- !app_assoc; reflexivity |];
     split; [unfold Db.findOne; simpl; apply lookup_delete_eq |];
     split; [| reflexivity];
     intros k Hk; unfold Db.findOne; simpl; apply lookup_delete_ne; congruence).
Qed.

Lemma lift_core_run {A} (m : M (World St) A) (w : WorldX St) :
  lift_core m w =
  (fst (m {| db := xdb w; outside := xoutside w; calls := [] |}),
   {| xdb := db (snd (m {| db := xdb w; outside := xoutside w; calls := [] |}));
      ximages := ximages w;
      xoutside :=
        outside (snd (m {| db := xdb w; outside := xoutside w; calls := [] |}));
      xcalls :=
        xcalls w
        ++ map Core
             (calls (snd (m {| db := xdb w; outside := xoutside w;
                               calls := [] |}))) |}).
Proof.
  unfold lift_core.
  destruct (m {| db := xdb w; outside := xoutside w; calls := [] |}).
  reflexivity.
Qed.

(** A product [createProduct] resolves with is in the store it leaves. *)
Lemma createProduct_resolved_stored (dto dto' : CreateProductDto.t)
  (envelope : Envelope Product.t) (w w' : World St) :
  createProduct (core ext) dto w = (Resolved (dto', envelope), w') ->
  Db.findOne (db w') (Product._id (result envelope)) = Some (result envelope).
Proof.
  unfold createProduct. rewrite try_catch_rethrow.
  assert (Hcreate : forall d w1,
    bind (productDB_create (core ext) d)
      (fun createdProductInDB =>
         ret (d, {| message := "Product created successfully";
                    result := createdProductInDB;
                    success := true |})) w1
    = (Resolved (dto', envelope), w') ->
    Db.findOne (db w') (Product._id (result envelope)) = Some (result envelope)).
  { intros d w1. unfold bind. rewrite productDB_create_run.
    unfold Db.create.
    destruct (Db.products (db w1) !! fst (new_object_id (core ext) (outside w1)));
      simpl; [discriminate |].
    unfold ret. intros [= <- <- <-]. unfold Db.findOne. simpl.
    apply lookup_insert_eq. }
  destruct (falsy (CreateProductDto.stripeProductId dto)).
  - unfold bind at 1. unfold bind at 1.
    rewrite stripeClient_products_create_run.
    destruct (stripe_products_create (core ext) _ (outside w)) as [[id | e] s1];
      simpl; [| discriminate].
    unfold ret at 1. apply Hcreate.
  - unfold bind at 1. unfold bind at 1. unfold ret at 1. apply Hcreate.
Qed.

(** X17: a product [createProduct] has resolved with is found by
    [findOneProduct] under its identifier, as created. *)
Theorem created_product_is_found (dto dto' : CreateProductDto.t)
  (envelope : Envelope Product.t) (w w1 : WorldX St) :
  lift_core (createProduct (core ext) dto) w = (Resolved (dto', envelope), w1) ->
  exists relatedProducts w2,
    findOneProduct (Product._id (result envelope)) w1 =
    (Resolved {| message := "Product fetched successfully";
                 result := (result envelope, relatedProducts);
                 success := true |}, w2)
    /\ xdb w2 = xdb w1
    /\ Product.productName (result envelope) = CreateProductDto.productName dto
    /\ Product.description (result envelope) = CreateProductDto.description dto.
Proof.
  rewrite lift_core_run.
  destruct (createProduct (core ext) dto _) as [r w0] eqn:Hrun.
  simpl. intros [= -> <-].
  pose proof (createProduct_resolved_stored _ _ _ _ _ Hrun) as Hstored.
  unfold findOneProduct. lookup_productX. cbn [xdb]. rewrite Hstored.
  unfold bind, productDB_findRelatedProducts. rewrite callX_db_run. simpl.
  eexists _, _. split; [reflexivity |]. split; [reflexivity |].
  revert Hrun. clear. unfold createProduct. rewrite try_catch_rethrow.
  assert (Hcreate : forall d w1,
    CreateProductDto.productName d = CreateProductDto.productName dto ->
    CreateProductDto.description d = CreateProductDto.description dto ->
    bind (productDB_create (core ext) d)
      (fun createdProductInDB =>
         ret (d, {| message := "Product created successfully";
                    result := createdProductInDB;
                    success := true |})) w1
    = (Resolved (dto', envelope), w0) ->
    Product.productName (result envelope) = CreateProductDto.productName dto
    /\ Product.description (result envelope) = CreateProductDto.description dto).
  { intros d w1 Hn Hd. unfold bind. rewrite productDB_create_run.
    unfold Db.create.
    destruct (Db.products (db w1) !! fst (new_object_id (core ext) (outside w1)));
      simpl; [discriminate |].
    unfold ret. intros [= <- <- <-]. simpl. split; assumption. }
  destruct (falsy (CreateProductDto.stripeProductId dto)).
  - unfold bind at 1. unfold bind at 1.
    rewrite stripeClient_products_create_run.
    destruct (stripe_products_create (core ext) _ _) as [[id | e] s1];
      simpl; [| discriminate].
    unfold ret at 1. apply Hcreate; reflexivity.
  - unfold bind at 1. unfold bind at 1. unfold ret at 1.
    apply Hcreate; reflexivity.
Qed.

(** ** Licenses *)

Lemma no_license_existsb (id : string) (d : Db.t) :
  no_license_has id d ->
  existsb (Repository.license_has_id id) (Db.licenses d) = false.
Proof.
  intros Hno. apply not_true_is_false. intros Hex.
  apply existsb_exists in Hex as (l & Hin & Hid).
  apply String.eqb_eq in Hid. exact (Hno l Hin Hid).
Qed.

Lemma find_sku_some (product : Product.t) (skuId : string) (sku : Sku.t) :
  In sku (Product.skuDetails product) -> Sku._id sku = skuId ->
  exists y,
    find (fun sku => String.eqb (Sku._id sku) skuId)
      (Product.skuDetails product) = Some y.
Proof.
  intros Hin Hid.
  destruct (find_some_of_in (fun sku => String.eqb (Sku._id sku) skuId)
              _ sku Hin) as (y & Hy & _).
  - apply String.eqb_eq. exact Hid.
  - exists y. exact Hy.
Qed.

(** A license added to an existing SKU. *)
Lemma addProductSkuLicense_run (productId skuId licenseKey : string)
  (w : WorldX St) (product : Product.t) (sku : Sku.t) :
  Db.findOne (xdb w) productId = Some product ->
  In sku (Product.skuDetails product) -> Sku._id sku = skuId ->
  no_license_has (fst (new_object_id (core ext) (xoutside w))) (xdb w) ->
  let l := {| License._id := fst (new_object_id (core ext) (xoutside w));
              License.product := productId;
              License.productSku := skuId;
              License.licenseKey := licenseKey |} in
  addProductSkuLicense ext productId skuId licenseKey w =
  (Resolved {| message := "License key added successfully";
               success := true;
               result := l |},
   {| xdb := Db.with_licenses (Db.licenses (xdb w) ++ [l]) (xdb w);
      ximages := ximages w;
      xoutside := snd (new_object_id (core ext) (xoutside w));
      xcalls := xcalls w
                ++ [Core (ProductDBFindOne productId);
                    ProductDBCreateLicense productId skuId licenseKey] |}).
Proof.
  intros Hp Hin Hid Hfresh l. unfold addProductSkuLicense. lookup_productX.
  rewrite Hp. destruct (find_sku_some product skuId sku Hin Hid) as (y & ->).
  unfold bind, productDB_createLicense, callX, fresh_idX, on_outsideX, on_dbX,
    bind. simpl.
  destruct (new_object_id (core ext) (xoutside w)) as [id s] eqn:Hid'.
  simpl in *. unfold Repository.createLicense.
  rewrite (no_license_existsb id (xdb w) Hfresh). simpl.
  unfold ret. rewrite <- app_assoc. reflexivity.
Qed.

(** X18: a license added to a SKU is listed for it: after a resolved
    [addProductSkuLicense], [getProductSkuLicenses] for the same product and
    SKU resolves with the licenses listed before followed by the new one,
    which carries the key and refers to that product and that SKU. *)
Theorem added_license_is_listed (productId skuId licenseKey : string)
  (w : WorldX St) (product : Product.t) (sku : Sku.t) :
  Db.findOne (xdb w) productId = Some product ->
  In sku (Product.skuDetails product) -> Sku._id sku = skuId ->
  no_license_has (fst (new_object_id (core ext) (xoutside w))) (xdb w) ->
  exists l w1 w2,
    addProductSkuLicense ext productId skuId licenseKey w =
    (Resolved {| message := "License key added successfully";
                 success := true;
                 result := l |}, w1)
    /\ License.licenseKey l = licenseKey
    /\ License.product l = productId
    /\ License.productSku l = skuId
    /\ getProductSkuLicenses productId skuId w1 =
       (Resolved {| message := "Licenses fetched successfully";
                    success := true;
                    result := Repository.findLicense (xdb w) productId skuId
                              ++ [l] |}, w2).
Proof.
  intros Hp Hin Hid Hfresh.
  rewrite (addProductSkuLicense_run productId skuId licenseKey w product sku
             Hp Hin Hid Hfresh).
  eexists _, _, _. split; [reflexivity |]. repeat split.
  unfold getProductSkuLicenses. lookup_productX. cbn [xdb].
  change (Db.findOne (Db.with_licenses _ (xdb w)) productId)
    with (Db.findOne (xdb w) productId).
  rewrite Hp. destruct (find_sku_some product skuId sku Hin Hid) as (y & ->).
  unfold bind, productDB_findLicense. rewrite callX_db_run. simpl.
  unfold Repository.findLicense. simpl. rewrite List.filter_app. simpl.
  rewrite !String.eqb_refl. reflexivity.
Qed.

Lemma remove_first_last {A} (f : A -> bool) (l : list A) (x : A) :
  (forall y, In y l -> f y = false) -> f x = true ->
  Repository.remove_first f (l ++ [x]) = l /\ find f (l ++ [x]) = Some x.
Proof.
  intros Hl Hx. induction l as [| y ys IH]; simpl.
  - rewrite Hx. split; reflexivity.
  - rewrite (Hl y (or_introl eq_refl)).
    destruct IH as [IH1 IH2]; [intros z Hz; apply Hl; right; exact Hz |].
    rewrite IH1. unfold find in *. rewrite IH2. split; reflexivity.
Qed.

(** X19: removing the license [addProductSkuLicense] has just added gives
    the license store back as it was. *)
Theorem removeProductSkuLicense_undoes_add (productId skuId licenseKey : string)
  (w : WorldX St) (product : Product.t) (sku : Sku.t) :
  Db.findOne (xdb w) productId = Some product ->
  In sku (Product.skuDetails product) -> Sku._id sku = skuId ->
  no_license_has (fst (new_object_id (core ext) (xoutside w))) (xdb w) ->
  exists l w1 w2,
    addProductSkuLicense ext productId skuId licenseKey w =
    (Resolved {| message := "License key added successfully";
                 success := true;
                 result := l |}, w1)
    /\ removeProductSkuLicense (License._id l) w1 =
       (Resolved {| message := "License key removed successfully";
                    success := true;
                    result := Some l |}, w2)
    /\ xdb w2 = xdb w.
Proof.
  intros Hp Hin Hid Hfresh.
  rewrite (addProductSkuLicense_run productId skuId licenseKey w product sku
             Hp Hin Hid Hfresh).
  eexists _, _, _. split; [reflexivity |].
  unfold removeProductSkuLicense. rewrite try_catch_rethrow.
  unfold bind, productDB_removeLicense. rewrite callX_db_run. simpl.
  unfold Repository.removeLicense. simpl.
  match goal with
  | |- context [Repository.remove_first ?f (?l ++ [?x])] =>
      destruct (remove_first_last f l x) as [Hrem Hfind]
  end.
  { intros y Hy. apply String.eqb_neq. exact (Hfresh y Hy). }
  { apply String.eqb_refl. }
  rewrite Hrem, Hfind. simpl. split; [reflexivity |].
  destruct (xdb w); reflexivity.
Qed.

Lemma remove_first_spec {A} (f : A -> bool) (l : list A) :
  match find f l with
  | None => Repository.remove_first f l = l
  | Some x =>
      In x l /\ f x = true
      /\ S (length (Repository.remove_first f l)) = length l
  end
  /\ forall y, In y l -> f y = false -> In y (Repository.remove_first f l).
Proof.
  unfold find. induction l as [| z zs [IH1 IH2]]; simpl.
  - split; [reflexivity | tauto].
  - destruct (f z) eqn:Ez.
    + split; [repeat split; [left; reflexivity | exact Ez] |].
      intros y [-> | Hy] Hf; [congruence | exact Hy].
    + split.
      * destruct (List.find f zs).
        -- destruct IH1 as (Hin & Hf & Hlen).
           repeat split; [right; exact Hin | exact Hf |].
           simpl. rewrite Hlen. reflexivity.
        -- rewrite IH1. reflexivity.
      * intros y [-> | Hy] Hf; [left; reflexivity | right; apply IH2; assumption].
Qed.

(** X20: [removeProductSkuLicense] looks nothing up: its only call is the
    removal by identifier, whatever product and SKU the license refers to.
    When it resolves, it resolves with the first license that has the
    identifier, which has left the store, or with null when there was none,
    and then the store is as it was. Licenses with another identifier stay,
    and the products are as before. *)
Theorem removeProductSkuLicense_removes_at_most_one (id : string)
  (w w' : WorldX St) (envelope : Envelope (option License.t)) :
  removeProductSkuLicense id w = (Resolved envelope, w') ->
  xcalls w' = xcalls w ++ [ProductDBRemoveLicense id]
  /\ message envelope = "License key removed successfully"
  /\ success envelope = true
  /\ match result envelope with
     | None => no_license_has id (xdb w) /\ xdb w' = xdb w
     | Some l =>
         find (Repository.license_has_id id) (Db.licenses (xdb w)) = Some l
         /\ License._id l = id
         /\ S (length (Db.licenses (xdb w'))) = length (Db.licenses (xdb w))
     end
  /\ (forall l, In l (Db.licenses (xdb w)) -> License._id l <> id ->
                In l (Db.licenses (xdb w')))
  /\ Db.products (xdb w') = Db.products (xdb w)
  /\ xoutside w' = xoutside w.
Proof.
  unfold removeProductSkuLicense. rewrite try_catch_rethrow.
  unfold bind, productDB_removeLicense. rewrite callX_db_run. simpl.
  intros [= <- <-]. simpl.
  destruct (remove_first_spec (Repository.license_has_id id)
              (Db.licenses (xdb w))) as [H1 H2].
  split; [reflexivity |]. split; [reflexivity |]. split; [reflexivity |].
  split; [| split; [| split; reflexivity]].
  - destruct (find (Repository.license_has_id id) (Db.licenses (xdb w)))
      as [l |] eqn:Hfind.
    + destruct H1 as (Hin & Hf & Hlen). repeat split; try assumption.
      apply String.eqb_eq. exact Hf.
    + split.
      * intros l Hin. apply String.eqb_neq.
        rewrite find_none_iff in Hfind. exact (Hfind l Hin).
      * rewrite H1. destruct (xdb w); reflexivity.
  - intros l Hin Hid. apply H2; [exact Hin |]. apply String.eqb_neq. exact Hid.
Qed.

(** X21: [updateProductSkuLicense] checks that the product and the SKU
    exist but addresses the license by its identifier alone: the first
    license with the identifier gets the key, whatever product and SKU it
    refers to. *)
Theorem updateProductSkuLicense_unscoped
  (productId skuId licenseKeyId licenseKey : string) (w : WorldX St)
  (product : Product.t) (sku : Sku.t) (l : License.t) :
  Db.findOne (xdb w) productId = Some product ->
  In sku (Product.skuDetails product) -> Sku._id sku = skuId ->
  find (Repository.license_has_id licenseKeyId) (Db.licenses (xdb w)) = Some l ->
  exists w',
    updateProductSkuLicense productId skuId licenseKeyId licenseKey w =
    (Resolved {| message := "License key updated successfully";
                 success := true;
                 result := Some (Repository.with_key licenseKey l) |}, w')
    /\ find (Repository.license_has_id licenseKeyId) (Db.licenses (xdb w'))
       = Some (Repository.with_key licenseKey l)
    /\ License.product (Repository.with_key licenseKey l) = License.product l
    /\ License.productSku (Repository.with_key licenseKey l)
       = License.productSku l
    /\ xcalls w' = xcalls w
                   ++ [Core (ProductDBFindOne productId);
                       ProductDBUpdateLicense licenseKeyId licenseKey].
Proof.
  intros Hp Hin Hid Hl. unfold updateProductSkuLicense. lookup_productX.
  rewrite Hp. destruct (find_sku_some product skuId sku Hin Hid) as (y & ->).
  unfold bind, productDB_updateLicense. rewrite callX_db_run. simpl.
  unfold Repository.updateLicense. simpl. rewrite Hl. simpl.
  eexists. split; [reflexivity |]. simpl.
  split; [| split; [reflexivity | split; [reflexivity |]]].
  - apply find_update_first; [exact Hl |].
    apply List.find_some in Hl as [_ Hid']. exact Hid'.
  - rewrite <- app_assoc. reflexivity.
Qed.

Lemma filter_none {A} (f : A -> bool) (l : list A) :
  (forall x, In x l -> f x = false) -> List.filter f l = [].
Proof.
  induction l as [| x xs IH]; intros H; [reflexivity |].
  simpl. rewrite (H x (or_introl eq_refl)). apply IH.
  intros y Hy. apply H. right. exact Hy.
Qed.

(** X22: once [deleteProductSkuById] has resolved, the SKU is gone for the
    license operations too: [getProductSkuLicenses] for it throws "Sku does
    not exist", and the license store holds no license of that SKU for any
    product. *)
Theorem deleted_sku_has_no_licenses (id skuId : string)
  (envelope : Envelope (string * string)) (w w1 : WorldX St) :
  lift_core (deleteProductSkuById (core ext) id skuId) w
  = (Resolved envelope, w1) ->
  getProductSkuLicenses id skuId w1 =
  (Thrown (Error "Sku does not exist"),
   {| xdb := xdb w1; ximages := ximages w1; xoutside := xoutside w1;
      xcalls := xcalls w1 ++ [Core (ProductDBFindOne id)] |})
  /\ forall productId, Repository.findLicense (xdb w1) productId skuId = [].
Proof.
  rewrite lift_core_run, deleteProductSkuById_run. cbn [db outside calls].
  destruct (Db.findOne (xdb w) id) as [p |] eqn:Hp; [| discriminate].
  destruct (find (Db.sku_has_id skuId) (Product.skuDetails p)) as [sku |];
    [| discriminate].
  destruct (stripe_prices_update (core ext) _ _ (xoutside w)) as [[[] | e] s'];
    [| discriminate].
  cbn [fst snd db outside calls]. intros [= <- <-]. split.
  - unfold getProductSkuLicenses. lookup_productX. cbn [xdb].
    unfold Db.findOne in *. unfold Db.deleteSku. rewrite Hp. simpl.
    rewrite lookup_insert_eq. simpl.
    pose proof (find_filter_out (Db.sku_has_id skuId) (Product.skuDetails p))
      as Hgone.
    unfold Db.sku_has_id in Hgone at 1. rewrite Hgone. reflexivity.
  - intros productId. unfold Repository.findLicense. simpl.
    apply filter_none. intros l Hl. apply filter_In in Hl as [_ Hl].
    unfold Db.license_matches in Hl. rewrite andb_true_r in Hl.
    apply negb_true_iff in Hl. rewrite Hl. apply andb_false_r.
Qed.

(** ** Images *)

Ltac run_externals :=
  repeat match goal with
    | |- context [cloudinary_destroy ext ?a ?b ?s] =>
        destruct (cloudinary_destroy ext a b s) as [[[] | ?] ?]; cbn
    | |- context [config_get ext ?k] =>
        destruct (config_get ext k) as [? | ?]; cbn
    | |- context [date_now (core ext) ?s] =>
        destruct (date_now (core ext) s) as [? ?]; cbn
    | |- context [cloudinary_upload ext ?a ?b ?s] =>
        destruct (cloudinary_upload ext a b s) as [[? | ?] ?]; cbn
    | |- context [unlinkSync ext ?a ?s] =>
        destruct (unlinkSync ext a s) as [[[] | ?] ?]; cbn
    | |- context [stripe_products_update ext ?a ?b ?s] =>
        destruct (stripe_products_update ext a b s) as [[[] | ?] ?]; cbn
    end.

(** X23: whatever the media host, the configuration, the file system and
    the ledger do, the calls of [uploadProductImage] on an existing product
    are a beginning of: product lookup, destruction of the old asset (only
    when the product has one, under its public identifier, with cache
    invalidation), upload, removal of the temporary file, store update,
    ledger update. It resolves only after all of them, and as long as the
    store update has not been issued the store is as it was. *)
Theorem uploadProductImage_call_order (id : string) (file : File.t)
  (w : WorldX St) (product : Product.t) :
  Db.findOne (xdb w) id = Some product ->
  exists new rest,
    xcalls (snd (uploadProductImage ext id file w)) = xcalls w ++ new
    /\ image_pipeline (old_public_id (ximages w !! id))
       = map operation new ++ rest
    /\ (forall c, In c new -> operation c = OpDestroy ->
          exists public_id,
            old_public_id (ximages w !! id) = Some public_id
            /\ c = CloudinaryDestroy public_id {| Cloudinary.invalidate := true |})
    /\ (forall envelope,
          fst (uploadProductImage ext id file w) = Resolved envelope ->
          rest = [])
    /\ (~ In OpSetImage (map operation new) ->
        xdb (snd (uploadProductImage ext id file w)) = xdb w
        /\ ximages (snd (uploadProductImage ext id file w)) = ximages w).
Proof.
  intros Hp. unfold uploadProductImage. lookup_productX. rewrite Hp.
  unfold bind, uploader_destroy, uploader_upload, fs_unlinkSync,
    stripeClient_products_update, productDB_setImage, Date_now, of_outcome,
    callX, on_outsideX, record_callX, ret, Repository.setImage.
  cbn. unfold Db.findOne in Hp.
  destruct (old_public_id (ximages w !! id)) as [public_id |]; cbn;
    run_externals; try rewrite Hp; cbn; run_externals;
    (eexists _, _;
     split; [rewrite <- ?app_assoc; reflexivity |];
     split; [reflexivity |];
     split; [intros c Hc Hop; cbn in Hc;
             repeat (destruct Hc as [<- | Hc]; [try discriminate Hop |]);
             [.. | destruct Hc];
             try (eexists; split; reflexivity) |];
     split; [intros envelope He; try discriminate He; reflexivity |];
     intros Hno; cbn in Hno; try (split; reflexivity);
     exfalso; apply Hno; tauto).
Qed.

Lemma split_x_free (s : string) : free_of_x s = true -> split_x s = [s].
Proof.
  induction s as [| c rest IH]; intros H; [reflexivity |].
  simpl in *. apply andb_true_iff in H as [Hc Hrest].
  apply negb_true_iff in Hc. rewrite Hc, (IH Hrest). reflexivity.
Qed.

Lemma split_x_pair (width height : string) :
  free_of_x width = true -> free_of_x height = true ->
  split_x (width +:+ "x" +:+ height) = [width; height].
Proof.
  intros Hw Hh. induction width as [| c rest IH].
  - change (split_x (String "x" height) = [""; height]).
    simpl. rewrite (split_x_free height Hh). reflexivity.
  - change (split_x (String c (rest +:+ "x" +:+ height))
            = [String c rest; height]).
    simpl in *. apply andb_true_iff in Hw as [Hc Hrest].
    apply negb_true_iff in Hc. rewrite Hc, (IH Hrest). reflexivity.
Qed.

(** X24: when [uploadProductImage] resolves on an existing product, every
    step has resolved, each in the state the one before left: the
    destruction of the old asset when there is one, the upload of the file
    under the configured folder and the configured prefix followed by the
    time read just before, with the configured size "WxH" split into width
    W and height H, the removal of the temporary file, and the ledger
    update. What the media host answered to that upload is what the store
    gets as imageDetails, its URL is the product's image, the one element
    of the list given to the ledger, and the result; nothing else of the
    store has changed, and the calls are those and no other. *)
Theorem uploadProductImage_resolved (id : string) (file : File.t)
  (w w' : WorldX St) (product : Product.t) (envelope : Envelope string)
  (width height : string) :
  Db.findOne (xdb w) id = Some product ->
  config_get ext "cloudinary.bigSize" = Resolved (width +:+ "x" +:+ height) ->
  free_of_x width = true -> free_of_x height = true ->
  uploadProductImage ext id file w = (Resolved envelope, w') ->
  exists folder prefix now uploaded s0 s1 s2 s3,
    match old_public_id (ximages w !! id) with
    | Some public_id =>
        cloudinary_destroy ext public_id {| Cloudinary.invalidate := true |}
          (xoutside w) = (Resolved tt, s0)
    | None => s0 = xoutside w
    end
    /\ config_get ext "cloudinary.folderPath" = Resolved folder
    /\ config_get ext "cloudinary.publicId_prefix" = Resolved prefix
    /\ date_now (core ext) s0 = (now, s1)
    /\ cloudinary_upload ext (File.path file)
         (upload_options folder prefix now width height) s1
       = (Resolved uploaded, s2)
    /\ unlinkSync ext (File.path file) s2 = (Resolved tt, s3)
    /\ stripe_products_update ext (Product.stripeProductId product)
         (images_update uploaded) s3
       = (Resolved tt, xoutside w')
    /\ xcalls w' =
       xcalls w
       ++ [Core (ProductDBFindOne id)]
       ++ match old_public_id (ximages w !! id) with
          | Some public_id =>
              [CloudinaryDestroy public_id {| Cloudinary.invalidate := true |}]
          | None => []
          end
       ++ [CloudinaryUpload (File.path file)
             (upload_options folder prefix now width height);
           UnlinkSync (File.path file);
           ProductDBSetImage id uploaded;
           StripeProductsUpdate (Product.stripeProductId product)
             (images_update uploaded)]
    /\ envelope = {| message := "Image uploaded successfully";
                     success := true;
                     result := ImageDetails.secure_url uploaded |}
    /\ xdb w' =
       Db.with_products
         (<[id := Repository.with_image (ImageDetails.secure_url uploaded)
                    product]> (Db.products (xdb w))) (xdb w)
    /\ ximages w' = <[id := uploaded]> (ximages w).
Proof.
  intros Hp Hsize Hw Hh. unfold uploadProductImage. lookup_productX.
  rewrite Hp.
  unfold bind, uploader_destroy, uploader_upload, fs_unlinkSync,
    stripeClient_products_update, productDB_setImage, Date_now, of_outcome,
    callX, on_outsideX, record_callX, ret, Repository.setImage.
  cbn. unfold Db.findOne in *. rewrite !Hsize, (split_x_pair _ _ Hw Hh).
  fold (@images_update).
  destruct (old_public_id (ximages w !! id)) as [public_id |]; cbn;
    repeat match goal with
      | |- context [cloudinary_destroy ext ?a ?b ?s] =>
          destruct (cloudinary_destroy ext a b s) as [[[] | ?] ?] eqn:?; cbn
      | |- context [config_get ext ?k] =>
          destruct (config_get ext k) as [? | ?] eqn:?; cbn
      | |- context [date_now (core ext) ?s] =>
          destruct (date_now (core ext) s) as [? ?] eqn:?; cbn
      | |- context [cloudinary_upload ext ?a ?b ?s] =>
          destruct (cloudinary_upload ext a b s) as [[? | ?] ?] eqn:?; cbn
      | |- context [unlinkSync ext ?a ?s] =>
          destruct (unlinkSync ext a s) as [[[] | ?] ?] eqn:?; cbn
      end;
    try discriminate; rewrite ?Hp; cbn;
    repeat match goal with
      | |- context [stripe_products_update ext ?a ?b ?s] =>
          destruct (stripe_products_update ext a b s) as [[[] | ?] ?] eqn:?; cbn
      end;
    try discriminate;
    intros [= <- <-]; cbn; rewrite <- ?app_assoc;
    eexists _, _, _, _, _, _, _, _;
    repeat (split; [first [reflexivity | eassumption] |]);
    reflexivity.
Qed.

End RestOfProductsServiceProperties.

(** * Properties of the listing *)

Section FindAllProductsProperties.

Import Listing.

Context {St QueryValue Criteria Group : Type}.
Variable truthy : QueryValue -> bool.
Variable qs2m : gmap string QueryValue -> Outcome (Qs2m Criteria).
Variable productDB_findProductWithGroupBy : Db.t -> Outcome (list Group).

(** [Math.ceil] of a quotient, and of negative numbers. *)
Example ceil_of_quotient :
  JsMath.ceil (JsNumber.div (JsNumber.of_Z 25) (JsNumber.of_Z 10))
  = JsNumber.of_Z 3
  /\ JsMath.ceil (JsNumber.div (JsNumber.of_Z 20) (JsNumber.of_Z 10))
     = JsNumber.of_Z 2
  /\ JsMath.ceil (SFopp (JsNumber.of_ratio 1 2)) = S754_zero true
  /\ JsMath.ceil (SFopp (JsNumber.of_ratio 5 2)) = JsNumber.of_Z (-2).
Proof. vm_compute. repeat split. Qed.

(** X25: a query with a truthy [homepage] is a call for the home page: the
    flag is removed before [qs2m] sees the query, [qs2m] is run all the same
    and its failure is thrown on, and otherwise the result is what the
    grouped query gives, without metadata, whatever [find] would do; the
    message says "No products found" exactly when there is none. *)
Theorem findAllProducts_homepage (query : gmap string QueryValue)
  (v : QueryValue) (w : WorldX St) :
  query !! "homepage" = Some v -> truthy v = true ->
  forall productDB_find,
    findAllProducts truthy qs2m productDB_find productDB_findProductWithGroupBy
      query w =
    (match qs2m (delete "homepage" query) with
     | Thrown e => Thrown e
     | Resolved _ =>
         match productDB_findProductWithGroupBy (xdb w) with
         | Thrown e => Thrown e
         | Resolved products =>
             Resolved {| message := match products with
                                    | [] => "No products found"
                                    | _ :: _ => "Products fetched successfully"
                                    end;
                         result := Homepage products;
                         success := true |}
         end
     end, w)
    /\ delete "homepage" query !! "homepage" = None.
Proof.
  intros Hq Hv productDB_find. split; [| apply lookup_delete_eq].
  unfold findAllProducts. rewrite try_catch_rethrow, Hq, Hv.
  unfold bind, of_outcome, read_db, ret.
  destruct (qs2m (delete "homepage" query)) as [parsed | e]; [| reflexivity].
  destruct (productDB_findProductWithGroupBy (xdb w)) as [products | e];
    [| reflexivity].
  destruct products; reflexivity.
Qed.

(** X26: without a truthy [homepage], and with no truthy limit in the
    options [qs2m] returns, the metadata reports the limit 10 and one page,
    whatever the total; a missing or zero skip is reported as 0. *)
Theorem findAllProducts_default_page (query : gmap string QueryValue)
  (w : WorldX St) (parsed : Qs2m Criteria) (total : JsNumber.Number)
  (products : list Product.t)
  (productDB_find :
     Criteria -> Options -> Db.t -> Outcome (JsNumber.Number * list Product.t)) :
  match query !! "homepage" with Some v => truthy v | None => false end = false ->
  qs2m (delete "homepage" query) = Resolved parsed ->
  match limit (options parsed) with
  | Some l => JsMath.truthy l
  | None => false
  end = false ->
  productDB_find (criteria parsed) (options parsed) (xdb w)
  = Resolved (total, products) ->
  exists metadata message,
    findAllProducts truthy qs2m productDB_find productDB_findProductWithGroupBy
      query w =
    (Resolved {| message := message;
                 result := Page metadata products;
                 success := true |}, w)
    /\ m_limit metadata = JsNumber.of_Z 10
    /\ m_pages metadata = JsNumber.of_Z 1
    /\ m_total metadata = total
    /\ (match skip (options parsed) with
        | Some s => JsMath.truthy s
        | None => false
        end = false -> m_skip metadata = JsNumber.of_Z 0).
Proof.
  intros Hq Hparsed Hlimit Hfind.
  unfold findAllProducts. rewrite try_catch_rethrow, Hq.
  unfold bind, of_outcome, read_db, ret. rewrite Hparsed, Hfind.
  eexists _, _. split; [reflexivity |]. simpl.
  unfold JsMath.or_default.
  destruct (limit (options parsed)) as [l |]; [rewrite Hlimit |];
    (repeat split; intros Hskip;
     destruct (skip (options parsed)) as [s |]; [rewrite Hskip |]; reflexivity).
Qed.

End FindAllProductsProperties.

(** * Further properties of the email dispatcher *)

Section SendEmailRequest.

Import MailHandler.

Context {Value Response Net : Type}.
Variable form_append :
  FormData Value -> string -> Value -> Outcome (FormData Value).
Variable config_get : string -> Outcome string.
Variable base64 : string -> string.

(** X27: when the template variables are [null], or one of the two
    configuration keys is missing, [sendEmail] sends nothing: whatever the
    HTTP client would do, it resolves with undefined, logs the one error and
    leaves the network as it was. *)
Theorem sendEmail_fails_before_request (to templateName subject : string)
  (templateVars : TemplateVars Value) (w : MailWorld Net) :
  templateVars = Null
  \/ (exists e, config_get "emailService.privateApiKey" = Thrown e)
  \/ (exists e, config_get "emailService.testDomain" = Thrown e) ->
  exists error,
    forall axios : Request Value -> Net -> Outcome Response * Net,
      sendEmail form_append config_get base64 axios
        to templateName subject templateVars w =
      (Resolved None, {| net := net w; console := console w ++ [error] |}).
Proof.
  intros Hfail.
  assert (Hbody : exists error, forall axios : Request Value -> Net -> Outcome Response * Net,
    sendEmail_try form_append config_get base64 axios
      to templateName subject templateVars w = (Thrown error, w)).
  { unfold sendEmail_try. unfold bind at 1.
    destruct templateVars as [| | entries]; cbn [object_keys];
      unfold ret at 1, throw.
    2: { eexists. intros axios. reflexivity. }
    all: destruct Hfail as [Hnull | Hconfig]; [discriminate |];
      unfold bind at 1;
      match goal with
      | |- context [append_vars form_append ?form ?es ?w1] =>
          pose proof (append_vars_world form_append es form w1) as Ha;
          destruct (append_vars form_append form es w1) as [[form' | e] w0]
      end; simpl in Ha; subst w0;
      [| eexists; intros axios; reflexivity];
      unfold bind, lift;
      destruct Hconfig as [(e & He) | (e & He)]; rewrite He;
      [eexists; intros axios; reflexivity |];
      destruct (config_get "emailService.privateApiKey");
      eexists; intros axios; reflexivity. }
  destruct Hbody as (error & Hbody). exists error. intros axios.
  unfold sendEmail, try_catch. rewrite Hbody. reflexivity.
Qed.

Lemma append_vars_appends (entries : list (string * Value))
  (form : FormData Value) (w : MailWorld Net) :
  (forall f key value, form_append f key value = Resolved (f ++ [(key, Var value)])) ->
  append_vars form_append form entries w
  = (Resolved (form ++ map var_field entries), w).
Proof.
  intros Hform. revert form. induction entries as [| [key value] rest IH];
    intros form.
  - simpl. unfold ret. rewrite app_nil_r. reflexivity.
  - simpl. unfold bind, lift. rewrite Hform, IH, <- app_assoc. reflexivity.
Qed.

(** X28: over a form that takes every variable, with both configuration
    keys present and template variables that are not [null], [sendEmail]
    issues exactly one request: a POST to the messages URL of the configured
    domain, authorized as Basic base64("api:" + key), whose form holds the
    fields to, template, subject and from followed by one [v:]-prefixed
    field per template variable, in order. It resolves with the response, or
    with undefined after logging the error of that request. *)
Theorem sendEmail_request (to templateName subject : string)
  (templateVars : TemplateVars Value) (w : MailWorld Net)
  (key domain : string)
  (axios : Request Value -> Net -> Outcome Response * Net) :
  (forall f k v, form_append f k v = Resolved (f ++ [(k, Var v)])) ->
  templateVars <> Null ->
  config_get "emailService.privateApiKey" = Resolved key ->
  config_get "emailService.testDomain" = Resolved domain ->
  exists request,
    request =
      {| method := "post";
         url := "https://api.mailgun.net/v3/" +:+ domain +:+ "/messages";
         headers := [("Authorization", "Basic " +:+ base64 ("api:" +:+ key));
                     ("Content-Type", "multipart/form-data")];
         data := fixed_fields to templateName subject
                 ++ map var_field (entries_of templateVars) |}
    /\ sendEmail form_append config_get base64 axios
         to templateName subject templateVars w =
       match axios request (net w) with
       | (Resolved response, n) =>
           (Resolved (Some response), {| net := n; console := console w |})
       | (Thrown error, n) =>
           (Resolved None, {| net := n; console := console w ++ [error] |})
       end.
Proof.
  intros Hform Hvars Hkey Hdomain. eexists. split; [reflexivity |].
  unfold sendEmail, try_catch, sendEmail_try. unfold bind at 1.
  assert (Hkeys : object_keys templateVars w
                  = (Resolved (entries_of templateVars), w)).
  { destruct templateVars; [reflexivity | contradiction | reflexivity]. }
  rewrite Hkeys. unfold bind at 1.
  rewrite (append_vars_appends _ _ _ Hform).
  unfold bind, lift. rewrite Hkey, Hdomain. unfold axios_call.
  change ("api" +:+ ":" +:+ key) with ("api:" +:+ key).
  destruct (axios _ (net w)) as [[response | error] n]; reflexivity.
Qed.

End SendEmailRequest.

(** * The further properties in the scenario *)

Import ScenarioX.

Lemma bob_ordered_P1 : has_order (db world1) (User._id bob) "P1".
Proof.
  exists O2, {| Order.productId := "P1" |}.
  split; [right; left; reflexivity |]. split; [reflexivity |].
  split; [left; reflexivity | reflexivity].
Qed.

Lemma ada_ordered_P1 (w : World nat) :
  Db.orders (db w) = [O1; O2] -> has_order (db w) (User._id ada) "P1".
Proof.
  intros Ho. exists O1, {| Order.productId := "P1" |}. rewrite Ho.
  split; [left; reflexivity |]. split; [reflexivity |].
  split; [left; reflexivity | reflexivity].
Qed.

(** [bob] reviews [P1] after [ada]: the average stored is that of the rating
    of [ada] alone. *)
Lemma addProductReview_average_of_earlier_ratings_witness :
  Db.findOne (db world1) "P1" = Some P1_ada
  /\ Product.feedbackDetails P1_ada = [review_of_ada]
  /\ ~ has_reviewed P1_ada (User._id bob)
  /\ has_order (db world1) (User._id bob) "P1"
  /\ exists product' new,
       Db.findOne
         (db (snd (addProductReview ledger "P1" (JsNumber.of_Z 2) "poor" bob
                     world1))) "P1" = Some product'
       /\ Product.avgRating product'
          = Some (mean_toFixed2 (Feedback.rating review_of_ada) [])
       /\ Product.feedbackDetails product' = review_of_ada :: [] ++ [new]
       /\ Feedback.rating new = JsNumber.of_Z 2
       /\ Feedback.customerId new = User._id bob.
Proof.
  assert (Hp : Db.findOne (db world1) "P1" = Some P1_ada)
    by (vm_compute; reflexivity).
  assert (Hnew : ~ has_reviewed P1_ada (User._id bob)).
  { intros (f & [<- | []] & Hc). discriminate Hc. }
  split; [exact Hp |]. split; [reflexivity |]. split; [exact Hnew |].
  split; [exact bob_ordered_P1 |].
  exact (addProductReview_average_of_earlier_ratings ledger "P1"
           (JsNumber.of_Z 2) "poor" bob world1 P1_ada review_of_ada []
           Hp eq_refl Hnew bob_ordered_P1).
Defined.

(** [ada] reviews [P1], and her review is removed again. *)
Lemma removeProductReview_undoes_addProductReview_witness :
  Db.findOne (db world) "P1" = Some P1
  /\ ~ has_reviewed P1 (User._id ada)
  /\ has_order (db world) (User._id ada) "P1"
  /\ ~ has_review P1 (fst (new_object_id ledger (outside world)))
  /\ exists product2,
       Db.findOne
         (db (snd (removeProductReview ledger "P1"
                     (fst (new_object_id ledger (outside world)))
                     (snd (addProductReview ledger "P1" (JsNumber.of_Z 4) "good"
                             ada world))))) "P1" = Some product2
       /\ Product.feedbackDetails product2 = Product.feedbackDetails P1
       /\ Product.avgRating product2 = Some "0".
Proof.
  assert (Hnew : ~ has_reviewed P1 (User._id ada))
    by (intros (f & [] & _)).
  assert (Hfresh : ~ has_review P1 (fst (new_object_id ledger (outside world))))
    by (intros (f & [] & _)).
  split; [reflexivity |]. split; [exact Hnew |].
  split; [exact (ada_ordered_P1 world eq_refl) |]. split; [exact Hfresh |].
  destruct (removeProductReview_undoes_addProductReview ledger "P1"
              (JsNumber.of_Z 4) "good" ada world P1 eq_refl Hnew
              (ada_ordered_P1 world eq_refl) Hfresh)
    as (envelope & product2 & _ & Hfound & Hlist & Havg).
  exists product2. split; [exact Hfound |]. split; [exact Hlist | exact Havg].
Defined.

Lemma world1_one_review_per_customer : one_review_per_customer (db world1).
Proof.
  intros id p Hp.
  assert (E : Db.products (db world1) = {[ "P1" := P1_ada ]})
    by (vm_compute; reflexivity).
  unfold Db.findOne in Hp. rewrite E in Hp.
  apply lookup_singleton_Some in Hp as [_ <-]. apply NoDup_singleton.
Qed.

(** The store once [ada] has reviewed keeps one review per customer when her
    review is removed. *)
Lemma removeProductReview_one_review_per_customer_witness :
  one_review_per_customer (db world1)
  /\ one_review_per_customer
       (db (snd (removeProductReview ledger "P1" "oid0" world1))).
Proof.
  split; [exact world1_one_review_per_customer |].
  exact (removeProductReview_one_review_per_customer ledger "P1" "oid0" world1
           world1_one_review_per_customer).
Defined.

(** The review of [ada] is removed, and [ada] reviews again. *)
Lemma removed_reviewer_can_review_again_witness :
  Db.findOne (db world1) "P1" = Some P1_ada
  /\ In review_of_ada (Product.feedbackDetails P1_ada)
  /\ Feedback._id review_of_ada = "oid0"
  /\ Feedback.customerId review_of_ada = User._id ada
  /\ NoDup (map Feedback.customerId (Product.feedbackDetails P1_ada))
  /\ has_order (db world1) (User._id ada) "P1"
  /\ exists product' w2,
       addProductReview ledger "P1" (JsNumber.of_Z 5) "better" ada
         (snd (removeProductReview ledger "P1" "oid0" world1))
       = (Resolved {| message := "Product review added successfully";
                      success := true;
                      result := Some product' |}, w2)
       /\ has_reviewed product' (User._id ada).
Proof.
  assert (Hp : Db.findOne (db world1) "P1" = Some P1_ada)
    by (vm_compute; reflexivity).
  assert (Hin : In review_of_ada (Product.feedbackDetails P1_ada))
    by (left; reflexivity).
  assert (Hnodup : NoDup (map Feedback.customerId (Product.feedbackDetails P1_ada))).
  { apply NoDup_singleton. }
  assert (Hord : has_order (db world1) (User._id ada) "P1").
  { apply ada_ordered_P1. vm_compute. reflexivity. }
  split; [exact Hp |]. split; [exact Hin |]. split; [reflexivity |].
  split; [reflexivity |]. split; [exact Hnodup |]. split; [exact Hord |].
  exact (removed_reviewer_can_review_again ledger "P1" "oid0" (JsNumber.of_Z 5)
           "better" ada world1 P1_ada review_of_ada Hp Hin eq_refl eq_refl
           Hnodup Hord).
Defined.

(** The batch over a ledger that is down: the second entry needs a price. *)
Lemma updateProductSku_throws_store_unchanged_witness :
  updateProductSku ledger_down "P1" batch world
  = (Thrown (Rejection "StripeConnectionError"),
     snd (updateProductSku ledger_down "P1" batch world))
  /\ db (snd (updateProductSku ledger_down "P1" batch world)) = db world.
Proof.
  assert (Hrun : updateProductSku ledger_down "P1" batch world
                 = (Thrown (Rejection "StripeConnectionError"),
                    snd (updateProductSku ledger_down "P1" batch world)))
    by (vm_compute; reflexivity).
  split; [exact Hrun |].
  exact (updateProductSku_throws_store_unchanged ledger_down "P1" batch world
           _ _ Hrun).
Defined.

Lemma updateProductSku_empty_batch_witness :
  Db.findOne (db world) "P1" = Some P1
  /\ exists s',
       updateProductSku ledger "P1" [] world =
       (Resolved ([], {| message := "Product sku updated successfully";
                         success := true;
                         result := tt |}),
        {| db := db world; outside := s';
           calls := calls world
                    ++ [ProductDBFindOne "P1";
                        ProductDBFindOneAndUpdate (ById "P1")
                          (PushSkuDetails [])] |}).
Proof.
  split; [reflexivity |].
  exact (updateProductSku_empty_batch ledger "P1" world P1 eq_refl).
Defined.

(** Deleting [S1] over a ledger that is down. *)
Lemma deleteProductSkuById_ledger_failure_witness :
  Db.findOne (db world) "P1" = Some P1
  /\ find (Db.sku_has_id "S1") (Product.skuDetails P1) = Some sku1
  /\ stripe_prices_update ledger_down (Sku.stripePriceId sku1)
       {| Stripe.active := false |} (outside world)
     = (Thrown (Rejection "StripeConnectionError"), 0%nat)
  /\ deleteProductSkuById ledger_down "P1" "S1" world =
     (Thrown (Rejection "StripeConnectionError"),
      {| db := db world; outside := 0%nat;
         calls := calls world
                  ++ [ProductDBFindOne "P1";
                      StripePricesUpdate (Sku.stripePriceId sku1)
                        {| Stripe.active := false |}] |}).
Proof.
  split; [reflexivity |]. split; [reflexivity |]. split; [reflexivity |].
  exact (deleteProductSkuById_ledger_failure ledger_down "P1" "S1" world P1
           sku1 _ 0%nat eq_refl eq_refl eq_refl).
Defined.

Lemma deleteProductSkuById_twice_witness :
  Db.findOne (db world) "P1" = Some P1
  /\ find (Db.sku_has_id "S1") (Product.skuDetails P1) = Some sku1
  /\ stripe_prices_update ledger (Sku.stripePriceId sku1)
       {| Stripe.active := false |} (outside world) = (Resolved tt, 0%nat)
  /\ exists envelope w1 e,
       deleteProductSkuById ledger "P1" "S1" world = (Resolved envelope, w1)
       /\ deleteProductSkuById ledger "P1" "S1" w1 =
          (Thrown e,
           {| db := db w1; outside := outside w1;
              calls := calls w1 ++ [ProductDBFindOne "P1"] |}).
Proof.
  split; [reflexivity |]. split; [reflexivity |]. split; [reflexivity |].
  exact (deleteProductSkuById_twice ledger "P1" "S1" world P1 sku1 0%nat
           eq_refl eq_refl eq_refl).
Defined.

(** [P1] has no SKU [S9]; and a new price for [S1] over a ledger that is
    down. *)
Lemma updateProductSkuById_failure_leaves_store_witness :
  sku_absent (db world) "P1" "S9"
  /\ (exists msg,
        updateProductSkuById ledger "P1" "S9" patch_new_price world =
        (Thrown (Error msg),
         {| db := db world; outside := outside world;
            calls := calls world ++ [ProductDBFindOne "P1"] |})
        /\ (msg = "Product does not exist" \/ msg = "Sku does not exist"))
  /\ updateProductSkuById ledger_down "P1" "S1" patch_new_price world
     = (Thrown (Rejection "StripeConnectionError"),
        snd (updateProductSkuById ledger_down "P1" "S1" patch_new_price world))
  /\ db (snd (updateProductSkuById ledger_down "P1" "S1" patch_new_price world))
     = db world.
Proof.
  assert (Habs : sku_absent (db world) "P1" "S9").
  { unfold sku_absent. change (Db.findOne (db world) "P1") with (Some P1).
    intros sku [<- | []]. discriminate. }
  assert (Hrun :
    updateProductSkuById ledger_down "P1" "S1" patch_new_price world
    = (Thrown (Rejection "StripeConnectionError"),
       snd (updateProductSkuById ledger_down "P1" "S1" patch_new_price world)))
    by (vm_compute; reflexivity).
  split; [exact Habs |]. split.
  - exact (proj1 (updateProductSkuById_failure_leaves_store ledger "P1" "S9"
                    patch_new_price world) Habs).
  - split; [exact Hrun |].
    exact (proj2 (updateProductSkuById_failure_leaves_store ledger_down "P1"
                    "S1" patch_new_price world) _ _ Hrun).
Defined.

(** There is no product [P9]. *)
Lemma absent_product_guards_witness :
  Db.findOne (xdb worldX) "P9" = None
  /\ findOneProduct "P9" worldX
     = (Thrown (Error "Product does not exist"),
        {| xdb := xdb worldX; ximages := ximages worldX;
           xoutside := xoutside worldX;
           xcalls := xcalls worldX ++ [Core (ProductDBFindOne "P9")] |})
  /\ uploadProductImage everything "P9" upload worldX
     = (Thrown (Error "Product does not exist"),
        {| xdb := xdb worldX; ximages := ximages worldX;
           xoutside := xoutside worldX;
           xcalls := xcalls worldX ++ [Core (ProductDBFindOne "P9")] |}).
Proof.
  split; [reflexivity |].
  destruct (absent_product_guards everything "P9" "S1" "L1" "KEY-9" renamed
              upload worldX eq_refl _ eq_refl)
    as (H1 & _ & _ & H4 & _).
  split; [exact H1 | exact H4].
Defined.

(** [P1] has no SKU [S9]. *)
Lemma absent_sku_guards_witness :
  Db.findOne (xdb worldX) "P1" = Some P1
  /\ (forall sku, In sku (Product.skuDetails P1) -> Sku._id sku <> "S9")
  /\ addProductSkuLicense everything "P1" "S9" "KEY-9" worldX
     = (Thrown (Error "Sku does not exist"),
        {| xdb := xdb worldX; ximages := ximages worldX;
           xoutside := xoutside worldX;
           xcalls := xcalls worldX ++ [Core (ProductDBFindOne "P1")] |}).
Proof.
  assert (Hno : forall sku, In sku (Product.skuDetails P1) -> Sku._id sku <> "S9")
    by (intros sku [<- | []]; discriminate).
  split; [reflexivity |]. split; [exact Hno |].
  exact (proj1 (absent_sku_guards everything "P1" "S9" "L1" "KEY-9" worldX P1
                  eq_refl Hno _ eq_refl)).
Defined.

Lemma findOneProduct_related_witness :
  Db.findOne (xdb worldX) "P1" = Some P1
  /\ exists relatedProducts,
       findOneProduct "P1" worldX =
       (Resolved {| message := "Product fetched successfully";
                    result := (P1, relatedProducts);
                    success := true |},
        {| xdb := xdb worldX; ximages := ximages worldX;
           xoutside := xoutside worldX;
           xcalls := xcalls worldX
                     ++ [Core (ProductDBFindOne "P1");
                         ProductDBFindRelatedProducts (Product.category P1)
                           "P1"] |})
       /\ forall r,
            In r relatedProducts <->
            exists k,
              k <> "P1" /\ Db.findOne (xdb worldX) k = Some r
              /\ Product.category r = Product.category P1.
Proof.
  split; [reflexivity |].
  exact (findOneProduct_related "P1" worldX P1 eq_refl).
Defined.


Lemma removeProduct_deletes_before_ledger_witness :
  Db.findOne (xdb worldX) "P1" = Some P1
  /\ exists w',
       removeProduct nothing "P1" worldX
       = (Thrown (Rejection "StripeConnectionError"), w')
       /\ Db.findOne (xdb w') "P1" = None
       /\ Db.licenses (xdb w') = [L1; L2; L3].
Proof.
  split; [reflexivity |].
  destruct (removeProduct_deletes_before_ledger nothing "P1" worldX P1 eq_refl)
    as (w' & Hrun & _ & Hgone & _ & Hlic).
  exists w'. split; [exact Hrun |]. split; [exact Hgone | exact Hlic].
Defined.

Lemma created_product_is_found_witness :
  exists dto' envelope w1 relatedProducts w2,
    lift_core (createProduct (core everything) new_product) worldX
    = (Resolved (dto', envelope), w1)
    /\ findOneProduct (Product._id (result envelope)) w1 =
       (Resolved {| message := "Product fetched successfully";
                    result := (result envelope, relatedProducts);
                    success := true |}, w2)
    /\ Product.productName (result envelope) = "Compiler".
Proof.
  destruct (lift_core (createProduct (core everything) new_product) worldX)
    as [[[dto' envelope] | e] w1] eqn:Hrun; [| vm_compute in Hrun; discriminate].
  destruct (created_product_is_found everything new_product dto' envelope
              worldX w1 Hrun) as (related & w2 & Hfind & _ & Hname & _).
  exists dto', envelope, w1, related, w2.
  split; [reflexivity |]. split; [exact Hfind | exact Hname].
Defined.

Lemma fresh_license_id :
  no_license_has (fst (new_object_id (core everything) (xoutside worldX)))
    (xdb worldX).
Proof. intros l [<- | [<- | [<- | []]]]; discriminate. Qed.

Lemma added_license_is_listed_witness :
  Db.findOne (xdb worldX) "P1" = Some P1
  /\ In sku1 (Product.skuDetails P1)
  /\ Sku._id sku1 = "S1"
  /\ no_license_has (fst (new_object_id (core everything) (xoutside worldX)))
       (xdb worldX)
  /\ exists l w1 w2,
       addProductSkuLicense everything "P1" "S1" "KEY-4" worldX =
       (Resolved {| message := "License key added successfully";
                    success := true;
                    result := l |}, w1)
       /\ getProductSkuLicenses "P1" "S1" w1 =
          (Resolved {| message := "Licenses fetched successfully";
                       success := true;
                       result := [L1; l] |}, w2).
Proof.
  split; [reflexivity |]. split; [left; reflexivity |]. split; [reflexivity |].
  split; [exact fresh_license_id |].
  destruct (added_license_is_listed everything "P1" "S1" "KEY-4" worldX P1 sku1
              eq_refl (or_introl eq_refl) eq_refl fresh_license_id)
    as (l & w1 & w2 & Hadd & _ & _ & _ & Hlist).
  exists l, w1, w2. split; [exact Hadd | exact Hlist].
Defined.

Lemma removeProductSkuLicense_undoes_add_witness :
  Db.findOne (xdb worldX) "P1" = Some P1
  /\ In sku1 (Product.skuDetails P1)
  /\ Sku._id sku1 = "S1"
  /\ no_license_has (fst (new_object_id (core everything) (xoutside worldX)))
       (xdb worldX)
  /\ exists l w1 w2,
       addProductSkuLicense everything "P1" "S1" "KEY-4" worldX =
       (Resolved {| message := "License key added successfully";
                    success := true;
                    result := l |}, w1)
       /\ removeProductSkuLicense (License._id l) w1 =
          (Resolved {| message := "License key removed successfully";
                       success := true;
                       result := Some l |}, w2)
       /\ xdb w2 = xdb worldX.
Proof.
  split; [reflexivity |]. split; [left; reflexivity |]. split; [reflexivity |].
  split; [exact fresh_license_id |].
  exact (removeProductSkuLicense_undoes_add everything "P1" "S1" "KEY-4" worldX
           P1 sku1 eq_refl (or_introl eq_refl) eq_refl fresh_license_id).
Defined.

(** Removing [L2] takes it out of the licenses and nothing else; removing
    a license that is not there resolves with null and changes nothing. *)
Lemma removeProductSkuLicense_removes_at_most_one_witness :
  (exists envelope w',
     removeProductSkuLicense "L2" worldX = (Resolved envelope, w')
     /\ result envelope = Some L2
     /\ Db.licenses (xdb w') = [L1; L3]
     /\ xcalls w' = xcalls worldX ++ [ProductDBRemoveLicense "L2"])
  /\ exists envelope w',
       removeProductSkuLicense "L9" worldX = (Resolved envelope, w')
       /\ result envelope = None
       /\ xdb w' = xdb worldX.
Proof.
  split.
  - destruct (removeProductSkuLicense "L2" worldX) as [[envelope | e] w']
      eqn:Hrun; [| vm_compute in Hrun; discriminate Hrun].
    destruct (removeProductSkuLicense_removes_at_most_one "L2" worldX w'
                envelope Hrun) as (Hcalls & _).
    exists envelope, w'. split; [reflexivity |].
    vm_compute in Hrun. injection Hrun as <- <-.
    split; [reflexivity |]. split; [reflexivity | exact Hcalls].
  - destruct (removeProductSkuLicense "L9" worldX) as [[envelope | e] w']
      eqn:Hrun; [| vm_compute in Hrun; discriminate Hrun].
    destruct (removeProductSkuLicense_removes_at_most_one "L9" worldX w'
                envelope Hrun) as (_ & _ & _ & Hresult & _).
    exists envelope, w'. split; [reflexivity |].
    assert (Hrun' := Hrun). vm_compute in Hrun'. injection Hrun' as <- _.
    split; [reflexivity |]. exact (proj2 Hresult).
Defined.

(** The license [L2] belongs to another product; it is updated through
    [P1] and [S1]. *)
Lemma updateProductSkuLicense_unscoped_witness :
  Db.findOne (xdb worldX) "P1" = Some P1
  /\ In sku1 (Product.skuDetails P1)
  /\ Sku._id sku1 = "S1"
  /\ find (Repository.license_has_id "L2") (Db.licenses (xdb worldX)) = Some L2
  /\ License.product L2 <> "P1"
  /\ exists w',
       updateProductSkuLicense "P1" "S1" "L2" "KEY-NEW" worldX =
       (Resolved {| message := "License key updated successfully";
                    success := true;
                    result := Some (Repository.with_key "KEY-NEW" L2) |}, w')
       /\ find (Repository.license_has_id "L2") (Db.licenses (xdb w'))
          = Some (Repository.with_key "KEY-NEW" L2).
Proof.
  split; [reflexivity |]. split; [left; reflexivity |]. split; [reflexivity |].
  split; [reflexivity |]. split; [discriminate |].
  destruct (updateProductSkuLicense_unscoped "P1" "S1" "L2" "KEY-NEW" worldX
              P1 sku1 L2 eq_refl (or_introl eq_refl) eq_refl eq_refl)
    as (w' & Hrun & Hfind & _).
  exists w'. split; [exact Hrun | exact Hfind].
Defined.

Lemma deleted_sku_has_no_licenses_witness :
  exists envelope w1,
    lift_core (deleteProductSkuById (core everything) "P1" "S1") worldX
    = (Resolved envelope, w1)
    /\ getProductSkuLicenses "P1" "S1" w1 =
       (Thrown (Error "Sku does not exist"),
        {| xdb := xdb w1; ximages := ximages w1; xoutside := xoutside w1;
           xcalls := xcalls w1 ++ [Core (ProductDBFindOne "P1")] |})
    /\ Repository.findLicense (xdb w1) "P2" "S1" = [].
Proof.
  destruct (lift_core (deleteProductSkuById (core everything) "P1" "S1") worldX)
    as [[envelope | e] w1] eqn:Hrun; [| vm_compute in Hrun; discriminate].
  destruct (deleted_sku_has_no_licenses everything "P1" "S1" envelope worldX w1
              Hrun) as (Hlist & Hnone).
  exists envelope, w1. split; [reflexivity |].
  split; [exact Hlist | exact (Hnone "P2")].
Defined.

(** Uploading an image for [P1], which has one: over an outside where the
    media host refuses the upload nothing follows the upload. *)
Lemma uploadProductImage_call_order_witness :
  Db.findOne (xdb worldX) "P1" = Some P1
  /\ exists new rest,
       xcalls (snd (uploadProductImage nothing "P1" upload worldX))
       = xcalls worldX ++ new
       /\ map operation new = [OpFindOne; OpDestroy; OpUpload]
       /\ rest = [OpUnlink; OpSetImage; OpLedgerUpdate]
       /\ xdb (snd (uploadProductImage nothing "P1" upload worldX)) = xdb worldX.
Proof.
  split; [reflexivity |].
  destruct (uploadProductImage_call_order nothing "P1" upload worldX P1 eq_refl)
    as (new & rest & Hcalls & Hpipe & _ & _ & Hstore).
  assert (Hnew : new = skipn 0 (xcalls (snd (uploadProductImage nothing "P1"
                                              upload worldX)))).
  { rewrite Hcalls. reflexivity. }
  vm_compute in Hnew. subst new.
  assert (Hrest : rest = [OpUnlink; OpSetImage; OpLedgerUpdate]).
  { vm_compute in Hpipe. congruence. }
  eexists _, rest. split; [exact Hcalls |]. split; [reflexivity |].
  split; [exact Hrest |].
  apply Hstore. vm_compute. intros [H | [H | [H | []]]]; discriminate.
Defined.

(** Uploading an image for [P1], which has an old asset: the URL stored
    and returned is the one the media host answered. *)
Lemma uploadProductImage_resolved_witness :
  Db.findOne (xdb worldX) "P1" = Some P1
  /\ config_get everything "cloudinary.bigSize" = Resolved ("500" +:+ "x" +:+ "400")
  /\ exists envelope w' folder prefix now uploaded s1 s2,
       uploadProductImage everything "P1" upload worldX = (Resolved envelope, w')
       /\ cloudinary_upload everything (File.path upload)
            (upload_options folder prefix now "500" "400") s1
          = (Resolved uploaded, s2)
       /\ result envelope = ImageDetails.secure_url uploaded
       /\ result envelope = "https://res.cloudinary.com/product_1700000000000"
       /\ Db.findOne (xdb w') "P1"
          = Some (Repository.with_image (ImageDetails.secure_url uploaded) P1)
       /\ ximages w' !! "P1" = Some uploaded
       /\ length (xcalls w') = 6%nat.
Proof.
  split; [reflexivity |]. split; [reflexivity |].
  destruct (uploadProductImage everything "P1" upload worldX)
    as [[envelope | e] w'] eqn:Hrun; [| vm_compute in Hrun; discriminate].
  destruct (uploadProductImage_resolved everything "P1" upload worldX w' P1
              envelope "500" "400" eq_refl eq_refl eq_refl eq_refl Hrun)
    as (folder & prefix & now & uploaded & s0 & s1 & s2 & s3
        & _ & _ & _ & _ & Hup & _ & _ & Hcalls & Henv & Hdb & Himg).
  exists envelope, w', folder, prefix, now, uploaded, s1, s2.
  split; [reflexivity |]. split; [exact Hup |].
  split; [rewrite Henv; reflexivity |].
  split.
  { assert (Hrun' := Hrun). vm_compute in Hrun'. injection Hrun' as <- _.
    reflexivity. }
  split; [rewrite Hdb; unfold Db.findOne; simpl; apply lookup_insert_eq |].
  split; [rewrite Himg; apply lookup_insert_eq |].
  rewrite Hcalls. reflexivity.
Defined.

(** The home page, asked for with [homepage=1]. *)
Lemma findAllProducts_homepage_witness :
  home_query !! "homepage" = Some "1"
  /\ nonempty "1" = true
  /\ exists groups,
       Listing.findAllProducts nonempty parse find_all group_all
         home_query worldX
       = (Resolved {| message := "Products fetched successfully";
                      result := Listing.Homepage groups;
                      success := true |}, worldX).
Proof.
  assert (Hq : home_query !! "homepage" = Some "1") by (vm_compute; reflexivity).
  split; [exact Hq |]. split; [reflexivity |].
  pose proof (proj1 (findAllProducts_homepage nonempty parse group_all
                       home_query "1" worldX Hq eq_refl find_all)) as Hrun.
  eexists. rewrite Hrun. reflexivity.
Defined.

(** A search with no limit: one product, limit 10, one page. *)
Lemma findAllProducts_default_page_witness :
  exists parsed total products metadata message,
    parse (delete "homepage" search_query) = Resolved parsed
    /\ find_all (Listing.criteria parsed) (Listing.options parsed) (xdb worldX)
       = Resolved (total, products)
    /\ Listing.findAllProducts nonempty parse find_all group_all
         search_query worldX
       = (Resolved {| message := message;
                      result := Listing.Page metadata products;
                      success := true |}, worldX)
    /\ Listing.m_limit metadata = JsNumber.of_Z 10
    /\ Listing.m_pages metadata = JsNumber.of_Z 1.
Proof.
  assert (Hq : match search_query !! "homepage" with
               | Some v => nonempty v
               | None => false
               end = false) by (vm_compute; reflexivity).
  destruct (findAllProducts_default_page nonempty parse group_all
              search_query worldX _ _ _ find_all Hq eq_refl eq_refl eq_refl)
    as (metadata & message & Hrun & Hlimit & Hpages & _).
  eexists _, _, _, metadata, message.
  split; [reflexivity |]. split; [reflexivity |].
  split; [exact Hrun |]. split; [exact Hlimit | exact Hpages].
Defined.

(** An email with [null] for variables, and one over no configuration. *)
Lemma sendEmail_fails_before_request_witness :
  (exists error,
     MailHandler.sendEmail take_all settings (fun s => s) answer
       "ada@example.org" "welcome" "Welcome" MailHandler.Null mail_world
     = (Resolved None,
        {| MailHandler.net := 0%nat; MailHandler.console := [error] |}))
  /\ (exists e, no_settings "emailService.privateApiKey" = Thrown e)
  /\ exists error,
       MailHandler.sendEmail take_all no_settings (fun s => s) answer
         "ada@example.org" "welcome" "Welcome"
         (MailHandler.Vars [("name", "Ada")]) mail_world
       = (Resolved None,
          {| MailHandler.net := 0%nat; MailHandler.console := [error] |}).
Proof.
  assert (Hkey : exists e, no_settings "emailService.privateApiKey" = Thrown e)
    by (eexists; reflexivity).
  split; [| split; [exact Hkey |]].
  - destruct (sendEmail_fails_before_request (Response := nat) take_all
                settings (fun s => s) "ada@example.org" "welcome" "Welcome"
                MailHandler.Null mail_world (or_introl eq_refl))
      as (error & Hrun).
    exists error. exact (Hrun answer).
  - destruct (sendEmail_fails_before_request (Response := nat) take_all
                no_settings (fun s => s) "ada@example.org" "welcome" "Welcome"
                (MailHandler.Vars [("name", "Ada")]) mail_world
                (or_intror (or_introl Hkey)))
      as (error & Hrun).
    exists error. exact (Hrun answer).
Defined.

Lemma sendEmail_request_witness :
  (forall f k v, take_all f k v = Resolved (f ++ [(k, MailHandler.Var v)]))
  /\ MailHandler.Vars [("name", "Ada")] <> MailHandler.Null
  /\ settings "emailService.privateApiKey" = Resolved "key-123"
  /\ settings "emailService.testDomain" = Resolved "sandbox.mailgun.org"
  /\ MailHandler.sendEmail take_all settings (fun s => s) answer
       "ada@example.org" "welcome" "Welcome"
       (MailHandler.Vars [("name", "Ada")]) mail_world
     = (Resolved (Some 200%nat),
        {| MailHandler.net := 1%nat; MailHandler.console := [] |}).
Proof.
  assert (Hform : forall f k v,
            take_all f k v = Resolved (f ++ [(k, MailHandler.Var v)]))
    by reflexivity.
  assert (Hvars : MailHandler.Vars [("name", "Ada")]
                  <> @MailHandler.Null string) by discriminate.
  split; [exact Hform |]. split; [exact Hvars |].
  split; [reflexivity |]. split; [reflexivity |].
  destruct (sendEmail_request take_all settings (fun s => s)
              "ada@example.org" "welcome" "Welcome"
              (MailHandler.Vars [("name", "Ada")]) mail_world
              "key-123" "sandbox.mailgun.org" answer Hform Hvars
              eq_refl eq_refl) as (request & _ & Hrun).
  rewrite Hrun. reflexivity.
Defined.
